(** * generate_cheatsheet.ts: a shallow embedding and its properties

    The script loads a list of documentation sources, and for each one clones
    the repository, extracts its documentation, asks a text-generation API for
    a cheatsheet and saves it.  This development embeds the script's functions
    ([runCommand], [generateCheatsheetWithGemini], [saveCheatsheet],
    [processSource], [run] and the module's top level) as functions over an
    explicit world, and settles the properties stated about them.

    Conventions.
    - A JavaScript string is a [string]: a sequence of code units, here the
      code units below 256.  The pictographs that open many console messages
      lie outside that range; console output is kept as structured lines
      ([Msg]) that carry the interpolated values.
    - JavaScript exceptions, [process.exit] and normal return are the three
      ways a computation can end ([Completion]).
    - Everything the script does not define itself (the file system faults,
      child processes, the generation API, [JSON.parse], the environment and
      the command line) is a field of [Host]. *)

From Stdlib Require Import String Ascii List Bool Arith NArith ZArith Lia.
From Stdlib Require Import DecimalString.
Import ListNotations.
Open Scope string_scope.
Set Implicit Arguments.
Set Warnings "-register-all".

(* ------------------------------------------------------------------ *)
(** ** JavaScript strings *)

Module JsString.

Definition unit_code (c : ascii) : N := N_of_ascii c.

Definition between (lo hi : N) (c : ascii) : bool :=
    ((lo <=? unit_code c) && (unit_code c <=? hi))%N.

  (** One code unit of [String.prototype.toLowerCase]: A-Z, and the capital
      letters of the Latin-1 block (all of U+00C0..U+00DE but the
      multiplication sign U+00D7). *)
Definition lower_unit (c : ascii) : ascii :=
    if between 65 90 c || (between 192 222 c && negb (unit_code c =? 215)%N)
    then ascii_of_N (unit_code c + 32)
    else c.

  (** [s.toLowerCase()] on the strings of this development, whose code units
      lie below 256: there the conversion goes unit by unit.  Beyond them it
      need not (U+0130 becomes two units), so no property below is about the
      length of a lower-cased name. *)
Fixpoint toLowerCase (s : string) : string :=
    match s with
    | EmptyString => EmptyString
    | String c s' => String (lower_unit c) (toLowerCase s')
    end.

  (** The character class [[a-z0-9]]. *)
Definition in_a_z_0_9 (c : ascii) : bool := between 97 122 c || between 48 57 c.

  (** [s.replace(/[^a-z0-9]/g, '_')]: every code unit outside the class
      becomes an underscore. *)
Fixpoint replace_each (s : string) : string :=
    match s with
    | EmptyString => EmptyString
    | String c s' => String (if in_a_z_0_9 c then c else "_"%char) (replace_each s')
    end.

  (** [s.replace(/[^a-z0-9]+/g, '_')]: the scan of a global replace with a
      greedy [+]; [matching] tells that the previous unit belongs to the match
      being consumed, whose replacement has been emitted already. *)
Fixpoint replace_runs_from (matching : bool) (s : string) : string :=
    match s with
    | EmptyString => EmptyString
    | String c s' =>
        if in_a_z_0_9 c then String c (replace_runs_from false s')
        else if matching then replace_runs_from true s'
        else String "_"%char (replace_runs_from true s')
    end.

Definition replace_runs (s : string) : string := replace_runs_from false s.

  (** White space for [String.prototype.trim]: TAB, LF, VT, FF, CR, SP and
      NBSP. *)
Definition is_space (c : ascii) : bool :=
    between 9 13 c || (unit_code c =? 32)%N || (unit_code c =? 160)%N.

Fixpoint trimStart (s : string) : string :=
    match s with
    | String c s' => if is_space c then trimStart s' else s
    | EmptyString => EmptyString
    end.

  (** [trimEnd] drops a unit when it is white space and all that follows it
      has been dropped. *)
Fixpoint trimEnd (s : string) : string :=
    match s with
    | EmptyString => EmptyString
    | String c s' =>
        match trimEnd s' with
        | EmptyString => if is_space c then EmptyString else String c EmptyString
        | t => String c t
        end
    end.

Definition trim (s : string) : string := trimEnd (trimStart s).

Fixpoint startsWith (s p : string) : bool :=
    match p, s with
    | EmptyString, _ => true
    | String a p', String b s' => Ascii.eqb a b && startsWith s' p'
    | String _ _, EmptyString => false
    end.

Fixpoint includes (s p : string) : bool :=
    startsWith s p ||
    match s with
    | EmptyString => false
    | String _ s' => includes s' p
    end.

  (** [s.split(sep)] for a one-unit separator: never the empty list. *)
Fixpoint split (sep : ascii) (s : string) : list string :=
    match s with
    | EmptyString => [EmptyString]
    | String c s' =>
        if Ascii.eqb c sep then EmptyString :: split sep s'
        else match split sep s' with
             | h :: t => String c h :: t
             | [] => [String c EmptyString]
             end
    end.

  (** [xs.join(sep)]. *)
Fixpoint join (sep : string) (xs : list string) : string :=
    match xs with
    | [] => EmptyString
    | [x] => x
    | x :: rest => x ++ sep ++ join sep rest
    end.

  (** [Buffer.byteLength(s)]: the length of the UTF-8 encoding. *)
Fixpoint byteLength (s : string) : N :=
    match s with
    | EmptyString => 0
    | String c s' => ((if unit_code c <? 128 then 1 else 2) + byteLength s')%N
    end.

  (** Decimal rendering of an integer in a template literal. *)
Definition ofZ (z : Z) : string := NilZero.string_of_int (Z.to_int z).

End JsString.

(* ------------------------------------------------------------------ *)
(** ** node:path, POSIX flavour *)

Module Path.
Import JsString.

Definition isAbsolute (p : string) : bool :=
    match p with
    | String "/"%char _ => true
    | _ => false
    end.

Fixpoint endsWithSlash (p : string) : bool :=
    match p with
    | EmptyString => false
    | String c EmptyString => Ascii.eqb c "/"%char
    | String _ p' => endsWithSlash p'
    end.

  (** One segment of [normalizeString]; [stack] holds the segments kept so
      far, the last one first. *)
Definition push_segment (allowAboveRoot : bool) (stack : list string) (seg : string)
    : list string :=
    if (seg =? "") || (seg =? ".") then stack
    else if seg =? ".." then
      match stack with
      | top :: below =>
          if top =? ".." then (if allowAboveRoot then ".." :: stack else stack)
          else below
      | [] => if allowAboveRoot then [".."] else []
      end
    else seg :: stack.

Definition normalizeString (p : string) (allowAboveRoot : bool) : string :=
    join "/" (rev (fold_left (push_segment allowAboveRoot) (split "/"%char p) [])).

Definition normalize (p : string) : string :=
    if p =? "" then "."
    else
      let n := normalizeString p (negb (isAbsolute p)) in
      if n =? "" then
        (if isAbsolute p then "/" else if endsWithSlash p then "./" else ".")
      else
        let n' := if endsWithSlash p then n ++ "/" else n in
        if isAbsolute p then "/" ++ n' else n'.

  (** [path.join(...args)]: the non-empty arguments, joined and normalized. *)
Definition join_path (args : list string) : string :=
    match filter (fun a => negb (a =? "")) args with
    | [] => "."
    | parts => normalize (join "/" parts)
    end.

  (** The loop of [path.resolve]: arguments from the right, the working
      directory last, until an absolute one has been prepended. *)
Fixpoint resolve_scan (from_right : list string) (resolved : string) : string * bool :=
    match from_right with
    | [] => (resolved, false)
    | p :: more =>
        if p =? "" then resolve_scan more resolved
        else if isAbsolute p then (p ++ "/" ++ resolved, true)
        else resolve_scan more (p ++ "/" ++ resolved)
    end.

Definition resolve (cwd : string) (args : list string) : string :=
    let (resolved, absolute) := resolve_scan (rev args ++ [cwd]) "" in
    let n := normalizeString resolved (negb absolute) in
    if absolute then "/" ++ n
    else if n =? "" then "." else n.

  (** [path.basename(p)]: the last non-empty segment. *)
Definition basename (p : string) : string :=
    match filter (fun a => negb (a =? "")) (rev (split "/"%char p)) with
    | last :: _ => last
    | [] => ""
    end.

End Path.

(* ------------------------------------------------------------------ *)
(** ** Constants of the script *)

Definition TEMP_REPO_DIR : string := "./repo_temp".
Definition CONTAINER_OUTPUT_DIR : string := "/app/output".
Definition SOURCES_DIR : string := "./sources".
Definition DEFAULT_MODEL : string := "gemini-2.5-pro-exp-03-25".

(** The file name computed at the head of [saveCheatsheet]. *)
Definition cheatsheetFilename (projectName : string) : string :=
  JsString.replace_runs (JsString.toLowerCase projectName) ++ "_cheatsheet.md".

Definition fullCheatsheetPath (projectName : string) : string :=
  Path.join_path [CONTAINER_OUTPUT_DIR; cheatsheetFilename projectName].

(** The directory name computed at the head of [processSource]. *)
Definition workspaceName (currentProjectName : string) : string :=
  JsString.replace_each (JsString.toLowerCase currentProjectName).

Definition tempRepoPath (currentProjectName : string) : string :=
  Path.join_path [TEMP_REPO_DIR; workspaceName currentProjectName].

(** The path a command-line argument is loaded from, in [run]. *)
Definition sourceFilePath (cwd sourceFileArg : string) : string :=
  if JsString.startsWith sourceFileArg "/" || JsString.startsWith sourceFileArg "."
  then Path.resolve cwd [sourceFileArg]
  else Path.resolve cwd [SOURCES_DIR; sourceFileArg].

(* ------------------------------------------------------------------ *)
(** ** JavaScript values, errors and completions *)

(** A value as [JSON.parse] builds it ([JUndefined] is what reading an absent
    property gives).  Numbers are the integer ones; an object lists each of
    its keys once. *)
Inductive JsValue : Type :=
| JUndefined
| JNull
| JBool (b : bool)
| JNum (n : Z)
| JStr (s : string)
| JArr (items : list JsValue)
| JObj (fields : list (string * JsValue)).

(** ToBoolean. *)
Definition truthy (v : JsValue) : bool :=
  match v with
  | JUndefined | JNull => false
  | JBool b => b
  | JNum n => negb (n =? 0)%Z
  | JStr s => negb (s =? "")
  | JArr _ | JObj _ => true
  end.

(** ToString succeeds.  A value of [JSON.parse] holds no function: an object
    with a key [toString] of its own has lost the inherited method, its
    [valueOf] gives the object back, and the conversion throws a [TypeError];
    an array converts each of its elements. *)
Fixpoint convertible (v : JsValue) : bool :=
  match v with
  | JArr items => forallb convertible items
  | JObj fields => negb (existsb (fun field => fst field =? "toString") fields)
  | _ => true
  end.

(** A [string | undefined], as [process.env] and optional parameters give. *)
Definition truthy_str (v : option string) : bool :=
  match v with
  | Some s => negb (s =? "")
  | None => false
  end.

(** What is thrown: an [Error] with its message, the [code] that file system
    errors carry, and the [response.promptFeedback] that errors of the
    generation library may carry. *)
Record JsError : Type := mkError {
  message : string;
  code : option string;
  error_promptFeedback : option JsValue
}.

Definition Error (msg : string) : JsError := mkError msg None None.

(** The [TypeError] of a conversion to a string that fails. *)
Definition cannotConvert : JsError := Error "Cannot convert object to primitive value".

(** What a call into the host gives back. *)
Inductive Outcome (A : Type) : Type :=
| Returned (a : A)
| Raised (e : JsError).
Arguments Returned {A} a.
Arguments Raised {A} e.

(** How a computation of the script ends. *)
Inductive Completion (A : Type) : Type :=
| Normal (a : A)
| Throw (e : JsError)
| Exit (status : Z).
Arguments Normal {A} a.
Arguments Throw {A} e.
Arguments Exit {A} status.

Definition dq : string := String (ascii_of_nat 34) EmptyString.
Definition nl : string := String (ascii_of_nat 10) EmptyString.

Fixpoint assoc (key : string) (fields : list (string * JsValue)) : JsValue :=
  match fields with
  | [] => JUndefined
  | (k, v) :: rest => if k =? key then v else assoc key rest
  end.

(** [v.key] for the keys the script reads ([repo], [name], [path]); none of
    them is a property of a string, number, boolean or array. *)
Definition getField (v : JsValue) (key : string) : Outcome JsValue :=
  match v with
  | JObj fields => Returned (assoc key fields)
  | JUndefined => Raised (Error ("undefined is not an object (reading " ++ key ++ ")"))
  | JNull => Raised (Error ("null is not an object (reading " ++ key ++ ")"))
  | _ => Returned JUndefined
  end.

(* ------------------------------------------------------------------ *)
(** ** The generation API's response *)

Record Part : Type := mkPart { part_text : option string }.

Record Candidate : Type := mkCandidate {
  content_parts : option (option (list Part));   (* content?.parts *)
  finishReason : option string;
  candidate_safetyRatings : option JsValue
}.

Record PromptFeedback : Type := mkFeedback {
  blockReason : option string;
  safetyRatings : option JsValue
}.

Record Response : Type := mkResponse {
  text : Outcome string;                          (* response.text() *)
  candidates : option (list Candidate);
  promptFeedback : option PromptFeedback
}.

(* ------------------------------------------------------------------ *)
(** ** Console, disk and host *)

Inductive Stream : Type := console_log | console_error | console_warn.

(** One constructor per console call of the script, with the values it
    interpolates; the comment gives the source line. *)
Inductive Msg : Type :=
| MNoApiKey                                         (* 29 *)
| MUsingModel (model : string)                      (* 34 *)
| MRunning (command : string) (args : list JsValue) (cwd : option string) (* 82 *)
| MCommandFailed (errorMsg : string) (exitCode : option Z)                (* 87 *)
| MStderr (stderr : string)                         (* 88 *)
| MCommandOk (command : string)                     (* 92 *)
| MCallingGemini (toolName : string)                (* 97 *)
| MGeminiCallOk (toolName : string)                 (* 112 *)
| MNoDirectText (toolName : string)                 (* 120 *)
| MGenerationFailed (toolName reason : string)      (* 139 *)
| MSafetyRatings (ratings : JsValue)                (* 141 *)
| MResponseStructure (toolName : string) (r : option Response)            (* 144 *)
| MUnexpectedStart (toolName : string)              (* 151 *)
| MSnippetHeader (toolName : string)                (* 154 *)
| MSnippet (snippet : string)                       (* 156 *)
| MGeminiError (toolName msg : string)              (* 161 *)
| MPromptFeedback (feedback : JsValue)              (* 163 *)
| MSafetyHint                                       (* 165 *)
| MTokenHint                                        (* 167 *)
| MSaved (path : string)                            (* 181 *)
| MSavedHostHint                                    (* 182 *)
| MSaveError (path msg : string)                    (* 184 *)
| MPermissionHint                                   (* 186 *)
| MProcessing (name : JsValue) (origin : string)    (* 197 *)
| MCleaningLeftover (path : string)                 (* 203 *)
| MLeftoverCleanFailed (path msg : string)          (* 208 *)
| MCloning (repo : JsValue) (path : string)         (* 213 *)
| MCheckingDocs (path : string)                     (* 218 *)
| MRunningExtraction (path : string)                (* 224 *)
| MToolNotFound                                     (* 232 *)
| MToolInstallHint                                  (* 233 *)
| MExtracted (bytes : N) (name : string)            (* 244 *)
| MSourceOk (name : string)                         (* 252 *)
| MSourceFailed (name msg : string)                 (* 256 *)
| MCleaning (path : string)                         (* 260 *)
| MCleanFailed (path msg : string)                  (* 265 *)
| MFoundArgs (count : nat)                          (* 277 *)
| MLoadingFile (path : string)                      (* 283 *)
| MSourceAdded (name : JsValue) (file : string)     (* 296 *)
| MMissingKeys (path : string)                      (* 298 *)
| MBadFile (path msg : string)                      (* 302 *)
| MFileNotFound (path : string)                     (* 306 *)
| MNoValidSources                                   (* 312 *)
| MNoArgs                                           (* 318 *)
| MEnvFound                                         (* 324 *)
| MEnvMissing                                       (* 332 *)
| MUsageHeader                                      (* 333 *)
| MUsageFiles                                       (* 334 *)
| MUsageEnv                                         (* 335 *)
| MStarting (count : nat)                           (* 341 *)
| MComplete                                         (* 357 *)
| MTotal (count : nat)                              (* 358 *)
| MSuccesses (count : nat)                          (* 359 *)
| MFailures (count : nat)                           (* 360 *)
| MRule                                             (* 361 *)
| MSomeFailed                                       (* 364 *)
| MAllOk.                                           (* 368 *)

Definition Line : Type := Stream * Msg.

Inductive Node : Type :=
| Dir
| File (content : string).

(** The disk: what lies at each absolute, normalized path. *)
Definition Disk : Type := string -> option Node.

Record SpawnResult : Type := mkSpawn {
  success : bool;
  stdout : string;
  stderr : string;
  exitCode : option Z
}.

(** The calls that leave the process, in the order they are made. *)
Inductive Call : Type :=
| CallRm (path : string)
| CallMkdir (path : string)
| CallWrite (path content : string)
| CallRead (path : string)
| CallSpawn (cmd : list JsValue) (cwd : option string)
| CallGenerate (prompt : string).

(** What the script does not decide.  The fields that take a [nat] are asked
    once per call with the number of calls made before, so that a host may
    answer the same call differently each time; a fault field says whether the
    file system call fails, and with what. *)
Record Host : Type := mkHost {
  cwd : string;
  env : string -> option string;
  argv : list JsValue;   (* minimist's [argv._]: strings, and numbers for arguments that read as numbers *)
  JSON_parse : string -> Outcome JsValue;
  rm_fault : nat -> Disk -> string -> option JsError;
  mkdir_fault : nat -> Disk -> string -> option JsError;
  write_fault : nat -> Disk -> string -> option JsError;
  read_fault : nat -> Disk -> string -> option JsError;
  spawn : nat -> Disk -> list JsValue -> option string -> Outcome (SpawnResult * Disk);
  generateContent : nat -> string -> Outcome (option Response)
}.

Record World : Type := mkWorld {
  disk : Disk;
  console : list Line;
  calls : list Call
}.

Definition clock (w : World) : nat := length (calls w).

Definition print (l : Line) (w : World) : World :=
  mkWorld (disk w) (console w ++ [l]) (calls w).

Definition called (c : Call) (w : World) : World :=
  mkWorld (disk w) (console w) (calls w ++ [c]).

Definition on_disk (d : Disk) (w : World) : World :=
  mkWorld d (console w) (calls w).

(* ------------------------------------------------------------------ *)
(** ** Computations *)

Definition M (A : Type) : Type := World -> Completion A * World.

Definition ret {A} (a : A) : M A := fun w => (Normal a, w).
Definition throw {A} (e : JsError) : M A := fun w => (Throw e, w).
Definition process_exit {A} (status : Z) : M A := fun w => (Exit status, w).

Definition bind {A B} (m : M A) (k : A -> M B) : M B :=
  fun w =>
    match m w with
    | (Normal a, w1) => k a w1
    | (Throw e, w1) => (Throw e, w1)
    | (Exit n, w1) => (Exit n, w1)
    end.

Notation "x <- m ;; k" := (bind m (fun x => k))
  (at level 61, m at next level, right associativity).
Notation "m ;;; k" := (bind m (fun _ => k))
  (at level 61, right associativity).

(** [try { m } catch (e) { handler e }]. *)
Definition try_catch {A} (m : M A) (handler : JsError -> M A) : M A :=
  fun w =>
    match m w with
    | (Throw e, w1) => handler e w1
    | other => other
    end.

(** [try { m } finally { fin }]; [process.exit] runs no [finally] block. *)
Definition try_finally {A} (m : M A) (fin : M unit) : M A :=
  fun w =>
    match m w with
    | (Exit n, w1) => (Exit n, w1)
    | (c, w1) =>
        match fin w1 with
        | (Normal _, w2) => (c, w2)
        | (Throw e, w2) => (Throw e, w2)
        | (Exit n, w2) => (Exit n, w2)
        end
    end.

Definition when (b : bool) (m : M unit) : M unit := if b then m else ret tt.

(** A console call whose message is made of strings, or of values that
    [interpolate] has converted before. *)
Definition say (s : Stream) (m : Msg) : M unit := fun w => (Normal tt, print (s, m) w).

(** [`${v}`]: the conversion of a value inside a template literal. *)
Definition interpolate (v : JsValue) : M unit :=
  if convertible v then ret tt else throw cannotConvert.

Definition of_outcome {A} (o : Outcome A) : M A :=
  match o with
  | Returned a => ret a
  | Raised e => throw e
  end.

(* ------------------------------------------------------------------ *)
(** ** The script *)

(** An element of [sourcesToProcess], the argument of [processSource].  Its
    first three fields hold whatever the configuration file held there. *)
Record SourceSpec : Type := mkSource {
  name : JsValue;
  repo : JsValue;
  path : JsValue;
  sourceOrigin : string
}.

Definition exitCode_text (c : option Z) : string :=
  match c with
  | Some z => JsString.ofZ z
  | None => "null"
  end.

Definition or_default (v : option string) (default : string) : string :=
  match v with
  | Some s => if s =? "" then default else s
  | None => default
  end.

Definition code_is (e : JsError) (c : string) : bool :=
  match code e with
  | Some c' => c' =? c
  | None => false
  end.

Section Script.

Variable host : Host.

  (** *** node:fs *)

Definition absolute (p : string) : string := Path.resolve (cwd host) [p].

  (** [q] is [root] or lies below it. *)
Definition inside (root q : string) : bool :=
    (q =? root) || JsString.startsWith q (root ++ "/").

  (** [q] is [target], or the root, or a directory above [target]. *)
Definition above_or_at (q target : string) : bool :=
    (q =? target) || (q =? "/") ||
    (negb (q =? "") && JsString.startsWith target (q ++ "/")).

Definition existsSync (p : string) : M bool :=
    fun w => (Normal (match disk w (absolute p) with Some _ => true | None => false end), w).

  (** [fs.rmSync(p, { recursive: true, force })]: with [force], nothing to
      remove is no error; otherwise the host says whether the removal fails. *)
Definition rmSync (p : string) (force : bool) : M unit :=
    fun w =>
      let w1 := called (CallRm p) w in
      match disk w (absolute p) with
      | None =>
          if force then (Normal tt, w1)
          else (Throw (mkError ("ENOENT: no such file or directory, rm " ++ p)
                               (Some "ENOENT") None), w1)
      | Some _ =>
          match rm_fault host (clock w) (disk w) p with
          | Some e => (Throw e, w1)
          | None =>
              (Normal tt,
               on_disk (fun q => if inside (absolute p) q then None else disk w q) w1)
          end
      end.

  (** [fs.mkdirSync(p, { recursive: true })]. *)
Definition mkdirSync (p : string) : M unit :=
    fun w =>
      let w1 := called (CallMkdir p) w in
      match mkdir_fault host (clock w) (disk w) p with
      | Some e => (Throw e, w1)
      | None =>
          (Normal tt,
           on_disk (fun q =>
                      if above_or_at q (absolute p)
                      then match disk w q with
                           | None => Some Dir
                           | there => there
                           end
                      else disk w q) w1)
      end.

Definition writeFileSync (p content : string) : M unit :=
    fun w =>
      let w1 := called (CallWrite p content) w in
      match write_fault host (clock w) (disk w) p with
      | Some e => (Throw e, w1)
      | None =>
          (Normal tt,
           on_disk (fun q => if q =? absolute p then Some (File content) else disk w q) w1)
      end.

  (** [fs.readFileSync(p, 'utf-8')]. *)
Definition readFileSync (p : string) : M string :=
    fun w =>
      let w1 := called (CallRead p) w in
      match read_fault host (clock w) (disk w) p with
      | Some e => (Throw e, w1)
      | None =>
          match disk w (absolute p) with
          | Some (File content) => (Normal content, w1)
          | Some Dir =>
              (Throw (mkError ("EISDIR: illegal operation on a directory, read " ++ p)
                              (Some "EISDIR") None), w1)
          | None =>
              (Throw (mkError ("ENOENT: no such file or directory, open " ++ p)
                              (Some "ENOENT") None), w1)
          end
      end.

  (** [spawnSync(cmd, { cwd })]: the child may change the disk. *)
Definition spawnSync (cmd : list JsValue) (cwd : option string) : M SpawnResult :=
    fun w =>
      let w1 := called (CallSpawn cmd cwd) w in
      match spawn host (clock w) (disk w) cmd cwd with
      | Raised e => (Throw e, w1)
      | Returned (r, d) => (Normal r, on_disk d w1)
      end.

  (** [model.generateContent(...)]; the system instruction and the generation
      configuration are constants of every request, the user text is what
      varies. *)
Definition model_generateContent (userText : string) : M (option Response) :=
    fun w =>
      let w1 := called (CallGenerate userText) w in
      match generateContent host (clock w) userText with
      | Raised e => (Throw e, w1)
      | Returned r => (Normal r, w1)
      end.

  (** *** runCommand (lines 80-94) *)

Definition runCommand (command : string) (args : list JsValue)
             (cwd errorMessage : option string) : M string :=
    say console_log (MRunning command args cwd) ;;;
    r <- spawnSync (JStr command :: args) cwd ;;
    if negb (success r) then
      let errorMsg := or_default errorMessage ("Command " ++ dq ++ command ++ dq ++ " failed") in
      say console_error (MCommandFailed errorMsg (exitCode r)) ;;;
      say console_error (MStderr (stderr r)) ;;;
      throw (Error (errorMsg ++ " (Exit Code: " ++ exitCode_text (exitCode r) ++ ")"))
    else
      say console_log (MCommandOk command) ;;;
      ret (stdout r).

  (** *** generateCheatsheetWithGemini (lines 96-172) *)

Definition userPrompt (filesToPromptOutput toolName : string) : string :=
    "Here is the documentation content for " ++ toolName ++ ":" ++ nl ++ nl ++
    "<docs>" ++ nl ++ filesToPromptOutput ++ nl ++ "</docs>" ++ nl ++ nl ++
    "Based *only* on that documentation, generate a **dense**, **complete**, and **self-contained** "
    ++ toolName ++
    " cheatsheet in Markdown format, following the specified format requirements. Remember: NO external links or URLs.".

Definition response_text (response : option Response) : Outcome string :=
    match response with
    | Some r => text r
    | None => Raised (Error "undefined is not an object (evaluating 'response.text')")
    end.

Definition response_candidates (response : option Response) : option (list Candidate) :=
    match response with
    | Some r => candidates r
    | None => None
    end.

Definition response_promptFeedback (response : option Response) : option PromptFeedback :=
    match response with
    | Some r => promptFeedback r
    | None => None
    end.

  (** Lines 121-124: the text of the first candidate's parts, when there are
      any; [join] renders a part without text as the empty string. *)
Definition candidateText (response : option Response) : string :=
    match response_candidates response with
    | Some (first :: _) =>
        match content_parts first with
        | Some (Some (p :: ps)) =>
            JsString.join "" (map (fun part => match part_text part with
                                               | Some t => t
                                               | None => ""
                                               end) (p :: ps))
        | _ => ""
        end
    | _ => ""
    end.

Definition blank (s : string) : bool := (s =? "") || (JsString.trim s =? "").

Definition truthy_opt (v : option JsValue) : bool :=
    match v with
    | Some x => truthy x
    | None => false
    end.

  (** Lines 128-136: the reason and the safety ratings reported for a
      response without text. *)
Definition diagnose (response : option Response) : option string * option JsValue :=
    let feedback := response_promptFeedback response in
    let blockReason0 := match feedback with Some f => blockReason f | None => None end in
    let safetyRatings0 := match feedback with Some f => safetyRatings f | None => None end in
    match response_candidates response with
    | Some (first :: _) =>
        if negb (truthy_str blockReason0) && truthy_str (finishReason first) &&
           negb (or_default (finishReason first) "" =? "STOP")
        then (Some ("Generation stopped: " ++ or_default (finishReason first) ""),
              if truthy_opt (candidate_safetyRatings first)
              then candidate_safetyRatings first else safetyRatings0)
        else (blockReason0, safetyRatings0)
    | _ => (blockReason0, safetyRatings0)
    end.

Definition expectedHeading : string := "## Introduction for the LLM Agent".

Definition snippetOf (combinedCheatsheetText : string) : string :=
    let lines := JsString.split (ascii_of_nat 10) combinedCheatsheetText in
    JsString.join nl (firstn 15 lines) ++ (if (15 <? length lines)%nat then nl ++ "..." else "").

Definition generateCheatsheetWithGemini (filesToPromptOutput toolName : string) : M string :=
    say console_log (MCallingGemini toolName) ;;;
    try_catch
      (response <- model_generateContent (userPrompt filesToPromptOutput toolName) ;;
       say console_log (MGeminiCallOk toolName) ;;;
       combinedCheatsheetText <-
         match response_text response with
         | Returned t => ret t
         | Raised _ =>
             say console_warn (MNoDirectText toolName) ;;;
             ret (candidateText response)
         end ;;
       (if blank combinedCheatsheetText then
          let (blockReason, safetyRatings) := diagnose response in
          (if truthy_str blockReason then
             say console_error (MGenerationFailed toolName (or_default blockReason "")) ;;;
             when (truthy_opt safetyRatings)
                  (say console_error
                       (MSafetyRatings (match safetyRatings with Some r => r | None => JUndefined end)))
           else
             say console_error (MResponseStructure toolName response)) ;;;
          throw (Error ("No cheatsheet content generated for " ++ toolName ++ "."))
        else ret tt) ;;;
       when (negb (JsString.startsWith (JsString.trim combinedCheatsheetText) expectedHeading))
            (say console_warn (MUnexpectedStart toolName)) ;;;
       say console_log (MSnippetHeader toolName) ;;;
       say console_log (MSnippet (snippetOf combinedCheatsheetText)) ;;;
       ret combinedCheatsheetText)
      (fun error =>
         say console_error (MGeminiError toolName (message error)) ;;;
         (if truthy_opt (error_promptFeedback error) then
            say console_error
                (MPromptFeedback (match error_promptFeedback error with
                                  | Some f => f
                                  | None => JUndefined
                                  end))
          else if JsString.includes (message error) "SAFETY" then
            say console_error MSafetyHint
          else
            when (JsString.includes (message error) "token") (say console_error MTokenHint)) ;;;
         throw (Error ("Gemini API failed for " ++ toolName ++ ": " ++ message error))).

  (** *** saveCheatsheet (lines 174-191) *)

Definition saveCheatsheet (content projectName : string) : M unit :=
    let fullCheatsheetPath := fullCheatsheetPath projectName in
    try_catch
      (mkdirSync CONTAINER_OUTPUT_DIR ;;;
       writeFileSync fullCheatsheetPath content ;;;
       say console_log (MSaved fullCheatsheetPath) ;;;
       say console_log MSavedHostHint)
      (fun err =>
         say console_error (MSaveError fullCheatsheetPath (message err)) ;;;
         when (code_is err "EACCES") (say console_error MPermissionHint) ;;;
         throw (Error ("Failed to save cheatsheet for " ++ projectName ++ ": " ++ message err))).

  (** *** processSource (lines 194-269) *)

Definition noOutput (filesToPromptOutput : string) : bool :=
    (filesToPromptOutput =? "") ||
    (String.length (JsString.trim filesToPromptOutput) =? 0)%nat.

  (** The removal of the workspace and the handling of its failure, as
      written twice: lines 204-210 ([leftover = true]) and 261-267. *)
Definition removeWorkspace (tempRepoPath : string) (leftover : bool) : M unit :=
    try_catch
      (rmSync tempRepoPath true)
      (fun rmError =>
         when (negb (code_is rmError "ENOENT"))
              (say console_warn
                   (if leftover
                    then MLeftoverCleanFailed tempRepoPath (message rmError)
                    else MCleanFailed tempRepoPath (message rmError)))).

  (** [path.join(tempRepoPath, currentDocsDir)]: node:path rejects an
      argument that is no string. *)
Definition joinDocsPath (tempRepoPath : string) (currentDocsDir : JsValue) : M string :=
    match currentDocsDir with
    | JStr d => ret (Path.join_path [tempRepoPath; d])
    | _ => throw (Error ("The " ++ dq ++ "path" ++ dq ++ " argument must be of type string"))
    end.

  (** Steps 1 to 3 of the [try] block (lines 202-237): workspace, clone, docs
      path, extraction.  The result is [filesToPromptOutput] with the docs
      directory as a string. *)
Definition processSource_extract (currentProjectName : string)
             (currentRepoUrl currentDocsDir : JsValue) (tempRepoPath : string)
    : M (string * string) :=
    say console_log (MCleaningLeftover tempRepoPath) ;;;
    removeWorkspace tempRepoPath true ;;;
    mkdirSync tempRepoPath ;;;
    interpolate currentRepoUrl ;;;
    say console_log (MCloning currentRepoUrl tempRepoPath) ;;;
    runCommand "git" [JStr "clone"; JStr "--depth=1"; currentRepoUrl; JStr tempRepoPath] None
               (Some ("Failed to clone repository for " ++ currentProjectName)) ;;;
    fullDocsPath <- joinDocsPath tempRepoPath currentDocsDir ;;
    let docsDir := match currentDocsDir with JStr d => d | _ => "" end in
    say console_log (MCheckingDocs fullDocsPath) ;;;
    there <- existsSync fullDocsPath ;;
    (if negb there then
       throw (Error ("Documentation directory not found at specified path: " ++ fullDocsPath
                     ++ " (Relative path: " ++ docsDir ++ ")"))
     else ret tt) ;;;
    say console_log (MRunningExtraction fullDocsPath) ;;;
    filesToPromptOutput <-
      try_catch
        (spawnSync [JStr "files-to-prompt"; JStr "--version"] None ;;;
         runCommand "files-to-prompt" [JStr fullDocsPath] None
                    (Some ("files-to-prompt execution failed for " ++ currentProjectName)))
        (fun e =>
           when (JsString.includes (message e) "ENOENT" ||
                 JsString.includes (message e) "files-to-prompt")
                (say console_error MToolNotFound ;;;
                 say console_error MToolInstallHint) ;;;
           throw e) ;;
    ret (filesToPromptOutput, docsDir).

  (** The whole [try] block (lines 202-252). *)
Definition processSource_try (currentProjectName : string)
             (currentRepoUrl currentDocsDir : JsValue) (tempRepoPath : string) : M unit :=
    extracted <- processSource_extract currentProjectName currentRepoUrl currentDocsDir
                                       tempRepoPath ;;
    let (filesToPromptOutput, docsDir) := extracted in
    (if noOutput filesToPromptOutput then
       throw (Error ("files-to-prompt did not produce any output for " ++ currentProjectName
                     ++ ". Check DOCS_DIR ('" ++ docsDir ++ "') and file contents."))
     else ret tt) ;;;
    say console_log (MExtracted (JsString.byteLength filesToPromptOutput) currentProjectName) ;;;
    cheatsheetContent <- generateCheatsheetWithGemini filesToPromptOutput currentProjectName ;;
    saveCheatsheet cheatsheetContent currentProjectName ;;;
    say console_log (MSourceOk currentProjectName).

  (** The [catch] clause (lines 254-257). *)
Definition processSource_catch (currentProjectName : string) (error : JsError) : M unit :=
    say console_error (MSourceFailed currentProjectName (message error)).

  (** The [finally] clause (lines 258-268). *)
Definition processSource_finally (tempRepoPath : string) : M unit :=
    say console_log (MCleaning tempRepoPath) ;;;
    removeWorkspace tempRepoPath false.

  (** Line 197 converts the name to a string, and line 199 calls
      [toLowerCase] on it, before the [try] block is entered; a name that is
      no string has no such method. *)
Definition processSource (sourceConfig : SourceSpec) : M unit :=
    interpolate (name sourceConfig) ;;;
    say console_log (MProcessing (name sourceConfig) (sourceOrigin sourceConfig)) ;;;
    match name sourceConfig with
    | JStr currentProjectName =>
        let tempRepoPath := tempRepoPath currentProjectName in
        try_finally
          (try_catch
             (processSource_try currentProjectName (repo sourceConfig) (path sourceConfig)
                                tempRepoPath)
             (processSource_catch currentProjectName))
          (processSource_finally tempRepoPath)
    | _ => throw (Error "currentProjectName.toLowerCase is not a function")
    end.

  (** *** run (lines 271-370) *)

  (** [sourceData.repo && sourceData.name && sourceData.path], as a
      condition. *)
Definition hasRequiredKeys (sourceData : JsValue) : Outcome bool :=
    match getField sourceData "repo" with
    | Raised e => Raised e
    | Returned r =>
        if truthy r then
          match getField sourceData "name" with
          | Raised e => Raised e
          | Returned n =>
              if truthy n then
                match getField sourceData "path" with
                | Raised e => Raised e
                | Returned p => Returned (truthy p)
                end
              else Returned false
          end
        else Returned false
    end.

Definition fieldOf (sourceData : JsValue) (key : string) : JsValue :=
    match getField sourceData key with
    | Returned v => v
    | Raised _ => JUndefined
    end.

  (** The [catch] clause of line 301, with [sourcesToProcess] as it is when
      the exception reaches it. *)
Definition run_loadFile_catch (sourceFilePath : string) (sourcesToProcess : list SourceSpec)
             (error : JsError) : M (list SourceSpec * bool) :=
    say console_error (MBadFile sourceFilePath (message error)) ;;;
    ret (sourcesToProcess, true).

  (** The body of the loop over the arguments (lines 279-308); the state is
      [sourcesToProcess] and [hasErrors].  An argument that is no string has
      no [startsWith], and line 279 stands outside every [try].  The [push]
      of line 290 comes before the conversion of the name in line 296, so an
      exception of that line reaches the [catch] clause with the source
      already in the list. *)
Definition run_loadFile (state : list SourceSpec * bool) (sourceFileArg : JsValue)
    : M (list SourceSpec * bool) :=
    let (sourcesToProcess, hasErrors) := state in
    match sourceFileArg with
    | JStr sourceFileArg =>
        let sourceFilePath := sourceFilePath (cwd host) sourceFileArg in
        say console_log (MLoadingFile sourceFilePath) ;;;
        there <- existsSync sourceFilePath ;;
        if there then
          try_catch
            (sourceContent <- readFileSync sourceFilePath ;;
             sourceData <- of_outcome (JSON_parse host sourceContent) ;;
             complete <- of_outcome (hasRequiredKeys sourceData) ;;
             if complete then
               let pushed :=
                 (sourcesToProcess ++
                  [mkSource (fieldOf sourceData "name") (fieldOf sourceData "repo")
                            (fieldOf sourceData "path") (Path.basename sourceFilePath)])%list in
               try_catch
                 (interpolate (fieldOf sourceData "name") ;;;
                  say console_log (MSourceAdded (fieldOf sourceData "name")
                                                (Path.basename sourceFilePath)) ;;;
                  ret (pushed, hasErrors))
                 (run_loadFile_catch sourceFilePath pushed)
             else
               say console_error (MMissingKeys sourceFilePath) ;;;
               ret (sourcesToProcess, true))
            (run_loadFile_catch sourceFilePath sourcesToProcess)
        else
          say console_error (MFileNotFound sourceFilePath) ;;;
          ret (sourcesToProcess, true)
    | _ => throw (Error "sourceFileArg.startsWith is not a function")
    end.

Fixpoint run_loadFiles (sourceFileArgs : list JsValue) (state : list SourceSpec * bool)
    : M (list SourceSpec * bool) :=
    match sourceFileArgs with
    | [] => ret state
    | sourceFileArg :: more =>
        state' <- run_loadFile state sourceFileArg ;;
        run_loadFiles more state'
    end.

  (** Lines 272-338: the sources to process, and [hasErrors]. *)
Definition run_load (sourceFileArgs : list JsValue) : M (list SourceSpec * bool) :=
    if (0 <? length sourceFileArgs)%nat then
      say console_log (MFoundArgs (length sourceFileArgs)) ;;;
      state <- run_loadFiles sourceFileArgs ([], false) ;;
      if (length (fst state) =? 0)%nat then
        say console_error MNoValidSources ;;;
        process_exit 1
      else ret state
    else
      say console_log MNoArgs ;;;
      let repoUrlEnv := env host "REPO_URL" in
      let projectNameEnv := env host "PROJECT_NAME" in
      let docsDirEnv := env host "DOCS_DIR" in
      if truthy_str repoUrlEnv && truthy_str projectNameEnv && truthy_str docsDirEnv then
        say console_log MEnvFound ;;;
        ret ([mkSource (JStr (or_default projectNameEnv "")) (JStr (or_default repoUrlEnv ""))
                       (JStr (or_default docsDirEnv "")) "environment variables"], false)
      else
        say console_error MEnvMissing ;;;
        say console_error MUsageHeader ;;;
        say console_error MUsageFiles ;;;
        say console_error MUsageEnv ;;;
        process_exit 1.

  (** Lines 345-354: the loop over the sources, with its two counters. *)
Fixpoint run_loop (sourcesToProcess : list SourceSpec) (successCount failureCount : nat)
    : M (nat * nat) :=
    match sourcesToProcess with
    | [] => ret (successCount, failureCount)
    | source :: more =>
        counts <- try_catch
                    (processSource source ;;;
                     ret (S successCount, failureCount))
                    (fun _ => ret (successCount, S failureCount)) ;;
        run_loop more (fst counts) (snd counts)
    end.

Definition run (sourceFileArgs : list JsValue) : M unit :=
    loaded <- run_load sourceFileArgs ;;
    let (sourcesToProcess, hasErrors) := loaded in
    say console_log (MStarting (length sourcesToProcess)) ;;;
    counts <- run_loop sourcesToProcess 0 0 ;;
    let (successCount, failureCount) := counts in
    say console_log MComplete ;;;
    say console_log (MTotal (length sourcesToProcess)) ;;;
    say console_log (MSuccesses successCount) ;;;
    say console_log (MFailures failureCount) ;;;
    say console_log MRule ;;;
    if hasErrors || (0 <? failureCount)%nat then
      say console_error MSomeFailed
    else
      say console_log MAllOk.

  (** *** The module's top level (lines 20-39 and 373) *)

Definition main : M unit :=
    let sourceFileArgs := argv host in
    let geminiApiKey := env host "GEMINI_API_KEY" in
    let geminiModel := or_default (env host "GEMINI_MODEL") DEFAULT_MODEL in
    if negb (truthy_str geminiApiKey) then
      say console_error MNoApiKey ;;;
      process_exit 1
    else
      say console_log (MUsingModel geminiModel) ;;;
      run sourceFileArgs.

  (** The status the process ends with: [process.exit]'s argument, 1 when a
      rejection of [run()] is left unhandled, 0 otherwise. *)
Definition exit_status (c : Completion unit) : Z :=
    match c with
    | Normal _ => 0
    | Throw _ => 1
    | Exit status => status
    end.

End Script.

Definition emptyDisk : Disk := fun _ => None.
Definition startWorld (d : Disk) : World := mkWorld d [] [].

(* ------------------------------------------------------------------ *)
(** ** Vocabulary of the properties *)

(** The words of the file-name rule: a string cut into its maximal runs of
    code units inside, or outside, the class [[a-z0-9]]; every run outside
    the class is collapsed to one underscore. *)
Module FilenameSpec.
Import JsString.

  (** The runs of [s], each tagged with the side of the class it lies on. *)
Fixpoint runs (s : string) : list (bool * string) :=
    match s with
    | EmptyString => []
    | String c s' =>
        match runs s' with
        | (k, r) :: rest =>
            if Bool.eqb (in_a_z_0_9 c) k then (k, String c r) :: rest
            else (in_a_z_0_9 c, String c EmptyString) :: (k, r) :: rest
        | [] => [(in_a_z_0_9 c, String c EmptyString)]
        end
    end.

Definition collapse (run : bool * string) : string :=
    if fst run then snd run else "_".

Definition flatten (xs : list string) : string := fold_right append EmptyString xs.

Definition collapsed (s : string) : string := flatten (map collapse (runs s)).

Fixpoint all_units (P : ascii -> bool) (s : string) : bool :=
    match s with
    | EmptyString => true
    | String c s' => P c && all_units P s'
    end.

  (** No two neighbours lie on the same side: the runs are maximal. *)
Fixpoint alternate (tags : list bool) : bool :=
    match tags with
    | a :: ((b :: _) as rest) => negb (Bool.eqb a b) && alternate rest
    | _ => true
    end.

Definition homogeneous (run : bool * string) : bool :=
    negb (snd run =? "") && all_units (fun c => Bool.eqb (in_a_z_0_9 c) (fst run)) (snd run).

  (** [rs] is the decomposition of [s] into maximal runs. *)
Definition maximal_runs_of (s : string) (rs : list (bool * string)) : Prop :=
    flatten (map snd rs) = s /\
    forallb homogeneous rs = true /\
    alternate (map fst rs) = true.

End FilenameSpec.

(** The units a workspace name is made of. *)
Definition workspace_unit (c : ascii) : bool :=
  JsString.in_a_z_0_9 c || Ascii.eqb c "_"%char.

(** Empty or made of white space only. *)
Definition whitespace_only (s : string) : bool :=
  FilenameSpec.all_units JsString.is_space s.

(** What is observed of a world: calls and console lines of some kind. *)
Definition is_write (c : Call) : bool :=
  match c with
  | CallWrite _ _ => true
  | _ => false
  end.

Definition is_generate (c : Call) : bool :=
  match c with
  | CallGenerate _ => true
  | _ => false
  end.

Definition no_call (c : Call) : bool := false.
Definition no_line (l : Line) : bool := false.

(** A line that opens a run of the pipeline on a source (line 197). *)
Definition is_attempt (l : Line) : bool :=
  match snd l with
  | MProcessing _ _ => true
  | _ => false
  end.

(** A line of the generation client's entry (line 97). *)
Definition is_generation_line (l : Line) : bool :=
  match snd l with
  | MCallingGemini _ => true
  | _ => false
  end.

(** The sources attempted so far, in order. *)
Definition attempts (w : World) : list Line := filter is_attempt (console w).

Definition attempt_line (s : SourceSpec) : Line :=
  (console_log, MProcessing (name s) (sourceOrigin s)).

(** The lines that open the runs of the pipeline on [sources]: one for each
    source, those apart whose name cannot be converted to a string, on which
    line 197 throws before anything is printed. *)
Definition attempt_lines (sources : list SourceSpec) : list Line :=
  map attempt_line (filter (fun s => convertible (name s)) sources).

(** [w'] shows the same calls of kind [pc] and the same lines of kind [pl]
    as [w]. *)
Definition keeps (pc : Call -> bool) (pl : Line -> bool) (w w' : World) : Prop :=
  filter pc (calls w') = filter pc (calls w) /\
  filter pl (console w') = filter pl (console w).

Definition preserves {A} (R : World -> World -> Prop) (m : M A) : Prop :=
  forall w, R w (snd (m w)).

Definition never_exits {A} (m : M A) : Prop :=
  forall w status, fst (m w) <> Exit status.

Definition never_throws {A} (m : M A) : Prop :=
  forall w e, fst (m w) <> Throw e.

(** The [try] block of [processSource] under its [catch] clause. *)
Definition processSource_guarded (host : Host) (n : string) (r d : JsValue) (tmp : string)
  : M unit :=
  try_catch (processSource_try host n r d tmp) (processSource_catch n).

(** The text the generation client works with (lines 116-125). *)
Definition extractedText (response : option Response) : string :=
  match response_text response with
  | Returned t => t
  | Raised _ => candidateText response
  end.

(** The error the generation client throws for a response without text. *)
Definition noContentError (toolName : string) : JsError :=
  Error ("Gemini API failed for " ++ toolName ++ ": No cheatsheet content generated for "
         ++ toolName ++ ".").

(** The block reason of the prompt feedback of a response, when there is
    one. *)
Definition feedbackReason (response : option Response) : option string :=
  match response_promptFeedback response with
  | Some fb => blockReason fb
  | None => None
  end.

(** Nothing in the response says why there is no text: no block reason, and
    a first candidate, if any, without finish reason or finished by STOP. *)
Definition unexplained (response : option Response) : Prop :=
  truthy_str (feedbackReason response) = false /\
  match response_candidates response with
  | Some (first :: _) =>
      truthy_str (finishReason first) = false \/ finishReason first = Some "STOP"
  | _ => True
  end.

(** The three environment variables of the fallback are all set. *)
Definition env_complete (host : Host) : bool :=
  truthy_str (env host "REPO_URL") && truthy_str (env host "PROJECT_NAME") &&
  truthy_str (env host "DOCS_DIR").

Definition is_string (v : JsValue) : bool :=
  match v with
  | JStr _ => true
  | _ => false
  end.

(** What the configuration file named by [arg] gives, in the words of the
    loader's rule and not by running the loader: a source when the file is
    there, can be read (the host is asked at the time [k] of the read), holds
    the JSON text of an object, and the three fields of the object are
    truthy. *)
Definition fileSource (host : Host) (k : nat) (d : Disk) (arg : string) : option SourceSpec :=
  let p := sourceFilePath (cwd host) arg in
  match d (absolute host p) with
  | Some (File content) =>
      match read_fault host k d p with
      | Some _ => None
      | None =>
          match JSON_parse host content with
          | Returned (JObj fields) =>
              if truthy (assoc "repo" fields) && truthy (assoc "name" fields) &&
                 truthy (assoc "path" fields)
              then Some (mkSource (assoc "name" fields) (assoc "repo" fields)
                                  (assoc "path" fields) (Path.basename p))
              else None
          | _ => None
          end
      end
  | _ => None
  end.

Definition sourceList (found : option SourceSpec) : list SourceSpec :=
  match found with
  | Some s => [s]
  | None => []
  end.

(** The sources that the files named by [args] give, in order; every file
    that is there is read, which is one call. *)
Fixpoint fileSources (host : Host) (k : nat) (d : Disk) (args : list string)
  : list SourceSpec :=
  match args with
  | [] => []
  | arg :: more =>
      let next := match d (absolute host (sourceFilePath (cwd host) arg)) with
                  | Some _ => S k
                  | None => k
                  end in
      (sourceList (fileSource host k d arg) ++ fileSources host next d more)%list
  end.

(** The source of the fallback. *)
Definition envSource (host : Host) : SourceSpec :=
  mkSource (JStr (or_default (env host "PROJECT_NAME") ""))
           (JStr (or_default (env host "REPO_URL") ""))
           (JStr (or_default (env host "DOCS_DIR") ""))
           "environment variables".

(** The sources a run has to process when its arguments are the strings
    [args]: those of the files, or, without arguments, the one of the
    environment when the three variables are set. *)
Definition resolvedSources (host : Host) (args : list string) (w : World) : list SourceSpec :=
  match args with
  | [] => if env_complete host then [envSource host] else []
  | _ => fileSources host (clock w) (disk w) args
  end.

(* ------------------------------------------------------------------ *)
(** ** Sample hosts *)

Module Samples.

Definition repoUrl : string := "https://github.com/oven-sh/bun".

(** [sources/bun.json], as in the README; the same with a number for a
    name; the same with an empty name. *)
Definition bunJson : JsValue :=
  JObj [("name", JStr "Bun"); ("repo", JStr repoUrl); ("path", JStr "docs")].
Definition numberJson : JsValue :=
  JObj [("name", JNum 42); ("repo", JStr repoUrl); ("path", JStr "docs")].
Definition emptyNameJson : JsValue :=
  JObj [("name", JStr ""); ("repo", JStr repoUrl); ("path", JStr "docs")].

Definition bunSource : SourceSpec :=
  mkSource (JStr "Bun") (JStr repoUrl) (JStr "docs") "bun.json".
Definition numberSource : SourceSpec :=
  mkSource (JNum 42) (JStr repoUrl) (JStr "docs") "number.json".

(** A source whose name is truthy and cannot be converted to a string: the
    object [{"toString": 1}]. *)
Definition oddSource : SourceSpec :=
  mkSource (JObj [("toString", JNum 1)]) (JStr repoUrl) (JStr "docs") "odd.json".

Definition configDisk : Disk :=
  fun q =>
    if q =? "/app/sources/bun.json" then Some (File "bun")
    else if q =? "/app/sources/number.json" then Some (File "number")
    else if q =? "/app/sources/empty.json" then Some (File "empty")
    else if q =? "/app/sources/broken.json" then Some (File "{")
    else None.

Definition parse (content : string) : Outcome JsValue :=
  if content =? "bun" then Returned bunJson
  else if content =? "number" then Returned numberJson
  else if content =? "empty" then Returned emptyNameJson
  else Raised (Error "JSON Parse error: Expected '}'").

Definition withKey (key : string) : option string :=
  if key =? "GEMINI_API_KEY" then Some "secret" else None.

Definition withKeyAndEmptyName (key : string) : option string :=
  if key =? "GEMINI_API_KEY" then Some "secret"
  else if key =? "REPO_URL" then Some repoUrl
  else if key =? "PROJECT_NAME" then Some ""
  else if key =? "DOCS_DIR" then Some "docs"
  else None.

Definition goodResponse : Response :=
  mkResponse (Returned ("## Introduction for the LLM Agent" ++ nl ++ "Hello!")) (Some []) None.

(** No candidate, and a block reason. *)
Definition blockedResponse : Response :=
  mkResponse (Raised (Error "Text not available. Response was blocked due to SAFETY"))
             (Some []) (Some (mkFeedback (Some "SAFETY") None)).

(** No text and nothing that says why. *)
Definition silentResponse : Response :=
  mkResponse (Returned "") (Some []) None.

(** One candidate without text, stopped by the token limit. *)
Definition stoppedResponse : Response :=
  mkResponse (Returned "") (Some [mkCandidate None (Some "MAX_TOKENS") None]) None.

(** One candidate without text that finished normally. *)
Definition finishedResponse : Response :=
  mkResponse (Returned "") (Some [mkCandidate None (Some "STOP") None]) None.

Definition denied : JsError :=
  mkError "EACCES: permission denied, rm" (Some "EACCES") None.

(** A host in [/app]: the clone succeeds or not, the extraction prints
    [docsText], the API gives [answer], removals fail or not. *)
Definition sampleHostWith (vars : string -> option string) (args : list JsValue)
           (cloneOk : bool) (docsText : string)
           (answer : Outcome (option Response)) (rmFails : bool) : Host :=
  mkHost "/app" vars args parse
         (fun _ _ _ => if rmFails then Some denied else None)
         (fun _ _ _ => None) (fun _ _ _ => None) (fun _ _ _ => None)
         (fun _ d cmd _ =>
            match cmd with
            | JStr "git" :: _ =>
                if cloneOk
                then Returned (mkSpawn true "" "Cloning into 'repo_temp/bun'..." (Some 0%Z),
                               fun q => if q =? "/app/repo_temp/bun/docs" then Some Dir else d q)
                else Returned (mkSpawn false "" "fatal: repository not found" (Some 128%Z), d)
            | JStr "files-to-prompt" :: JStr "--version" :: _ =>
                Returned (mkSpawn true "files-to-prompt, version 0.6" "" (Some 0%Z), d)
            | _ => Returned (mkSpawn true docsText "" (Some 0%Z), d)
            end)
         (fun _ _ => answer).

Definition sampleHost (vars : string -> option string) (args : list string)
           (cloneOk : bool) (docsText : string)
           (answer : Outcome (option Response)) (rmFails : bool) : Host :=
  sampleHostWith vars (map JStr args) cloneOk docsText answer rmFails.

Definition cloneFails : Host :=
  sampleHost withKey ["bun.json"] false "# Docs" (Returned (Some goodResponse)) false.

Definition allGood : Host :=
  sampleHost withKey ["bun.json"] true "# Docs" (Returned (Some goodResponse)) false.

Definition numberName : Host :=
  sampleHost withKey ["number.json"; "bun.json"] true "# Docs"
             (Returned (Some goodResponse)) false.

Definition blankDocs : Host :=
  sampleHost withKey ["bun.json"] true ("  " ++ nl) (Returned (Some goodResponse)) false.

Definition blocked : Host :=
  sampleHost withKey ["bun.json"] true "# Docs" (Returned (Some blockedResponse)) false.

Definition silent : Host :=
  sampleHost withKey ["bun.json"] true "# Docs" (Returned (Some silentResponse)) false.

Definition stopped : Host :=
  sampleHost withKey ["bun.json"] true "# Docs" (Returned (Some stoppedResponse)) false.

Definition finished : Host :=
  sampleHost withKey ["bun.json"] true "# Docs" (Returned (Some finishedResponse)) false.

Definition stuckWorkspace : Host :=
  sampleHost withKey ["bun.json"] true "# Docs" (Returned (Some goodResponse)) true.

(** The command line [bun.json 42]: minimist gives the number 42 for the
    second argument. *)
Definition numericArgument : Host :=
  sampleHostWith withKey [JStr "bun.json"; JNum 42] true "# Docs"
                 (Returned (Some goodResponse)) false.

Definition start : World := startWorld configDisk.

End Samples.

(* ------------------------------------------------------------------ *)
(** ** Further vocabulary *)

(** No two underscores in a row. *)
Fixpoint no_double_underscore (s : string) : bool :=
  match s with
  | String a ((String b _) as rest) =>
      negb (Ascii.eqb a "_"%char && Ascii.eqb b "_"%char) && no_double_underscore rest
  | _ => true
  end.

Definition starts_with_underscore (s : string) : bool :=
  match s with
  | String c _ => Ascii.eqb c "_"%char
  | EmptyString => false
  end.

Definition not_slash (c : ascii) : bool := negb (Ascii.eqb c "/"%char).

(** The kinds of calls that leave the process. *)
Inductive Kind : Type := KRm | KMkdir | KWrite | KRead | KSpawn | KGenerate.

Definition kind_of (c : Call) : Kind :=
  match c with
  | CallRm _ => KRm
  | CallMkdir _ => KMkdir
  | CallWrite _ _ => KWrite
  | CallRead _ => KRead
  | CallSpawn _ _ => KSpawn
  | CallGenerate _ => KGenerate
  end.


(** [m] makes calls of the kinds [ks], in that order, whatever its outcome. *)
Definition always_calls {A} (ks : list Kind) (m : M A) : Prop :=
  forall w, exists new,
      calls (snd (m w)) = (calls w ++ new)%list /\ map kind_of new = ks.

(** [m] makes calls of the kinds [ks] in that order, stopping early only
    when it does not return normally. *)
Definition staged {A} (ks : list Kind) (m : M A) : Prop :=
  forall w, exists new,
      calls (snd (m w)) = (calls w ++ new)%list /\
      (exists j, map kind_of new = firstn j ks) /\
      (forall a, fst (m w) = Normal a -> map kind_of new = ks).

(** The three required fields are truthy. *)
Definition valid_source (s : SourceSpec) : bool :=
  truthy (name s) && truthy (repo s) && truthy (path s).

Definition has_string_name (s : SourceSpec) : bool :=
  match name s with
  | JStr _ => true
  | _ => false
  end.

(** The version check and the run of the extraction tool, as the [try]
    statement of lines 226-237. *)
Definition extractionBlock (host : Host) (currentProjectName fullDocsPath : string)
  : M string :=
  try_catch
    (spawnSync host [JStr "files-to-prompt"; JStr "--version"] None ;;;
     runCommand host "files-to-prompt" [JStr fullDocsPath] None
                (Some ("files-to-prompt execution failed for " ++ currentProjectName)))
    (fun e =>
       when (JsString.includes (message e) "ENOENT" ||
             JsString.includes (message e) "files-to-prompt")
            (say console_error MToolNotFound ;;;
             say console_error MToolInstallHint) ;;;
       throw e).

(** Lines 213-237 of [processSource]: the clone, the docs path and the
    extraction, after the workspace has been prepared. *)
Definition processSource_cloneAndExtract (host : Host) (currentProjectName : string)
           (currentRepoUrl currentDocsDir : JsValue) (tempRepoPath : string)
  : M (string * string) :=
  interpolate currentRepoUrl ;;;
  say console_log (MCloning currentRepoUrl tempRepoPath) ;;;
  runCommand host "git" [JStr "clone"; JStr "--depth=1"; currentRepoUrl; JStr tempRepoPath] None
             (Some ("Failed to clone repository for " ++ currentProjectName)) ;;;
  fullDocsPath <- joinDocsPath tempRepoPath currentDocsDir ;;
  let docsDir := match currentDocsDir with JStr d => d | _ => "" end in
  say console_log (MCheckingDocs fullDocsPath) ;;;
  there <- existsSync host fullDocsPath ;;
  (if negb there then
     throw (Error ("Documentation directory not found at specified path: " ++ fullDocsPath
                   ++ " (Relative path: " ++ docsDir ++ ")"))
   else ret tt) ;;;
  say console_log (MRunningExtraction fullDocsPath) ;;;
  filesToPromptOutput <- extractionBlock host currentProjectName fullDocsPath ;;
  ret (filesToPromptOutput, docsDir).

(** Lines 240-252 of [processSource]: the check of the extracted text, the
    generation and the saving. *)
Definition processSource_generateAndSave (host : Host) (currentProjectName : string)
           (filesToPromptOutput docsDir : string) : M unit :=
  (if noOutput filesToPromptOutput then
     throw (Error ("files-to-prompt did not produce any output for " ++ currentProjectName
                   ++ ". Check DOCS_DIR ('" ++ docsDir ++ "') and file contents."))
   else ret tt) ;;;
  say console_log (MExtracted (JsString.byteLength filesToPromptOutput) currentProjectName) ;;;
  cheatsheetContent <- generateCheatsheetWithGemini host filesToPromptOutput
                                                     currentProjectName ;;
  saveCheatsheet host cheatsheetContent currentProjectName ;;;
  say console_log (MSourceOk currentProjectName).

(** The git command of line 214. *)
Definition cloneCommand (currentRepoUrl : JsValue) (tempRepoPath : string) : list JsValue :=
  [JStr "git"; JStr "clone"; JStr "--depth=1"; currentRepoUrl; JStr tempRepoPath].

(* ------------------------------------------------------------------ *)
(** ** More sample hosts *)

Module MoreSamples.

(** One candidate, in three parts, the second without text. *)
Definition helloCandidate : Candidate :=
  mkCandidate (Some (Some [mkPart (Some "Hello "); mkPart None; mkPart (Some "world")]))
              (Some "STOP") None.

(** [response.text()] throws, or gives the empty string; the candidate is
    the same. *)
Definition textThrows : Response :=
  mkResponse (Raised (Error "text unavailable")) (Some [helloCandidate]) None.
Definition textEmpty : Response :=
  mkResponse (Returned "") (Some [helloCandidate]) None.

Definition answering (r : Response) : Host :=
  Samples.sampleHost Samples.withKey ["bun.json"] true "# Docs" (Returned (Some r)) false.

Definition noSpace : JsError :=
  mkError "ENOSPC: no space left on device, write" (Some "ENOSPC") None.

(** A host in [/app] whose children and file system calls are chosen one by
    one: the clone makes the docs directory or not, the extraction tool exits
    with [toolStatus], [mkdir] of the output directory and the write of the
    file fail or not. *)
Definition host (args : list string) (cloneMakesDocs : bool) (toolStatus : Z)
           (mkdirOutput writeOutput : option JsError) : Host :=
  mkHost "/app" Samples.withKey (map JStr args) Samples.parse
         (fun _ _ _ => None)
         (fun _ _ p => if p =? CONTAINER_OUTPUT_DIR then mkdirOutput else None)
         (fun _ _ _ => writeOutput)
         (fun _ _ _ => None)
         (fun _ d cmd _ =>
            match cmd with
            | JStr "git" :: _ =>
                Returned (mkSpawn true "" "Cloning into 'repo_temp/bun'..." (Some 0%Z),
                          fun q => if (q =? "/app/repo_temp/bun/docs") && cloneMakesDocs
                                   then Some Dir else d q)
            | JStr "files-to-prompt" :: JStr "--version" :: _ =>
                Returned (mkSpawn true "files-to-prompt, version 0.6" "" (Some 0%Z), d)
            | _ =>
                Returned (mkSpawn (toolStatus =? 0)%Z "# Docs" "Traceback (most recent call last)"
                                  (Some toolStatus), d)
            end)
         (fun _ _ => Returned (Some Samples.goodResponse)).

Definition toolFails : Host := host ["bun.json"] true 1 None None.
Definition docsMissing : Host := host ["bun.json"] false 0 None None.
Definition outputDenied : Host := host ["bun.json"] true 0 (Some Samples.denied) None.
Definition diskFull : Host := host ["bun.json"] true 0 None (Some noSpace).
Definition threeFiles : Host := host ["broken.json"; "bun.json"; "missing.json"] true 0 None None.

(** A host whose configuration files all hold the JSON text of [data]. *)
Definition parsesTo (data : JsValue) : Host :=
  mkHost "/app" Samples.withKey [JStr "bun.json"] (fun _ => Returned data)
         (fun _ _ _ => None) (fun _ _ _ => None) (fun _ _ _ => None) (fun _ _ _ => None)
         (fun _ d _ _ => Returned (mkSpawn true "# Docs" "" (Some 0%Z), d))
         (fun _ _ => Returned (Some Samples.goodResponse)).

End MoreSamples.

(* ------------------------------------------------------------------ *)
(** ** Strings and paths *)

Unset Implicit Arguments.

Section StringFacts.
Import JsString FilenameSpec.

Lemma append_empty_r (s : string) : s ++ "" = s.
  Proof. induction s; simpl; congruence. Qed.

Lemma append_assoc (a b c : string) : (a ++ b) ++ c = a ++ b ++ c.
  Proof. induction a; simpl; congruence. Qed.

Lemma eqb_empty_iff (s : string) : (s =? "") = true <-> s = "".
  Proof. apply String.eqb_eq. Qed.

Lemma runs_flatten (s : string) : flatten (map snd (runs s)) = s.
  Proof.
    induction s as [|c s IH]; simpl; [reflexivity|].
    destruct (runs s) as [|[k r] rest]; simpl in *.
    - now subst.
    - destruct (Bool.eqb (in_a_z_0_9 c) k); simpl; now rewrite <- IH.
  Qed.

Lemma runs_homogeneous (s : string) : forallb homogeneous (runs s) = true.
  Proof.
    induction s as [|c s IH]; simpl; [reflexivity|].
    destruct (runs s) as [|[k r] rest]; simpl in *.
    - unfold homogeneous; simpl. now rewrite Bool.eqb_reflx.
    - destruct (Bool.eqb (in_a_z_0_9 c) k) eqn:E; simpl.
      + apply andb_true_iff in IH as [H1 H2]. rewrite H2, andb_true_r.
        unfold homogeneous in *; simpl in *. rewrite E; simpl.
        apply andb_true_iff in H1 as [_ H1]. exact H1.
      + rewrite IH, andb_true_r. unfold homogeneous; simpl.
        now rewrite Bool.eqb_reflx.
  Qed.

Lemma runs_alternate (s : string) : alternate (map fst (runs s)) = true.
  Proof.
    induction s as [|c s IH]; simpl; [reflexivity|].
    destruct (runs s) as [|[k r] rest]; simpl in *; [reflexivity|].
    destruct (Bool.eqb (in_a_z_0_9 c) k) eqn:E; simpl.
    - exact IH.
    - rewrite E. simpl. exact IH.
  Qed.

Lemma runs_are_maximal (s : string) : maximal_runs_of s (runs s).
  Proof.
    repeat split; [apply runs_flatten | apply runs_homogeneous | apply runs_alternate].
  Qed.

  (** The scan against the words: outside a match it yields the collapsed
      string; inside one, the collapsed string without the underscore of the
      run under way. *)
Lemma replace_runs_from_spec (s : string) :
    replace_runs_from false s = collapsed s /\
    replace_runs_from true s =
      match runs s with
      | (false, _) :: rest => flatten (map collapse rest)
      | _ => collapsed s
      end.
  Proof.
    unfold collapsed.
    induction s as [|c s [IHf IHt]]; simpl; [split; reflexivity|].
    destruct (in_a_z_0_9 c) eqn:Ec.
    - rewrite IHf. destruct (runs s) as [|[[|] r] rest]; simpl; split; reflexivity.
    - rewrite IHt. destruct (runs s) as [|[[|] r] rest]; simpl; split; reflexivity.
  Qed.

Lemma replace_runs_spec (s : string) : replace_runs s = collapsed s.
  Proof. apply replace_runs_from_spec. Qed.

Lemma trimStart_blank (s : string) :
  all_units is_space s = true -> trimStart s = "".
Proof.
  induction s as [|c s IH]; simpl; [reflexivity|].
  intros H. apply andb_true_iff in H as [Hc Hs]. rewrite Hc. now apply IH.
Qed.

Lemma trimEnd_keeps_head (c : ascii) (s : string) :
  is_space c = false -> trimEnd (String c s) <> "".
Proof. intros Hc. simpl. destruct (trimEnd s); [rewrite Hc|]; discriminate. Qed.

Lemma trimStart_head (s : string) :
  all_units is_space s = false ->
  exists c s', trimStart s = String c s' /\ is_space c = false.
Proof.
  induction s as [|c s IH]; simpl; [discriminate|].
  destruct (is_space c) eqn:Ec; simpl.
  - exact IH.
  - intros _. now exists c, s.
Qed.

(** [trim] leaves nothing exactly when there is nothing but white space. *)
Lemma trim_empty (s : string) : (trim s =? "") = all_units is_space s.
Proof.
  unfold trim. destruct (all_units is_space s) eqn:E.
  - now rewrite (trimStart_blank s E).
  - destruct (trimStart_head s E) as (c & s' & -> & Hc).
    apply String.eqb_neq. now apply trimEnd_keeps_head.
Qed.

Lemma length_zero (s : string) : (String.length s =? 0)%nat = (s =? "").
Proof. destruct s; reflexivity. Qed.

End StringFacts.

(** A few evaluations. *)
Example ex_filename : cheatsheetFilename "My Tool!" = "my_tool__cheatsheet.md".
Proof. reflexivity. Qed.
Example ex_out : fullCheatsheetPath "Bun" = "/app/output/bun_cheatsheet.md".
Proof. reflexivity. Qed.
Example ex_tmp : tempRepoPath "My Tool!" = "repo_temp/my_tool_".
Proof. reflexivity. Qed.
Example ex_src1 : sourceFilePath "/app" "bun.json" = "/app/sources/bun.json".
Proof. reflexivity. Qed.
Example ex_src2 : sourceFilePath "/app" "sources/bun.json" = "/app/sources/sources/bun.json".
Proof. reflexivity. Qed.
Example ex_src3 : sourceFilePath "/app" "../x/./bun.json" = "/x/bun.json".
Proof. reflexivity. Qed.
Example ex_base : Path.basename "/app/sources/bun.json" = "bun.json".
Proof. reflexivity. Qed.
Example ex_trim : JsString.trim ("  a b" ++ nl ++ " ") = "a b".
Proof. reflexivity. Qed.
Example ex_z : JsString.ofZ 128 = "128" /\ JsString.ofZ (-1) = "-1".
Proof. split; reflexivity. Qed.

Section PathFacts.
Import JsString FilenameSpec.

Lemma replace_each_units (s : string) : all_units workspace_unit (replace_each s) = true.
Proof.
  induction s as [|c s IH]; simpl; [reflexivity|].
  rewrite IH, andb_true_r. unfold workspace_unit.
  destruct (in_a_z_0_9 c) eqn:E; [now rewrite E | reflexivity].
Qed.

Lemma workspace_unit_not_slash (c : ascii) :
  workspace_unit c = true -> Ascii.eqb c "/"%char = false.
Proof.
  destruct (Ascii.eqb c "/"%char) eqn:E; [|reflexivity].
  apply Ascii.eqb_eq in E. subst c. vm_compute. discriminate.
Qed.

Lemma workspace_unit_not_dot (c : ascii) :
  workspace_unit c = true -> Ascii.eqb c "."%char = false.
Proof.
  destruct (Ascii.eqb c "."%char) eqn:E; [|reflexivity].
  apply Ascii.eqb_eq in E. subst c. vm_compute. discriminate.
Qed.

Lemma split_one_segment (s : string) :
  all_units workspace_unit s = true -> split "/"%char s = [s].
Proof.
  induction s as [|c s IH]; simpl; [reflexivity|].
  intros H. apply andb_true_iff in H as [Hc Hs].
  rewrite (workspace_unit_not_slash _ Hc), (IH Hs). reflexivity.
Qed.

Lemma endsWithSlash_segment (s : string) :
  all_units workspace_unit s = true -> Path.endsWithSlash s = false.
Proof.
  induction s as [|c s IH]; simpl; [reflexivity|].
  intros H. apply andb_true_iff in H as [Hc Hs].
  destruct s; [apply (workspace_unit_not_slash _ Hc) | apply (IH Hs)].
Qed.

Lemma segment_not_special (c : ascii) (s : string) :
  workspace_unit c = true ->
  (String c s =? "") = false /\ (String c s =? ".") = false /\ (String c s =? "..") = false.
Proof.
  intros Hc. pose proof (workspace_unit_not_dot _ Hc) as Hdot.
  simpl. rewrite Hdot. auto.
Qed.

Lemma normalize_temp_segment (seg : string) :
  split "/"%char seg = [seg] ->
  (seg =? "") = false -> (seg =? ".") = false -> (seg =? "..") = false ->
  Path.normalizeString ("./repo_temp/" ++ seg) true = "repo_temp/" ++ seg.
Proof.
  intros Hsplit H0 H1 H2.
  unfold Path.normalizeString. simpl split. rewrite Hsplit.
  simpl fold_left. unfold Path.push_segment at 1. rewrite H0, H1, H2.
  reflexivity.
Qed.

Lemma join_path_two (a b : string) :
  (a =? "") = false -> (b =? "") = false ->
  Path.join_path [a; b] = Path.normalize (a ++ "/" ++ b).
Proof.
  intros Ha Hb. unfold Path.join_path. simpl. rewrite Ha, Hb. reflexivity.
Qed.

Lemma normalize_relative (p n : string) :
  (p =? "") = false -> Path.isAbsolute p = false -> Path.endsWithSlash p = false ->
  Path.normalizeString p true = n -> (n =? "") = false ->
  Path.normalize p = n.
Proof.
  intros Hp Ha He Hn Hne. unfold Path.normalize.
  rewrite Hp, Ha, He. simpl negb. rewrite Hn, Hne. reflexivity.
Qed.

(** [path.join("./repo_temp", segment)] for a segment of workspace units. *)
Lemma join_temp_segment (c : ascii) (s : string) :
  all_units workspace_unit (String c s) = true ->
  Path.join_path [TEMP_REPO_DIR; String c s] = "repo_temp/" ++ String c s.
Proof.
  intros H. pose proof (split_one_segment _ H) as Hsplit.
  pose proof (endsWithSlash_segment _ H) as Hends.
  assert (Hc : workspace_unit c = true) by (simpl in H; now apply andb_true_iff in H).
  destruct (segment_not_special c s Hc) as (H0 & H1 & H2).
  rewrite join_path_two by (reflexivity || assumption).
  apply normalize_relative; try reflexivity.
  - exact Hends.
  - apply (normalize_temp_segment _ Hsplit H0 H1 H2).
Qed.

Lemma workspaceName_empty (n : string) : workspaceName n = "" -> n = "".
Proof. destruct n; [reflexivity | discriminate]. Qed.

(** The workspace path in closed form. *)
Lemma tempRepoPath_closed (n : string) :
  tempRepoPath n =
  match workspaceName n with
  | EmptyString => "repo_temp"
  | segment => "repo_temp/" ++ segment
  end.
Proof.
  unfold tempRepoPath. pose proof (replace_each_units (toLowerCase n)) as H.
  fold (workspaceName n) in H.
  destruct (workspaceName n) as [|c s]; [reflexivity|].
  apply join_temp_segment. exact H.
Qed.

End PathFacts.

(* ------------------------------------------------------------------ *)
(** ** File names and directories *)

(** C8.  The output file name is a function of the project name alone: the
    name is lower-cased, every maximal run of code units outside [[a-z0-9]]
    becomes one underscore ([runs] cuts the lower-cased name into its maximal
    runs), and [_cheatsheet.md] is appended; "My Tool!" gives
    [my_tool__cheatsheet.md]. *)
Theorem C8_output_filename :
  forall projectName : string,
    cheatsheetFilename projectName =
      FilenameSpec.collapsed (JsString.toLowerCase projectName) ++ "_cheatsheet.md"
    /\ FilenameSpec.maximal_runs_of (JsString.toLowerCase projectName)
                                    (FilenameSpec.runs (JsString.toLowerCase projectName))
    /\ cheatsheetFilename "My Tool!" = "my_tool__cheatsheet.md".
Proof.
  intros projectName. split; [|split].
  - unfold cheatsheetFilename. now rewrite replace_runs_spec.
  - apply runs_are_maximal.
  - reflexivity.
Qed.

(** Two names get the same workspace directory exactly when they have the
    same workspace name (the name lower-cased, each unit outside [[a-z0-9]]
    replaced by an underscore). *)
Lemma same_workspace (n1 n2 : string) :
  tempRepoPath n1 = tempRepoPath n2 <-> workspaceName n1 = workspaceName n2.
Proof.
  rewrite !tempRepoPath_closed. split.
  - destruct (workspaceName n1), (workspaceName n2); simpl; intros H;
      try reflexivity; try discriminate.
    now injection H as -> ->.
  - now intros ->.
Qed.

(** C7: the workspace directory is not unique per project, against the
    comment of line 199 ("Unique temp dir per project").  The names "My-Tool"
    and "my tool" differ, and both get the workspace [repo_temp/my_tool]:
    lower-casing the name and replacing every unit outside [[a-z0-9]] by an
    underscore maps them to the same directory name. *)
Theorem C7_distinct_names_share_a_workspace :
  "My-Tool" <> "my tool" /\
  workspaceName "My-Tool" = "my_tool" /\
  workspaceName "my tool" = "my_tool" /\
  tempRepoPath "My-Tool" = "repo_temp/my_tool" /\
  tempRepoPath "my tool" = "repo_temp/my_tool".
Proof. split; [discriminate | repeat split]. Qed.

(** C6.  A relative path that does not begin with a dot is not used as it
    is: [run] resolves it against the sources directory, so the argument of
    the script's own usage line, [sources/bun.json], is looked for in
    [sources/sources]; the same path written [./sources/bun.json] is used as
    it is. *)
Theorem C6_relative_path_not_as_is :
  sourceFilePath "/app" "sources/bun.json" = "/app/sources/sources/bun.json"
  /\ Path.resolve "/app" ["sources/bun.json"] = "/app/sources/bun.json"
  /\ sourceFilePath "/app" "./sources/bun.json" = "/app/sources/bun.json"
  /\ sourceFilePath "/app" "/etc/bun.json" = "/etc/bun.json"
  /\ sourceFilePath "/app" "bun.json" = "/app/sources/bun.json".
Proof. repeat split. Qed.

(* ------------------------------------------------------------------ *)
(** ** Reasoning about computations *)

Section Rules.
Context {A B : Type}.
Variable R : World -> World -> Prop.
Hypothesis R_refl : forall w, R w w.
Hypothesis R_trans : forall w1 w2 w3, R w1 w2 -> R w2 w3 -> R w1 w3.

Lemma preserves_ret (a : A) : preserves R (ret a).
Proof. intros w. apply R_refl. Qed.

Lemma preserves_throw (e : JsError) : preserves R (@throw A e).
Proof. intros w. apply R_refl. Qed.

Lemma preserves_exit (n : Z) : preserves R (@process_exit A n).
Proof. intros w. apply R_refl. Qed.

Lemma preserves_of_outcome (o : Outcome A) : preserves R (of_outcome o).
Proof. intros w. destruct o; apply R_refl. Qed.

Lemma preserves_bind (m : M A) (k : A -> M B) :
  preserves R m -> (forall a, preserves R (k a)) -> preserves R (bind m k).
Proof.
  intros Hm Hk w. unfold bind. specialize (Hm w).
  destruct (m w) as [[a|e|n] w1]; simpl in *; try exact Hm.
  eapply R_trans; [exact Hm | apply Hk].
Qed.

Lemma preserves_try_catch (m : M A) (h : JsError -> M A) :
  preserves R m -> (forall e, preserves R (h e)) -> preserves R (try_catch m h).
Proof.
  intros Hm Hh w. unfold try_catch. specialize (Hm w).
  destruct (m w) as [[a|e|n] w1]; simpl in *; try exact Hm.
  eapply R_trans; [exact Hm | apply Hh].
Qed.

Lemma preserves_try_finally (m : M A) (fin : M unit) :
  preserves R m -> preserves R fin -> preserves R (try_finally m fin).
Proof.
  intros Hm Hf w. unfold try_finally. specialize (Hm w).
  destruct (m w) as [[a|e|n] w1]; simpl in *; try exact Hm;
    specialize (Hf w1); destruct (fin w1) as [[[]|e'|n'] w2]; simpl in *;
    eapply R_trans; eauto.
Qed.

End Rules.

Lemma preserves_when (R : World -> World -> Prop) (b : bool) (m : M unit) :
  (forall w, R w w) -> preserves R m -> preserves R (when b m).
Proof. intros Hr Hm. destruct b; [exact Hm | intros w; apply Hr]. Qed.

Section Exits.
Context {A B : Type}.

Lemma never_exits_ret (a : A) : never_exits (ret a).
Proof. intros w n. discriminate. Qed.

Lemma never_exits_throw (e : JsError) : never_exits (@throw A e).
Proof. intros w n. discriminate. Qed.

Lemma never_exits_of_outcome (o : Outcome A) : never_exits (of_outcome o).
Proof. intros w n. destruct o; discriminate. Qed.

Lemma never_exits_bind (m : M A) (k : A -> M B) :
  never_exits m -> (forall a, never_exits (k a)) -> never_exits (bind m k).
Proof.
  intros Hm Hk w n. unfold bind. specialize (Hm w).
  destruct (m w) as [[a|e|n'] w1]; simpl in *; try discriminate.
  - apply Hk.
  - exfalso. now apply (Hm n').
Qed.

Lemma never_exits_try_catch (m : M A) (h : JsError -> M A) :
  never_exits m -> (forall e, never_exits (h e)) -> never_exits (try_catch m h).
Proof.
  intros Hm Hh w n. unfold try_catch. specialize (Hm w).
  destruct (m w) as [[a|e|n'] w1]; simpl in *; try discriminate.
  - apply Hh.
  - apply Hm.
Qed.

Lemma never_exits_try_finally (m : M A) (fin : M unit) :
  never_exits m -> never_exits fin -> never_exits (try_finally m fin).
Proof.
  intros Hm Hf w n. unfold try_finally. specialize (Hm w).
  destruct (m w) as [[a|e|n'] w1]; simpl in *.
  - specialize (Hf w1). destruct (fin w1) as [[[]|e'|n''] w2]; simpl in *;
      try discriminate. exfalso. now apply (Hf n'').
  - specialize (Hf w1). destruct (fin w1) as [[[]|e'|n''] w2]; simpl in *;
      try discriminate. exfalso. now apply (Hf n'').
  - exfalso. now apply (Hm n').
Qed.

End Exits.

Lemma never_exits_when (b : bool) (m : M unit) : never_exits m -> never_exits (when b m).
Proof. intros Hm. destruct b; [exact Hm | apply never_exits_ret]. Qed.

Lemma never_exits_say (s : Stream) (m : Msg) : never_exits (say s m).
Proof. intros w n. discriminate. Qed.

Section Keeps.
Variable pc : Call -> bool.
Variable pl : Line -> bool.

Lemma keeps_refl (w : World) : keeps pc pl w w.
Proof. split; reflexivity. Qed.

Lemma keeps_trans (w1 w2 w3 : World) :
  keeps pc pl w1 w2 -> keeps pc pl w2 w3 -> keeps pc pl w1 w3.
Proof. intros [H1 H2] [H3 H4]. split; congruence. Qed.

Lemma keeps_print (l : Line) (w : World) : pl l = false -> keeps pc pl w (print l w).
Proof.
  intros H. split; simpl; [reflexivity|].
  rewrite filter_app. simpl. rewrite H. apply app_nil_r.
Qed.

Lemma keeps_called (c : Call) (w : World) : pc c = false -> keeps pc pl w (called c w).
Proof.
  intros H. split; simpl; [|reflexivity].
  rewrite filter_app. simpl. rewrite H. apply app_nil_r.
Qed.

Lemma keeps_on_disk (d : Disk) (w1 w2 : World) :
  keeps pc pl w1 w2 -> keeps pc pl w1 (on_disk d w2).
Proof. intros H. exact H. Qed.

Lemma preserves_say (s : Stream) (m : Msg) :
  pl (s, m) = false -> preserves (keeps pc pl) (say s m).
Proof. intros H w. now apply keeps_print. Qed.

Variable host : Host.

Lemma preserves_existsSync (p : string) : preserves (keeps pc pl) (existsSync host p).
Proof. intros w. apply keeps_refl. Qed.

Lemma preserves_rmSync (p : string) (force : bool) :
  pc (CallRm p) = false -> preserves (keeps pc pl) (rmSync host p force).
Proof.
  intros H w. unfold rmSync.
  destruct (disk w (absolute host p)); [destruct (rm_fault host _ _ _) | destruct force];
    simpl; now apply keeps_called.
Qed.

Lemma preserves_mkdirSync (p : string) :
  pc (CallMkdir p) = false -> preserves (keeps pc pl) (mkdirSync host p).
Proof.
  intros H w. unfold mkdirSync.
  destruct (mkdir_fault host _ _ _); simpl; now apply keeps_called.
Qed.

Lemma preserves_writeFileSync (p content : string) :
  pc (CallWrite p content) = false -> preserves (keeps pc pl) (writeFileSync host p content).
Proof.
  intros H w. unfold writeFileSync.
  destruct (write_fault host _ _ _); simpl; now apply keeps_called.
Qed.

Lemma preserves_readFileSync (p : string) :
  pc (CallRead p) = false -> preserves (keeps pc pl) (readFileSync host p).
Proof.
  intros H w. unfold readFileSync.
  destruct (read_fault host _ _ _); [|destruct (disk w _) as [[|?]|]];
    simpl; now apply keeps_called.
Qed.

Lemma preserves_spawnSync (cmd : list JsValue) (cwd : option string) :
  pc (CallSpawn cmd cwd) = false -> preserves (keeps pc pl) (spawnSync host cmd cwd).
Proof.
  intros H w. unfold spawnSync.
  destruct (spawn host _ _ _ _) as [[r d]|e]; simpl; now apply keeps_called.
Qed.

Lemma preserves_generateContent (userText : string) :
  pc (CallGenerate userText) = false ->
  preserves (keeps pc pl) (model_generateContent host userText).
Proof.
  intros H w. unfold model_generateContent.
  destruct (generateContent host _ _); simpl; now apply keeps_called.
Qed.

End Keeps.

Section PrimitiveExits.
Variable host : Host.

Lemma never_exits_existsSync (p : string) : never_exits (existsSync host p).
Proof. intros w n. discriminate. Qed.

Lemma never_exits_rmSync (p : string) (force : bool) : never_exits (rmSync host p force).
Proof.
  intros w n. unfold rmSync.
  destruct (disk w _); [destruct (rm_fault host _ _ _) | destruct force]; discriminate.
Qed.

Lemma never_exits_mkdirSync (p : string) : never_exits (mkdirSync host p).
Proof. intros w n. unfold mkdirSync. destruct (mkdir_fault host _ _ _); discriminate. Qed.

Lemma never_exits_writeFileSync (p c : string) : never_exits (writeFileSync host p c).
Proof. intros w n. unfold writeFileSync. destruct (write_fault host _ _ _); discriminate. Qed.

Lemma never_exits_readFileSync (p : string) : never_exits (readFileSync host p).
Proof.
  intros w n. unfold readFileSync.
  destruct (read_fault host _ _ _); [|destruct (disk w _) as [[|?]|]]; discriminate.
Qed.

Lemma never_exits_spawnSync (cmd : list JsValue) (cwd : option string) :
  never_exits (spawnSync host cmd cwd).
Proof.
  intros w n. unfold spawnSync. destruct (spawn host _ _ _ _) as [[r d]|e]; discriminate.
Qed.

Lemma never_exits_generateContent (t : string) : never_exits (model_generateContent host t).
Proof.
  intros w n. unfold model_generateContent. destruct (generateContent host _ _); discriminate.
Qed.

End PrimitiveExits.

(** Decomposes a goal [preserves (keeps pc pl) m] along the structure of
    [m]; the side conditions on [pc] and [pl] are closed by computation. *)
Ltac frame_side := solve [ reflexivity | assumption | auto ].

Ltac frame :=
  repeat
    (match goal with
     | |- forall _, _ => intro
     | |- preserves _ (bind _ _) =>
         apply preserves_bind; [apply keeps_trans | | ]
     | |- preserves _ (try_catch _ _) =>
         apply preserves_try_catch; [apply keeps_trans | | ]
     | |- preserves _ (try_finally _ _) =>
         apply preserves_try_finally; [apply keeps_trans | | ]
     | |- preserves _ (ret _) => apply preserves_ret; apply keeps_refl
     | |- preserves _ (throw _) => apply preserves_throw; apply keeps_refl
     | |- preserves _ (process_exit _) => apply preserves_exit; apply keeps_refl
     | |- preserves _ (of_outcome _) => apply preserves_of_outcome; apply keeps_refl
     | |- preserves _ (when _ _) => apply preserves_when; [apply keeps_refl | ]
     | |- preserves _ (interpolate _) => unfold interpolate
     | |- preserves _ (say _ (if ?b then _ else _)) => destruct b
     | |- preserves _ (say _ _) => apply preserves_say; frame_side
     | |- preserves _ (existsSync _ _) => apply preserves_existsSync
     | |- preserves _ (rmSync _ _ _) => apply preserves_rmSync; frame_side
     | |- preserves _ (mkdirSync _ _) => apply preserves_mkdirSync; frame_side
     | |- preserves _ (writeFileSync _ _ _) => apply preserves_writeFileSync; frame_side
     | |- preserves _ (readFileSync _ _) => apply preserves_readFileSync; frame_side
     | |- preserves _ (spawnSync _ _ _) => apply preserves_spawnSync; frame_side
     | |- preserves _ (model_generateContent _ _) =>
         apply preserves_generateContent; frame_side
     | |- preserves _ (if ?b then _ else _) => destruct b
     | |- preserves _ (match ?x with _ => _ end) => destruct x
     end).

Ltac exits :=
  repeat
    (match goal with
     | |- forall _, _ => intro
     | |- never_exits (bind _ _) => apply never_exits_bind
     | |- never_exits (try_catch _ _) => apply never_exits_try_catch
     | |- never_exits (try_finally _ _) => apply never_exits_try_finally
     | |- never_exits (ret _) => apply never_exits_ret
     | |- never_exits (throw _) => apply never_exits_throw
     | |- never_exits (of_outcome _) => apply never_exits_of_outcome
     | |- never_exits (when _ _) => apply never_exits_when
     | |- never_exits (say _ _) => apply never_exits_say
     | |- never_exits (interpolate _) => unfold interpolate
     | |- never_exits (existsSync _ _) => apply never_exits_existsSync
     | |- never_exits (rmSync _ _ _) => apply never_exits_rmSync
     | |- never_exits (mkdirSync _ _) => apply never_exits_mkdirSync
     | |- never_exits (writeFileSync _ _ _) => apply never_exits_writeFileSync
     | |- never_exits (readFileSync _ _) => apply never_exits_readFileSync
     | |- never_exits (spawnSync _ _ _) => apply never_exits_spawnSync
     | |- never_exits (model_generateContent _ _) => apply never_exits_generateContent
     | |- never_exits (if ?b then _ else _) => destruct b
     | |- never_exits (match ?x with _ => _ end) => destruct x
     end).

Section Results.
Context {A B : Type}.

Lemma bind_normal (m : M A) (k : A -> M B) (w w1 : World) (a : A) :
  m w = (Normal a, w1) -> bind m k w = k a w1.
Proof. intros H. unfold bind. now rewrite H. Qed.

Lemma bind_throw (m : M A) (k : A -> M B) (w w1 : World) (e : JsError) :
  m w = (Throw e, w1) -> bind m k w = (Throw e, w1).
Proof. intros H. unfold bind. now rewrite H. Qed.

Lemma bind_exit (m : M A) (k : A -> M B) (w w1 : World) (st : Z) :
  m w = (Exit st, w1) -> bind m k w = (Exit st, w1).
Proof. intros H. unfold bind. now rewrite H. Qed.

End Results.

Section Pipeline.
Variable host : Host.

Lemma runCommand_exits command args cwd errorMessage :
  never_exits (runCommand host command args cwd errorMessage).
Proof. unfold runCommand. exits. Qed.

Lemma generate_exits docs tool : never_exits (generateCheatsheetWithGemini host docs tool).
Proof. unfold generateCheatsheetWithGemini. exits. Qed.

Lemma saveCheatsheet_exits content n : never_exits (saveCheatsheet host content n).
Proof. unfold saveCheatsheet. exits. Qed.

Lemma removeWorkspace_exits tmp leftover : never_exits (removeWorkspace host tmp leftover).
Proof. unfold removeWorkspace. exits. Qed.

Lemma extract_exits n r d tmp : never_exits (processSource_extract host n r d tmp).
Proof.
  unfold processSource_extract, joinDocsPath. exits;
    try apply runCommand_exits; try apply removeWorkspace_exits.
Qed.

Lemma try_exits n r d tmp : never_exits (processSource_try host n r d tmp).
Proof.
  unfold processSource_try. exits;
    try apply extract_exits; try apply generate_exits; try apply saveCheatsheet_exits.
Qed.

(** What the pipeline leaves untouched before the generation step: any kind
    of call but writes and generations, any kind of line but the two
    entries. *)
Section BeforeGeneration.
Variable pc : Call -> bool.
Variable pl : Line -> bool.
Hypothesis Hpc : forall c, is_write c = false -> is_generate c = false -> pc c = false.
Hypothesis Hpl : forall l, is_attempt l = false -> is_generation_line l = false -> pl l = false.

Lemma runCommand_keeps command args cwd errorMessage :
  preserves (keeps pc pl) (runCommand host command args cwd errorMessage).
Proof. unfold runCommand. frame. Qed.

Lemma removeWorkspace_keeps tmp leftover :
  preserves (keeps pc pl) (removeWorkspace host tmp leftover).
Proof. unfold removeWorkspace. frame. Qed.

Lemma extract_keeps n r d tmp :
  preserves (keeps pc pl) (processSource_extract host n r d tmp).
Proof.
  unfold processSource_extract, joinDocsPath. frame;
    try apply runCommand_keeps; try apply removeWorkspace_keeps.
Qed.

Lemma catch_keeps n e : preserves (keeps pc pl) (processSource_catch n e).
Proof. unfold processSource_catch. frame. Qed.

Lemma finally_keeps tmp : preserves (keeps pc pl) (processSource_finally host tmp).
Proof. unfold processSource_finally. frame. apply removeWorkspace_keeps. Qed.

End BeforeGeneration.

(** What the generation step leaves untouched as well. *)
Section AroundGeneration.
Variable pc : Call -> bool.
Variable pl : Line -> bool.
Hypothesis Hpc : forall c, is_write c = false -> pc c = false.
Hypothesis Hpl : forall l, is_attempt l = false -> pl l = false.

Lemma generate_keeps docs tool :
  preserves (keeps pc pl) (generateCheatsheetWithGemini host docs tool).
Proof. unfold generateCheatsheetWithGemini. frame. Qed.

End AroundGeneration.

(** No step of the [try] block, and no clause after it, opens an attempt. *)
Lemma saveCheatsheet_no_attempt content n :
  preserves (keeps no_call is_attempt) (saveCheatsheet host content n).
Proof. unfold saveCheatsheet. frame. Qed.

Lemma try_no_attempt n r d tmp :
  preserves (keeps no_call is_attempt) (processSource_try host n r d tmp).
Proof.
  unfold processSource_try. frame;
    try (apply extract_keeps; auto); try (apply generate_keeps; auto);
    try apply saveCheatsheet_no_attempt.
Qed.

(** The [catch] clause turns every exception of the [try] block into a
    console line. *)
Lemma guarded_normal n r d tmp w :
  fst (processSource_guarded host n r d tmp w) = Normal tt.
Proof.
  unfold processSource_guarded, try_catch.
  pose proof (try_exits n r d tmp w) as Hx.
  destruct (processSource_try host n r d tmp w) as [[[]|e|st] w1]; simpl in *.
  - reflexivity.
  - reflexivity.
  - exfalso. now apply (Hx st).
Qed.

Lemma guarded_logs n r d tmp w :
  match processSource_try host n r d tmp w with
  | (Normal _, w1) => processSource_guarded host n r d tmp w = (Normal tt, w1)
  | (Throw e, w1) =>
      processSource_guarded host n r d tmp w =
      (Normal tt, print (console_error, MSourceFailed n (message e)) w1)
  | (Exit _, _) => False
  end.
Proof.
  unfold processSource_guarded, try_catch.
  pose proof (try_exits n r d tmp w) as Hx.
  destruct (processSource_try host n r d tmp w) as [[[]|e|st] w1]; simpl in *.
  - reflexivity.
  - reflexivity.
  - now apply (Hx st).
Qed.

(** The [finally] clause, case by case: nothing to remove; removed; the
    removal failed. *)
Lemma finally_cases tmp w :
  let w1 := called (CallRm tmp) (print (console_log, MCleaning tmp) w) in
  processSource_finally host tmp w =
  (Normal tt,
   match disk w (absolute host tmp) with
   | None => w1
   | Some _ =>
       match rm_fault host (clock w) (disk w) tmp with
       | None => on_disk (fun q => if inside (absolute host tmp) q then None else disk w q) w1
       | Some e =>
           if code_is e "ENOENT" then w1
           else print (console_warn, MCleanFailed tmp (message e)) w1
       end
   end).
Proof.
  unfold processSource_finally, removeWorkspace, bind, say, try_catch, rmSync, when.
  simpl. destruct (disk w (absolute host tmp)); [|reflexivity].
  unfold clock. simpl.
  destruct (rm_fault host _ _ tmp) as [e|]; [|reflexivity].
  destruct (code_is e "ENOENT"); reflexivity.
Qed.

Lemma finally_normal tmp w : fst (processSource_finally host tmp w) = Normal tt.
Proof. now rewrite finally_cases. Qed.

Lemma processSource_string s n w :
  name s = JStr n ->
  processSource host s w =
  try_finally (processSource_guarded host n (repo s) (path s) (tempRepoPath n))
              (processSource_finally host (tempRepoPath n))
              (print (attempt_line s) w).
Proof. intros H. unfold processSource, attempt_line. rewrite H. reflexivity. Qed.

(** With a name that is a string, [processSource] is the guarded block
    followed by the [finally] clause, and returns normally. *)
Lemma processSource_run s n w :
  name s = JStr n ->
  processSource host s w =
  (Normal tt,
   snd (processSource_finally host (tempRepoPath n)
          (snd (processSource_guarded host n (repo s) (path s) (tempRepoPath n)
                  (print (attempt_line s) w))))).
Proof.
  intros H. rewrite (processSource_string s n w H). unfold try_finally.
  pose proof (guarded_normal n (repo s) (path s) (tempRepoPath n)
                (print (attempt_line s) w)) as Hg.
  destruct (processSource_guarded _ _ _ _ _ _) as [c w1]. simpl in *. subst c.
  pose proof (finally_normal (tempRepoPath n) w1) as Hf.
  destruct (processSource_finally _ _ _) as [c w2]. simpl in *. now subst c.
Qed.

Lemma processSource_not_string s w :
  (forall n, name s <> JStr n) ->
  processSource host s w =
  if convertible (name s)
  then (Throw (Error "currentProjectName.toLowerCase is not a function"),
        print (attempt_line s) w)
  else (Throw cannotConvert, w).
Proof.
  intros H. unfold processSource, attempt_line, interpolate, bind.
  destruct (name s) as [| |b|z|str|items|fields] eqn:E; try reflexivity.
  - exfalso. now apply (H str).
  - destruct (convertible (JArr items)); reflexivity.
  - destruct (convertible (JObj fields)); reflexivity.
Qed.

Lemma processSource_throws s w :
  (forall n, name s <> JStr n) -> exists e w1, processSource host s w = (Throw e, w1).
Proof.
  intros H. rewrite (processSource_not_string s w H).
  destruct (convertible (name s)); eauto.
Qed.

Lemma name_string_or_not (s : SourceSpec) :
  (exists n, name s = JStr n) \/ (forall n, name s <> JStr n).
Proof.
  destruct (name s) as [| |b|z|str|items|fields]; try (right; intros; discriminate).
  left. now exists str.
Qed.

Lemma processSource_exits s : never_exits (processSource host s).
Proof.
  intros w st. destruct (name_string_or_not s) as [[n H]|H].
  - now rewrite (processSource_run s n w H).
  - destruct (processSource_throws s w H) as (e & w1 & ->). discriminate.
Qed.

Lemma guarded_no_attempt n r d tmp :
  preserves (keeps no_call is_attempt) (processSource_guarded host n r d tmp).
Proof.
  unfold processSource_guarded. frame; [apply try_no_attempt | apply catch_keeps; auto].
Qed.

(** A run of [processSource] opens exactly one attempt, unless the name
    cannot be converted. *)
Lemma processSource_attempt s w :
  attempts (snd (processSource host s w)) = (attempts w ++ attempt_lines [s])%list.
Proof.
  assert (Hb : attempts (print (attempt_line s) w) = (attempts w ++ [attempt_line s])%list).
  { unfold attempts. simpl. now rewrite filter_app. }
  unfold attempt_lines. cbn [filter].
  destruct (name_string_or_not s) as [[n H]|H].
  - replace (convertible (name s)) with true by now rewrite H.
    cbn [map].
    rewrite (processSource_run s n w H). simpl. rewrite <- Hb.
    set (w0 := print (attempt_line s) w).
    pose proof (guarded_no_attempt n (repo s) (path s) (tempRepoPath n) w0) as [_ Hg].
    pose proof (finally_keeps no_call is_attempt
                  ltac:(auto) ltac:(auto) (tempRepoPath n)
                  (snd (processSource_guarded host n (repo s) (path s) (tempRepoPath n) w0)))
      as [_ Hf].
    unfold attempts. congruence.
  - rewrite (processSource_not_string s w H).
    destruct (convertible (name s)); cbn [snd map]; [exact Hb | now rewrite app_nil_r].
Qed.

Lemma attempt_lines_cons s more :
  attempt_lines (s :: more) = (attempt_lines [s] ++ attempt_lines more)%list.
Proof.
  unfold attempt_lines. cbn [filter]. destruct (convertible (name s)); reflexivity.
Qed.

(** One turn of the loop. *)
Lemma run_loop_step s more sc fc w :
  run_loop host (s :: more) sc fc w =
  match processSource host s w with
  | (Normal _, w1) => run_loop host more (S sc) fc w1
  | (Throw _, w1) => run_loop host more sc (S fc) w1
  | (Exit status, w1) => (Exit status, w1)
  end.
Proof.
  simpl. unfold bind, try_catch, ret.
  destruct (processSource host s w) as [[[]|e|st] w1]; reflexivity.
Qed.

(** The loop attempts every source, in order, and ends normally, whatever
    happens to each of them; its two counters add up to the number of
    sources. *)
Lemma run_loop_complete sources :
  forall sc fc w,
    exists sc' fc',
      fst (run_loop host sources sc fc w) = Normal (sc', fc') /\
      sc' + fc' = sc + fc + length sources /\
      attempts (snd (run_loop host sources sc fc w)) =
        (attempts w ++ attempt_lines sources)%list.
Proof.
  induction sources as [|s more IH]; intros sc fc w.
  - exists sc, fc. simpl. rewrite app_nil_r. repeat split. lia.
  - rewrite run_loop_step, (attempt_lines_cons s more).
    pose proof (processSource_exits s w) as Hx.
    pose proof (processSource_attempt s w) as Ha.
    destruct (processSource host s w) as [[[]|e|st] w1]; cbn [fst snd length] in *.
    + destruct (IH (S sc) fc w1) as (sc' & fc' & H1 & H2 & H3).
      exists sc', fc'. rewrite H1, H3, Ha, <- app_assoc. repeat split. lia.
    + destruct (IH sc (S fc) w1) as (sc' & fc' & H1 & H2 & H3).
      exists sc', fc'. rewrite H1, H3, Ha, <- app_assoc. repeat split. lia.
    + exfalso. now apply (Hx st).
Qed.

(** Every source whose name is a string is counted as a success, whether its
    [try] block threw or not. *)
Lemma run_loop_counts_strings sources :
  Forall (fun s => exists n, name s = JStr n) sources ->
  forall sc fc w, fst (run_loop host sources sc fc w) = Normal (sc + length sources, fc).
Proof.
  induction 1 as [|s more [n Hn] _ IH]; intros sc fc w.
  - simpl. now rewrite Nat.add_0_r.
  - rewrite run_loop_step, (processSource_run s n w Hn), IH. simpl.
    f_equal. f_equal. lia.
Qed.

(** The console after the [finally] clause: the console before it, the
    cleaning line, and the warning of a failed removal. *)
Lemma finally_console tmp w :
  exists tail,
    console (snd (processSource_finally host tmp w)) =
      (console w ++ (console_log, MCleaning tmp) :: tail)%list.
Proof.
  rewrite finally_cases. simpl.
  destruct (disk w _); [destruct (rm_fault host _ _ _) as [e|];
                        [destruct (code_is e "ENOENT")|]|]; simpl.
  - now exists [].
  - exists [(console_warn, MCleanFailed tmp (message e))]. now rewrite <- app_assoc.
  - now exists [].
  - now exists [].
Qed.

(** What the guarded block has printed is still there after the run. *)
Lemma printed_stays s n w l :
  name s = JStr n ->
  In l (console (snd (processSource_guarded host n (repo s) (path s) (tempRepoPath n)
                        (print (attempt_line s) w)))) ->
  In l (console (snd (processSource host s w))).
Proof.
  intros Hn Hl. rewrite (processSource_run s n w Hn). simpl.
  destruct (finally_console (tempRepoPath n)
              (snd (processSource_guarded host n (repo s) (path s) (tempRepoPath n)
                      (print (attempt_line s) w)))) as [tail ->].
  apply in_or_app. now left.
Qed.

(** An exception of the [try] block ends as a console line. *)
Lemma failure_logged s n w e w1 :
  name s = JStr n ->
  processSource_try host n (repo s) (path s) (tempRepoPath n) (print (attempt_line s) w)
    = (Throw e, w1) ->
  processSource_guarded host n (repo s) (path s) (tempRepoPath n) (print (attempt_line s) w)
    = (Normal tt, print (console_error, MSourceFailed n (message e)) w1) /\
  In (console_error, MSourceFailed n (message e)) (console (snd (processSource host s w))).
Proof.
  intros Hn Ht.
  pose proof (guarded_logs n (repo s) (path s) (tempRepoPath n)
                (print (attempt_line s) w)) as Hg.
  rewrite Ht in Hg. split; [exact Hg|].
  apply (printed_stays s n w _ Hn). rewrite Hg. simpl.
  apply in_or_app. right. now left.
Qed.

(** A run of [processSource] on a string name keeps what its [try] block
    keeps. *)
Lemma processSource_keeps pc pl s n w :
  name s = JStr n ->
  (forall c, is_write c = false -> is_generate c = false -> pc c = false) ->
  (forall l, is_attempt l = false -> is_generation_line l = false -> pl l = false) ->
  pl (attempt_line s) = false ->
  keeps pc pl (print (attempt_line s) w)
        (snd (processSource_try host n (repo s) (path s) (tempRepoPath n)
                (print (attempt_line s) w))) ->
  keeps pc pl w (snd (processSource host s w)).
Proof.
  intros Hn Hpc Hpl Hb Ht. rewrite (processSource_run s n w Hn). simpl.
  set (w0 := print (attempt_line s) w) in *.
  eapply keeps_trans; [apply keeps_print; exact Hb|]. fold w0.
  eapply keeps_trans; [|apply finally_keeps; assumption].
  unfold processSource_guarded, try_catch.
  destruct (processSource_try host n (repo s) (path s) (tempRepoPath n) w0)
    as [[[]|e|st] w1]; simpl in *; try exact Ht.
  eapply keeps_trans; [exact Ht|]. apply catch_keeps; assumption.
Qed.

Lemma inside_self (root : string) : inside root root = true.
Proof. unfold inside. now rewrite String.eqb_refl. Qed.

End Pipeline.

(* ------------------------------------------------------------------ *)
(** ** The batch and its tally *)

(** C1.  The tally does not follow the outcome of the pipeline.  With one
    source whose clone fails, the [try] block of [processSource] throws, the
    failure is printed, and [run] still counts the source as a success:
    "Successes: 1", "Failures: 0", "All sources processed successfully". *)
Theorem C1_failed_source_counted_as_success :
  fst (main Samples.cloneFails Samples.start) = Normal tt /\
  console (snd (main Samples.cloneFails Samples.start)) =
  [ (console_log, MUsingModel "gemini-2.5-pro-exp-03-25");
    (console_log, MFoundArgs 1);
    (console_log, MLoadingFile "/app/sources/bun.json");
    (console_log, MSourceAdded (JStr "Bun") "bun.json");
    (console_log, MStarting 1);
    (console_log, MProcessing (JStr "Bun") "bun.json");
    (console_log, MCleaningLeftover "repo_temp/bun");
    (console_log, MCloning (JStr Samples.repoUrl) "repo_temp/bun");
    (console_log, MRunning "git" [JStr "clone"; JStr "--depth=1"; JStr Samples.repoUrl;
                                  JStr "repo_temp/bun"] None);
    (console_error, MCommandFailed "Failed to clone repository for Bun" (Some 128%Z));
    (console_error, MStderr "fatal: repository not found");
    (console_error, MSourceFailed "Bun" "Failed to clone repository for Bun (Exit Code: 128)");
    (console_log, MCleaning "repo_temp/bun");
    (console_log, MComplete);
    (console_log, MTotal 1);
    (console_log, MSuccesses 1);
    (console_log, MFailures 0);
    (console_log, MRule);
    (console_log, MAllOk) ].
Proof. split; vm_compute; reflexivity. Qed.

(** C2, as stated, fails: the configuration file [number.json] is accepted
    by the loader, and [processSource] throws on the source it yields,
    before its [try] block is entered. *)
Lemma C2_counterexample :
  fst (run_loadFile Samples.numberName ([], false) (JStr "number.json") Samples.start)
    = Normal ([Samples.numberSource], false) /\
  fst (processSource Samples.numberName Samples.numberSource Samples.start)
    = Throw (Error "currentProjectName.toLowerCase is not a function").
Proof. split; vm_compute; reflexivity. Qed.

(** C2, amended.  For a source whose name is a string, [processSource]
    returns normally whatever the host does, and an exception of any step of
    its [try] block (clone, docs path, extraction, generation, saving) ends
    as a console line naming the source and the message.  For any list of
    sources, names of any kind, the loop ends normally after it has gone
    through the whole list: each source has been counted once, as a success
    or as a failure, and the lines that open the attempts are there, in
    order, one for every source whose name can be converted to a string (for
    the others line 197 throws before it prints, and the loop goes on). *)
Theorem C2_failures_stay_inside (host : Host) :
  (forall (s : SourceSpec) (n : string) (w : World),
      name s = JStr n ->
      fst (processSource host s w) = Normal tt /\
      forall (e : JsError) (w1 : World),
        processSource_try host n (repo s) (path s) (tempRepoPath n)
                          (print (attempt_line s) w) = (Throw e, w1) ->
        In (console_error, MSourceFailed n (message e))
           (console (snd (processSource host s w))))
  /\
  (forall (sources : list SourceSpec) (sc fc : nat) (w : World),
      (exists sc' fc', fst (run_loop host sources sc fc w) = Normal (sc', fc') /\
                       sc' + fc' = sc + fc + length sources) /\
      attempts (snd (run_loop host sources sc fc w)) =
        (attempts w ++ attempt_lines sources)%list).
Proof.
  split.
  - intros s n w Hn. split; [now rewrite (processSource_run host s n w Hn)|].
    intros e w1 Ht. apply (failure_logged host s n w e w1 Hn Ht).
  - intros sources sc fc w.
    destruct (run_loop_complete host sources sc fc w) as (sc' & fc' & H1 & H2 & H3).
    split; [now exists sc', fc' | exact H3].
Qed.

(** The amended C2 at the sample host whose clone fails, and at a list whose
    first source has a name that cannot be converted. *)
Lemma C2_witness :
  fst (processSource Samples.cloneFails Samples.bunSource Samples.start) = Normal tt /\
  In (console_error, MSourceFailed "Bun" "Failed to clone repository for Bun (Exit Code: 128)")
     (console (snd (processSource Samples.cloneFails Samples.bunSource Samples.start))) /\
  attempts (snd (run_loop Samples.cloneFails [Samples.oddSource; Samples.bunSource] 0 0
                          Samples.start)) = [attempt_line Samples.bunSource].
Proof.
  destruct (proj1 (C2_failures_stay_inside Samples.cloneFails)
                  Samples.bunSource "Bun" Samples.start eq_refl) as [H1 H2].
  split; [exact H1|].
  split; [|exact (proj2 (proj2 (C2_failures_stay_inside Samples.cloneFails)
                            [Samples.oddSource; Samples.bunSource] 0 0 Samples.start))].
  apply (H2 (Error "Failed to clone repository for Bun (Exit Code: 128)")
            (snd (processSource_try Samples.cloneFails "Bun" (repo Samples.bunSource)
                    (path Samples.bunSource) (tempRepoPath "Bun")
                    (print (attempt_line Samples.bunSource) Samples.start)))).
  apply injective_projections; [vm_compute; reflexivity | reflexivity].
Defined.

(* ------------------------------------------------------------------ *)
(** ** The workspace *)

(** C4, as stated, fails: when the removal in the [finally] clause fails,
    the run of a source that was processed with success ends normally, with a
    warning, and its workspace directory is still on the disk. *)
Lemma C4_counterexample :
  fst (processSource Samples.stuckWorkspace Samples.bunSource Samples.start) = Normal tt /\
  In (console_log, MSourceOk "Bun")
     (console (snd (processSource Samples.stuckWorkspace Samples.bunSource Samples.start))) /\
  In (console_warn, MCleanFailed "repo_temp/bun" "EACCES: permission denied, rm")
     (console (snd (processSource Samples.stuckWorkspace Samples.bunSource Samples.start))) /\
  disk (snd (processSource Samples.stuckWorkspace Samples.bunSource Samples.start))
       "/app/repo_temp/bun" = Some Dir.
Proof. repeat split; vm_compute; tauto. Qed.

(** C4, amended.  For a source whose name is a string, the [finally] clause
    runs after the guarded block whatever its outcome, and [processSource]
    returns normally in every case.  When the workspace is not on the disk
    then, the removal is no error and prints no warning; when it is and the
    removal does not fail, it is gone afterwards; when the removal fails, the
    disk stays as it is and the console gets a warning (unless the error is
    ENOENT) after what the guarded block printed, and nothing else changes.
    Cleaning once more an absent workspace is again no error and leaves the
    disk as it is.  For a name that is no string no workspace is made: the
    run calls nothing and leaves the disk as it is. *)
Theorem C4_workspace_cleanup (host : Host) (s : SourceSpec) (w : World) :
  (forall n : string,
      name s = JStr n ->
      let tmp := tempRepoPath n in
      let before := snd (processSource_guarded host n (repo s) (path s) tmp
                           (print (attempt_line s) w)) in
      let after := snd (processSource host s w) in
      fst (processSource_guarded host n (repo s) (path s) tmp (print (attempt_line s) w))
        = Normal tt /\
      processSource host s w = (Normal tt, snd (processSource_finally host tmp before)) /\
      match disk before (absolute host tmp) with
      | None =>
          disk after (absolute host tmp) = None /\
          console after = (console before ++ [(console_log, MCleaning tmp)])%list
      | Some _ =>
          match rm_fault host (clock before) (disk before) tmp with
          | None =>
              disk after (absolute host tmp) = None /\
              console after = (console before ++ [(console_log, MCleaning tmp)])%list
          | Some e =>
              disk after = disk before /\
              console after =
                (console before ++
                 (console_log, MCleaning tmp) ::
                 (if code_is e "ENOENT" then []
                  else [(console_warn, MCleanFailed tmp (message e))]))%list
          end
      end /\
      (disk after (absolute host tmp) = None ->
       fst (processSource_finally host tmp after) = Normal tt /\
       disk (snd (processSource_finally host tmp after)) = disk after /\
       console (snd (processSource_finally host tmp after)) =
         (console after ++ [(console_log, MCleaning tmp)])%list))
  /\
  ((forall n : string, name s <> JStr n) ->
   disk (snd (processSource host s w)) = disk w /\
   calls (snd (processSource host s w)) = calls w).
Proof.
  split.
  - intros n Hn tmp before after.
    split; [apply guarded_normal|]. split; [apply (processSource_run host s n w Hn)|].
    split.
    + unfold after. rewrite (processSource_run host s n w Hn). simpl. fold tmp before.
      rewrite finally_cases. simpl.
      destruct (disk before (absolute host tmp)) eqn:Ed.
      * destruct (rm_fault host (clock before) (disk before) tmp) as [e|]; simpl.
        -- destruct (code_is e "ENOENT"); simpl; split; try reflexivity.
           now rewrite <- app_assoc.
        -- split; [now rewrite inside_self | reflexivity].
      * simpl. split; [exact Ed | reflexivity].
    + intros Habsent. rewrite finally_cases. simpl. rewrite Habsent. simpl.
      repeat split.
  - intros Hn. rewrite (processSource_not_string host s w Hn).
    destruct (convertible (name s)); split; reflexivity.
Qed.

(** The amended C4 at the sample host where every step succeeds. *)
Lemma C4_witness :
  name Samples.bunSource = JStr "Bun" /\
  disk (snd (processSource Samples.allGood Samples.bunSource Samples.start))
       (absolute Samples.allGood (tempRepoPath "Bun")) = None /\
  fst (processSource_finally Samples.allGood (tempRepoPath "Bun")
         (snd (processSource Samples.allGood Samples.bunSource Samples.start))) = Normal tt.
Proof.
  assert (Habsent : disk (snd (processSource Samples.allGood Samples.bunSource Samples.start))
                         (absolute Samples.allGood (tempRepoPath "Bun")) = None)
    by (vm_compute; reflexivity).
  split; [reflexivity|]. split; [exact Habsent|].
  exact (proj1 (proj2 (proj2 (proj2
           (proj1 (C4_workspace_cleanup Samples.allGood Samples.bunSource Samples.start)
                  "Bun" eq_refl)))
           Habsent)).
Defined.

(* ------------------------------------------------------------------ *)
(** ** Extraction without text *)

Lemma noOutput_whitespace (out : string) : noOutput out = whitespace_only out.
Proof.
  unfold noOutput, whitespace_only. rewrite length_zero, trim_empty.
  destruct out; reflexivity.
Qed.

(** C5.  When the extraction step of a run yields a text that is empty or
    white space only, the [try] block stops there with the error "did not
    produce any output"; the run ends normally with that failure on the
    console, and in it the generation client is not entered and the
    generation API is not called. *)
Theorem C5_blank_extraction_skips_generation
        (host : Host) (s : SourceSpec) (n : string) (w : World)
        (out docsDir : string) (w1 : World) :
  name s = JStr n ->
  processSource_extract host n (repo s) (path s) (tempRepoPath n) (print (attempt_line s) w)
    = (Normal (out, docsDir), w1) ->
  whitespace_only out = true ->
  let reason := Error ("files-to-prompt did not produce any output for " ++ n
                       ++ ". Check DOCS_DIR ('" ++ docsDir ++ "') and file contents.") in
  let after := snd (processSource host s w) in
  processSource_try host n (repo s) (path s) (tempRepoPath n) (print (attempt_line s) w)
    = (Throw reason, w1) /\
  fst (processSource host s w) = Normal tt /\
  In (console_error, MSourceFailed n (message reason)) (console after) /\
  filter is_generate (calls after) = filter is_generate (calls w) /\
  filter is_generation_line (console after) = filter is_generation_line (console w).
Proof.
  intros Hn Hx Hblank reason after.
  assert (Ht : processSource_try host n (repo s) (path s) (tempRepoPath n)
                                 (print (attempt_line s) w) = (Throw reason, w1)).
  { unfold processSource_try, bind at 1. rewrite Hx.
    rewrite noOutput_whitespace, Hblank. reflexivity. }
  split; [exact Ht|]. split; [now rewrite (processSource_run host s n w Hn)|].
  split; [apply (failure_logged host s n w reason w1 Hn Ht)|].
  apply (processSource_keeps host is_generate is_generation_line s n w Hn); auto.
  rewrite Ht. simpl.
  pose proof (extract_keeps host is_generate is_generation_line
                ltac:(auto) ltac:(auto) n (repo s) (path s) (tempRepoPath n)
                (print (attempt_line s) w)) as Hk.
  now rewrite Hx in Hk.
Qed.

(** C5 at the sample host whose extraction prints white space only. *)
Lemma C5_witness :
  whitespace_only ("  " ++ nl) = true /\
  fst (processSource Samples.blankDocs Samples.bunSource Samples.start) = Normal tt /\
  filter is_generate (calls (snd (processSource Samples.blankDocs Samples.bunSource
                                                Samples.start))) = [].
Proof.
  pose (x := processSource_extract Samples.blankDocs "Bun" (repo Samples.bunSource)
               (path Samples.bunSource) (tempRepoPath "Bun")
               (print (attempt_line Samples.bunSource) Samples.start)).
  assert (Hx : x = (Normal ("  " ++ nl, "docs"), snd x))
    by (apply injective_projections; [vm_compute; reflexivity | reflexivity]).
  destruct (C5_blank_extraction_skips_generation
              Samples.blankDocs Samples.bunSource "Bun" Samples.start
              ("  " ++ nl) "docs" (snd x) eq_refl Hx eq_refl) as (_ & H2 & _ & H4 & _).
  split; [reflexivity|]. split; [exact H2 | exact H4].
Defined.

(* ------------------------------------------------------------------ *)
(** ** The generation client *)

Ltac in_console :=
  solve [ repeat (apply in_or_app; first [ solve [right; simpl; auto] | left ]) ].

Ltac split_ifs :=
  repeat match goal with
         | |- context [if ?b then _ else _] => destruct b
         end.

Opaque append.

(** The client, case by case on what the API gives. *)
Lemma generate_cases (host : Host) (docs tool : string) (w : World) :
  match generateContent host (clock w) (userPrompt docs tool) with
  | Raised e =>
      exists w',
        generateCheatsheetWithGemini host docs tool w =
          (Throw (Error ("Gemini API failed for " ++ tool ++ ": " ++ message e)), w') /\
        In (console_error, MGeminiError tool (message e)) (console w')
  | Returned response =>
      if blank (extractedText response) then
        exists w',
          generateCheatsheetWithGemini host docs tool w = (Throw (noContentError tool), w') /\
          In (if truthy_str (fst (diagnose response))
              then (console_error,
                    MGenerationFailed tool (or_default (fst (diagnose response)) ""))
              else (console_error, MResponseStructure tool response))
             (console w')
      else
        exists w',
          generateCheatsheetWithGemini host docs tool w = (Normal (extractedText response), w')
  end.
Proof.
  unfold generateCheatsheetWithGemini, extractedText, model_generateContent, noContentError.
  unfold bind, say, try_catch, ret, throw, when.
  replace (clock (print (console_log, MCallingGemini tool) w)) with (clock w) by reflexivity.
  destruct (generateContent host (clock w) (userPrompt docs tool)) as [response|e].
  - destruct (response_text response) as [t|e0].
    + destruct (blank t) eqn:Eb.
      * destruct (diagnose response) as [reason ratings]. simpl fst.
        destruct (truthy_str reason), (truthy_opt ratings); cbn; split_ifs;
          eexists; (split; [reflexivity | in_console]).
      * destruct (negb _); eexists; reflexivity.
    + destruct (blank (candidateText response)) eqn:Eb.
      * destruct (diagnose response) as [reason ratings]. simpl fst.
        destruct (truthy_str reason), (truthy_opt ratings); cbn; split_ifs;
          eexists; (split; [reflexivity | in_console]).
      * destruct (negb _); eexists; reflexivity.
  - cbn. split_ifs; eexists; (split; [reflexivity | in_console]).
Qed.

Transparent append.

(** Which reason is printed for a response without text. *)
Lemma diagnose_blocked (response : option Response) (fb : PromptFeedback) (b : string) :
  response_promptFeedback response = Some fb -> blockReason fb = Some b -> b <> "" ->
  fst (diagnose response) = Some b.
Proof.
  intros Hf Hb Hne. unfold diagnose. rewrite Hf, Hb.
  assert (Ht : truthy_str (Some b) = true).
  { simpl. apply negb_true_iff. now apply String.eqb_neq. }
  rewrite Ht. simpl negb. simpl andb.
  destruct (response_candidates response) as [[|first rest]|]; reflexivity.
Qed.

Lemma diagnose_stopped (response : option Response) (first : Candidate)
      (rest : list Candidate) (f : string) :
  truthy_str (match response_promptFeedback response with
              | Some fb => blockReason fb
              | None => None
              end) = false ->
  response_candidates response = Some (first :: rest) ->
  finishReason first = Some f -> f <> "" -> f <> "STOP" ->
  fst (diagnose response) = Some ("Generation stopped: " ++ f).
Proof.
  intros Hb Hc Hf Hne Hstop. unfold diagnose. rewrite Hc, Hb, Hf.
  apply String.eqb_neq in Hne, Hstop.
  unfold truthy_str, or_default. rewrite Hne. simpl negb. simpl andb.
  rewrite Hstop. reflexivity.
Qed.

Lemma diagnose_silent (response : option Response) :
  truthy_str (match response_promptFeedback response with
              | Some fb => blockReason fb
              | None => None
              end) = false ->
  match response_candidates response with
  | Some (first :: _) =>
      truthy_str (finishReason first) = false \/ finishReason first = Some "STOP"
  | _ => True
  end ->
  truthy_str (fst (diagnose response)) = false.
Proof.
  intros Hb Hc. unfold diagnose. rewrite Hb. simpl negb.
  destruct (response_candidates response) as [[|first rest]|]; try exact Hb.
  destruct Hc as [Hc|Hc]; rewrite Hc; simpl; exact Hb.
Qed.

(** What the client prints for a response without text, by the reason
    found. *)
Lemma generate_without_text (host : Host) (docs tool : string) (w : World)
      (response : option Response) :
  generateContent host (clock w) (userPrompt docs tool) = Returned response ->
  blank (extractedText response) = true ->
  exists w',
    generateCheatsheetWithGemini host docs tool w = (Throw (noContentError tool), w') /\
    In (if truthy_str (fst (diagnose response))
        then (console_error, MGenerationFailed tool (or_default (fst (diagnose response)) ""))
        else (console_error, MResponseStructure tool response))
       (console w').
Proof.
  intros Hapi Hb. pose proof (generate_cases host docs tool w) as H.
  now rewrite Hapi, Hb in H.
Qed.

Lemma unexplained_silent (response : option Response) :
  unexplained response -> truthy_str (fst (diagnose response)) = false.
Proof. intros [Hb Hc]. now apply diagnose_silent. Qed.

(** The disk after a run whose final removal is not made to fail. *)
Lemma workspace_gone (host : Host) (s : SourceSpec) (n : string) (w : World) :
  name s = JStr n ->
  (forall k d, rm_fault host k d (tempRepoPath n) = None) ->
  disk (snd (processSource host s w)) (absolute host (tempRepoPath n)) = None.
Proof.
  intros Hn Hrm. rewrite (processSource_run host s n w Hn). simpl.
  set (before := snd (processSource_guarded host n (repo s) (path s) (tempRepoPath n)
                        (print (attempt_line s) w))).
  rewrite finally_cases. simpl.
  destruct (disk before (absolute host (tempRepoPath n))) eqn:Ed; [|exact Ed].
  rewrite Hrm. simpl. now rewrite inside_self.
Qed.

(** The run of a source whose documentation was extracted and whose
    generation request is answered without candidates and with a block
    reason. *)
Lemma blocked_run (host : Host) (s : SourceSpec) (n : string) (w : World)
      (out docsDir : string) (w1 : World)
      (t : Outcome string) (ratings : option JsValue) (b : string) :
  name s = JStr n ->
  processSource_extract host n (repo s) (path s) (tempRepoPath n) (print (attempt_line s) w)
    = (Normal (out, docsDir), w1) ->
  whitespace_only out = false ->
  (forall x, t = Returned x -> blank x = true) ->
  b <> "" ->
  generateContent host (clock w1) (userPrompt out n)
    = Returned (Some (mkResponse t (Some []) (Some (mkFeedback (Some b) ratings)))) ->
  let after := snd (processSource host s w) in
  fst (processSource host s w) = Normal tt /\
  In (console_error, MGenerationFailed n b) (console after) /\
  In (console_error, MSourceFailed n (message (noContentError n))) (console after) /\
  filter is_write (calls after) = filter is_write (calls w).
Proof.
  intros Hn Hx Hout Ht Hb Hapi after.
  set (response := Some (mkResponse t (Some []) (Some (mkFeedback (Some b) ratings)))) in *.
  set (w1' := print (console_log, MExtracted (JsString.byteLength out) n) w1).
  assert (Hblank : blank (extractedText response) = true).
  { unfold extractedText, response. simpl. destruct t as [x|e]; [now apply Ht | reflexivity]. }
  assert (Hreason : fst (diagnose response) = Some b).
  { now apply (diagnose_blocked response (mkFeedback (Some b) ratings) b). }
  pose proof (generate_cases host out n w1') as Hg.
  replace (clock w1') with (clock w1) in Hg by reflexivity.
  rewrite Hapi in Hg. fold response in Hg. rewrite Hblank, Hreason in Hg.
  destruct Hg as (w2 & Hgen & Hline).
  assert (Htruthy : truthy_str (Some b) = true).
  { simpl. apply negb_true_iff. now apply String.eqb_neq. }
  rewrite Htruthy in Hline.
  assert (Hdefault : or_default (Some b) "" = b).
  { simpl. apply String.eqb_neq in Hb. now rewrite Hb. }
  rewrite Hdefault in Hline.
  assert (Htry : processSource_try host n (repo s) (path s) (tempRepoPath n)
                                   (print (attempt_line s) w)
                 = (Throw (noContentError n), w2)).
  { unfold processSource_try, bind at 1. rewrite Hx.
    rewrite noOutput_whitespace, Hout.
    unfold bind at 1. unfold ret at 1. unfold bind at 1. unfold say at 1.
    unfold bind at 1. fold w1'. rewrite Hgen. reflexivity. }
  destruct (failure_logged host s n w _ w2 Hn Htry) as [Hguard Hfail].
  split; [now rewrite (processSource_run host s n w Hn)|].
  split; [|split; [exact Hfail|]].
  - apply (printed_stays host s n w _ Hn). rewrite Hguard. simpl.
    apply in_or_app. now left.
  - apply (processSource_keeps host is_write no_line s n w Hn); auto.
    rewrite Htry. simpl.
    pose proof (extract_keeps host is_write no_line ltac:(auto) ltac:(auto)
                  n (repo s) (path s) (tempRepoPath n) (print (attempt_line s) w)) as Hk1.
    rewrite Hx in Hk1. simpl in Hk1.
    pose proof (generate_keeps host is_write no_line ltac:(auto) ltac:(auto)
                  out n w1') as Hk2.
    rewrite Hgen in Hk2. simpl in Hk2.
    eapply keeps_trans; [exact Hk1|].
    eapply keeps_trans; [|exact Hk2].
    apply keeps_print. reflexivity.
Qed.

(** C3, as stated, fails: the error the client throws is one and the same
    for a blocked prompt, for a response that says nothing, and for a
    generation stopped by the token limit; it carries no reason that tells
    them apart. *)
Lemma C3_counterexample :
  fst (generateCheatsheetWithGemini Samples.blocked "# Docs" "Bun" Samples.start)
    = Throw (Error "Gemini API failed for Bun: No cheatsheet content generated for Bun.") /\
  fst (generateCheatsheetWithGemini Samples.silent "# Docs" "Bun" Samples.start)
    = fst (generateCheatsheetWithGemini Samples.blocked "# Docs" "Bun" Samples.start) /\
  fst (generateCheatsheetWithGemini Samples.stopped "# Docs" "Bun" Samples.start)
    = fst (generateCheatsheetWithGemini Samples.blocked "# Docs" "Bun" Samples.start).
Proof. repeat split; vm_compute; reflexivity. Qed.

(** C3, amended.  The client fails by throwing an error whose message
    starts with "Gemini API failed for" and the tool name.  An error of the
    API call is passed on with its own message.  A response without text
    gives the same error "No cheatsheet content generated" in every case;
    what tells the cases apart is the console line printed before it: the
    block reason of the prompt feedback when there is one, otherwise
    "Generation stopped:" and the finish reason of the first candidate when
    that is not STOP, otherwise (no block reason, and no finish reason of a
    first candidate or the finish reason STOP) the response itself.  When the
    documentation
    of a source was extracted and the API answers without candidates and with
    a block reason, the run ends normally with the block reason and the
    failure of the source on the console, writes no file, and leaves no
    workspace behind unless its removal is made to fail. *)
Theorem C3_generation_failures (host : Host) :
  (forall (docs tool : string) (w : World),
      match generateContent host (clock w) (userPrompt docs tool) with
      | Raised e =>
          exists w',
            generateCheatsheetWithGemini host docs tool w =
              (Throw (Error ("Gemini API failed for " ++ tool ++ ": " ++ message e)), w') /\
            In (console_error, MGeminiError tool (message e)) (console w')
      | Returned response =>
          if blank (extractedText response) then
            exists w',
              generateCheatsheetWithGemini host docs tool w
                = (Throw (noContentError tool), w') /\
              In (if truthy_str (fst (diagnose response))
                  then (console_error,
                        MGenerationFailed tool (or_default (fst (diagnose response)) ""))
                  else (console_error, MResponseStructure tool response))
                 (console w')
          else
            exists w',
              generateCheatsheetWithGemini host docs tool w
                = (Normal (extractedText response), w')
      end)
  /\
  (forall (response : option Response) (fb : PromptFeedback) (b : string),
      response_promptFeedback response = Some fb -> blockReason fb = Some b -> b <> "" ->
      fst (diagnose response) = Some b)
  /\
  (forall (response : option Response) (first : Candidate) (rest : list Candidate)
          (f : string),
      truthy_str (match response_promptFeedback response with
                  | Some fb => blockReason fb
                  | None => None
                  end) = false ->
      response_candidates response = Some (first :: rest) ->
      finishReason first = Some f -> f <> "" -> f <> "STOP" ->
      fst (diagnose response) = Some ("Generation stopped: " ++ f))
  /\
  (forall (docs tool : string) (w : World) (response : option Response)
          (first : Candidate) (rest : list Candidate) (f : string),
      generateContent host (clock w) (userPrompt docs tool) = Returned response ->
      blank (extractedText response) = true ->
      truthy_str (feedbackReason response) = false ->
      response_candidates response = Some (first :: rest) ->
      finishReason first = Some f -> f <> "" -> f <> "STOP" ->
      exists w',
        generateCheatsheetWithGemini host docs tool w = (Throw (noContentError tool), w') /\
        In (console_error, MGenerationFailed tool ("Generation stopped: " ++ f))
           (console w'))
  /\
  (forall (docs tool : string) (w : World) (response : option Response),
      generateContent host (clock w) (userPrompt docs tool) = Returned response ->
      blank (extractedText response) = true ->
      unexplained response ->
      truthy_str (fst (diagnose response)) = false /\
      exists w',
        generateCheatsheetWithGemini host docs tool w = (Throw (noContentError tool), w') /\
        In (console_error, MResponseStructure tool response) (console w'))
  /\
  (forall (s : SourceSpec) (n : string) (w : World) (out docsDir : string) (w1 : World)
          (t : Outcome string) (ratings : option JsValue) (b : string),
      name s = JStr n ->
      processSource_extract host n (repo s) (path s) (tempRepoPath n)
                            (print (attempt_line s) w) = (Normal (out, docsDir), w1) ->
      whitespace_only out = false ->
      (forall x, t = Returned x -> blank x = true) ->
      b <> "" ->
      generateContent host (clock w1) (userPrompt out n)
        = Returned (Some (mkResponse t (Some []) (Some (mkFeedback (Some b) ratings)))) ->
      let after := snd (processSource host s w) in
      fst (processSource host s w) = Normal tt /\
      In (console_error, MGenerationFailed n b) (console after) /\
      In (console_error, MSourceFailed n (message (noContentError n))) (console after) /\
      filter is_write (calls after) = filter is_write (calls w) /\
      ((forall k d, rm_fault host k d (tempRepoPath n) = None) ->
       disk after (absolute host (tempRepoPath n)) = None)).
Proof.
  split; [|split; [|split; [|split; [|split]]]].
  - apply generate_cases.
  - apply diagnose_blocked.
  - apply diagnose_stopped.
  - intros docs tool w response first rest f Hapi Hblank Hfb Hc Hf Hne Hstop.
    destruct (generate_without_text host docs tool w response Hapi Hblank)
      as (w' & Hgen & Hline).
    rewrite (diagnose_stopped response first rest f Hfb Hc Hf Hne Hstop) in Hline.
    exists w'. split; [exact Hgen|].
    assert (E : ("Generation stopped: " ++ f =? "") = false) by reflexivity.
    cbn [truthy_str or_default] in Hline. rewrite E in Hline. exact Hline.
  - intros docs tool w response Hapi Hblank Hun.
    pose proof (unexplained_silent response Hun) as Hs. split; [exact Hs|].
    destruct (generate_without_text host docs tool w response Hapi Hblank)
      as (w' & Hgen & Hline).
    rewrite Hs in Hline. now exists w'.
  - intros s n w out docsDir w1 t ratings b Hn Hx Hout Ht Hb Hapi after.
    destruct (blocked_run host s n w out docsDir w1 t ratings b Hn Hx Hout Ht Hb Hapi)
      as (H1 & H2 & H3 & H4).
    repeat split; try assumption.
    intros Hrm. now apply workspace_gone.
Qed.

(** The amended C3 at the sample hosts whose API blocks the prompt, stops
    at the token limit, and answers a candidate that finished by STOP without
    text. *)
Lemma C3_witness :
  (fst (processSource Samples.blocked Samples.bunSource Samples.start) = Normal tt /\
   In (console_error, MGenerationFailed "Bun" "SAFETY")
      (console (snd (processSource Samples.blocked Samples.bunSource Samples.start))) /\
   filter is_write
          (calls (snd (processSource Samples.blocked Samples.bunSource Samples.start)))
     = [] /\
   disk (snd (processSource Samples.blocked Samples.bunSource Samples.start))
        (absolute Samples.blocked (tempRepoPath "Bun")) = None) /\
  (exists w',
      generateCheatsheetWithGemini Samples.stopped "# Docs" "Bun" Samples.start
        = (Throw (noContentError "Bun"), w') /\
      In (console_error, MGenerationFailed "Bun" "Generation stopped: MAX_TOKENS")
         (console w')) /\
  (exists w',
      generateCheatsheetWithGemini Samples.finished "# Docs" "Bun" Samples.start
        = (Throw (noContentError "Bun"), w') /\
      In (console_error, MResponseStructure "Bun" (Some Samples.finishedResponse))
         (console w')).
Proof.
  split; [|split].
  2: { exact (proj1 (proj2 (proj2 (proj2 (C3_generation_failures Samples.stopped))))
                "# Docs" "Bun" Samples.start (Some Samples.stoppedResponse)
                (mkCandidate None (Some "MAX_TOKENS") None) [] "MAX_TOKENS"
                eq_refl eq_refl eq_refl eq_refl eq_refl
                ltac:(discriminate) ltac:(discriminate)). }
  2: { exact (proj2 (proj1 (proj2 (proj2 (proj2 (proj2
                (C3_generation_failures Samples.finished)))))
                "# Docs" "Bun" Samples.start (Some Samples.finishedResponse)
                eq_refl eq_refl (conj eq_refl (or_intror eq_refl)))). }
  pose (x := processSource_extract Samples.blocked "Bun" (repo Samples.bunSource)
               (path Samples.bunSource) (tempRepoPath "Bun")
               (print (attempt_line Samples.bunSource) Samples.start)).
  assert (Hx : x = (Normal ("# Docs", "docs"), snd x))
    by (apply injective_projections; [vm_compute; reflexivity | reflexivity]).
  destruct (proj2 (proj2 (proj2 (proj2 (proj2 (C3_generation_failures Samples.blocked)))))
              Samples.bunSource "Bun" Samples.start "# Docs" "docs" (snd x)
              (Raised (Error "Text not available. Response was blocked due to SAFETY"))
              None "SAFETY" eq_refl Hx eq_refl
              ltac:(intros y Hy; discriminate Hy) ltac:(discriminate) eq_refl)
    as (H1 & H2 & _ & H4 & H5).
  split; [exact H1|]. split; [exact H2|]. split; [exact H4|].
  apply H5. intros k d. reflexivity.
Defined.

(* ------------------------------------------------------------------ *)
(** ** The loader *)

Lemma disk_print (l : Line) (w : World) : disk (print l w) = disk w.
Proof. reflexivity. Qed.

Lemma clock_print (l : Line) (w : World) : clock (print l w) = clock w.
Proof. reflexivity. Qed.

Lemma clock_on_disk (d : Disk) (w : World) : clock (on_disk d w) = clock w.
Proof. reflexivity. Qed.

Lemma clock_called (c : Call) (w : World) : clock (called c w) = S (clock w).
Proof. unfold clock. simpl. rewrite length_app. simpl. lia. Qed.


Section Loader.
Variable host : Host.

(** The check of the required keys on an object is the truthiness of the
    three values. *)
Lemma hasRequiredKeys_object (fields : list (string * JsValue)) :
  hasRequiredKeys (JObj fields) =
  Returned (truthy (assoc "repo" fields) && truthy (assoc "name" fields) &&
            truthy (assoc "path" fields)).
Proof.
  unfold hasRequiredKeys. simpl.
  destruct (truthy (assoc "repo" fields)), (truthy (assoc "name" fields)); reflexivity.
Qed.

(** An argument that is no string ends the loop, and [run] with it. *)
Lemma run_loadFile_not_string (state : list SourceSpec * bool) (arg : JsValue) (w : World) :
  is_string arg = false ->
  run_loadFile host state arg w =
  (Throw (Error "sourceFileArg.startsWith is not a function"), w).
Proof. destruct state, arg; try discriminate; reflexivity. Qed.

(** Loading a file that is there, can be read, and holds an object. *)
Lemma run_loadFile_object (state : list SourceSpec * bool) (arg content : string)
      (fields : list (string * JsValue)) (w : World) :
  let p := sourceFilePath (cwd host) arg in
  let w1 := called (CallRead p) (print (console_log, MLoadingFile p) w) in
  let s := mkSource (assoc "name" fields) (assoc "repo" fields) (assoc "path" fields)
                    (Path.basename p) in
  disk w (absolute host p) = Some (File content) ->
  read_fault host (clock w) (disk w) p = None ->
  JSON_parse host content = Returned (JObj fields) ->
  run_loadFile host state (JStr arg) w =
  if truthy (assoc "repo" fields) && truthy (assoc "name" fields) &&
     truthy (assoc "path" fields)
  then
    if convertible (assoc "name" fields)
    then (Normal ((fst state ++ [s])%list, snd state),
          print (console_log, MSourceAdded (assoc "name" fields) (Path.basename p)) w1)
    else (Normal ((fst state ++ [s])%list, true),
          print (console_error, MBadFile p (message cannotConvert)) w1)
  else (Normal (fst state, true), print (console_error, MMissingKeys p) w1).
Proof.
  intros p w1 s Hd Hr Hj. destruct state as [sources hasErrors].
  unfold run_loadFile, run_loadFile_catch, interpolate.
  unfold bind, say, existsSync, try_catch, readFileSync, ret, throw.
  cbv beta iota zeta. fold p. rewrite disk_print, Hd. cbv beta iota zeta.
  rewrite disk_print, clock_print, Hr, Hd. cbv beta iota zeta. rewrite Hj.
  cbn [of_outcome]. unfold ret. cbv beta iota zeta.
  rewrite hasRequiredKeys_object. cbn [of_outcome]. unfold ret. cbv beta iota zeta.
  destruct (truthy (assoc "repo" fields) && truthy (assoc "name" fields) &&
            truthy (assoc "path" fields)); [|reflexivity].
  cbn [fieldOf getField]. destruct (convertible (assoc "name" fields)); reflexivity.
Qed.

Lemma run_loadFile_keeps state arg :
  preserves (keeps no_call is_attempt) (run_loadFile host state arg).
Proof. destruct state. unfold run_loadFile, run_loadFile_catch. frame. Qed.

Lemma run_loadFiles_keeps args :
  forall state, preserves (keeps no_call is_attempt) (run_loadFiles host args state).
Proof.
  induction args as [|arg more IH]; intros state; simpl; frame.
  - apply run_loadFile_keeps.
  - apply IH.
Qed.

Lemma run_load_keeps args : preserves (keeps no_call is_attempt) (run_load host args).
Proof. unfold run_load. frame. apply run_loadFiles_keeps. Qed.

(** One turn of the loop on a string, against [fileSource]: the source the
    file gives is added, and the error flag is set when the file gives none
    or when the name of the source cannot be converted for the message of
    line 296. *)
Lemma run_loadFile_spec (state : list SourceSpec * bool) (arg : string) (w : World) :
  exists w',
    match fileSource host (clock w) (disk w) arg with
    | Some s =>
        run_loadFile host state (JStr arg) w =
        (Normal ((fst state ++ [s])%list, snd state || negb (convertible (name s))), w')
    | None =>
        run_loadFile host state (JStr arg) w = (Normal (fst state, true), w')
    end /\
    disk w' = disk w /\
    clock w' = match disk w (absolute host (sourceFilePath (cwd host) arg)) with
               | Some _ => S (clock w)
               | None => clock w
               end.
Proof.
  destruct state as [sources hasErrors]. unfold fileSource.
  unfold run_loadFile, run_loadFile_catch, interpolate.
  unfold bind, say, existsSync, try_catch, readFileSync, ret, throw.
  cbv beta iota zeta. rewrite disk_print.
  destruct (disk w (absolute host (sourceFilePath (cwd host) arg))) as [node|] eqn:Hd;
    cbv beta iota zeta; [|eexists; repeat split].
  rewrite disk_print, clock_print, Hd.
  destruct (read_fault host (clock w) (disk w) (sourceFilePath (cwd host) arg)) as [e|].
  { destruct node;
      (eexists; (split; [reflexivity|]); split;
       [reflexivity | now rewrite clock_print, clock_called, clock_print]). }
  destruct node as [|content].
  { eexists; (split; [reflexivity|]); split;
      [reflexivity | now rewrite clock_print, clock_called, clock_print]. }
  destruct (JSON_parse host content) as [data|e]; cbn [of_outcome]; unfold ret, throw;
    cbv beta iota zeta.
  2: { eexists; (split; [reflexivity|]); split;
         [reflexivity | now rewrite clock_print, clock_called, clock_print]. }
  destruct data as [| |b|z|str|items|fields];
    try (eexists; (split; [reflexivity|]); split;
         [reflexivity | now rewrite clock_print, clock_called, clock_print]).
  rewrite hasRequiredKeys_object. cbn [of_outcome]. unfold ret. cbv beta iota zeta.
  destruct (truthy (assoc "repo" fields) && truthy (assoc "name" fields) &&
            truthy (assoc "path" fields)).
  - cbn [fieldOf getField name fst snd].
    destruct (convertible (assoc "name" fields)); cbn [negb];
      rewrite ?orb_false_r, ?orb_true_r;
      (eexists; (split; [reflexivity|]); split;
       [reflexivity | now rewrite clock_print, clock_called, clock_print]).
  - eexists; (split; [reflexivity|]); split;
      [reflexivity | now rewrite clock_print, clock_called, clock_print].
Qed.

(** A source that a file gives has its three fields truthy and is named
    after the file. *)
Lemma fileSource_valid (k : nat) (d : Disk) (arg : string) (s : SourceSpec) :
  fileSource host k d arg = Some s ->
  valid_source s = true /\
  sourceOrigin s = Path.basename (sourceFilePath (cwd host) arg).
Proof.
  unfold fileSource.
  destruct (d _) as [[|content]|]; try discriminate.
  destruct (read_fault host k d _); try discriminate.
  destruct (JSON_parse host content) as [[| |b|z|str|items|fields]|e]; try discriminate.
  destruct (truthy (assoc "repo" fields) && truthy (assoc "name" fields) &&
            truthy (assoc "path" fields)) eqn:Ht; [|discriminate].
  intros H. injection H as <-. split; [|reflexivity].
  unfold valid_source. cbn [name repo path].
  apply andb_true_iff in Ht as [Ht Hp]. apply andb_true_iff in Ht as [Hr Hn].
  now rewrite Hr, Hn, Hp.
Qed.

Lemma sourceList_length (found : option SourceSpec) : length (sourceList found) <= 1.
Proof. destruct found; simpl; lia. Qed.

Lemma fileSources_length (args : list string) :
  forall k d, length (fileSources host k d args) <= length args.
Proof.
  induction args as [|arg more IH]; intros k d; cbn [fileSources length]; [lia|].
  rewrite length_app.
  pose proof (sourceList_length (fileSource host k d arg)).
  specialize (IH (match d (absolute host (sourceFilePath (cwd host) arg)) with
                  | Some _ => S k
                  | None => k
                  end) d). lia.
Qed.

(** The loop over arguments that are strings, against [fileSources]. *)
Lemma run_loadFiles_spec (args : list string) :
  forall (state : list SourceSpec * bool) (w : World),
    let added := fileSources host (clock w) (disk w) args in
    exists w',
      run_loadFiles host (map JStr args) state w =
      (Normal ((fst state ++ added)%list,
               snd state || negb (length added =? length args)%nat ||
               existsb (fun s => negb (convertible (name s))) added), w') /\
      disk w' = disk w.
Proof.
  induction args as [|arg more IH]; intros state w added.
  - exists w. destruct state as [sources hasErrors]. subst added. cbn.
    unfold ret. now rewrite app_nil_r, !orb_false_r.
  - subst added. cbn [map run_loadFiles fileSources].
    destruct (run_loadFile_spec state arg w) as (w1 & Hstep & Hd1 & Hc1).
    set (next := match disk w (absolute host (sourceFilePath (cwd host) arg)) with
                 | Some _ => S (clock w)
                 | None => clock w
                 end) in *.
    pose proof (fileSources_length more next (disk w)) as Hlen.
    destruct (fileSource host (clock w) (disk w) arg) as [s|].
    + rewrite (bind_normal _ _ _ _ _ Hstep).
      destruct (IH ((fst state ++ [s])%list, snd state || negb (convertible (name s))) w1)
        as (w' & E & Hd).
      cbv zeta in E. rewrite Hd1, Hc1 in E.
      exists w'. rewrite E. cbn [fst snd sourceList app length existsb Nat.eqb].
      split; [|congruence]. rewrite <- app_assoc. cbn [app].
      f_equal. f_equal.
      destruct (snd state), (convertible (name s)),
        (length (fileSources host next (disk w) more) =? length more)%nat,
        (existsb (fun s0 => negb (convertible (name s0)))
                 (fileSources host next (disk w) more)); reflexivity.
    + rewrite (bind_normal _ _ _ _ _ Hstep).
      destruct (IH (fst state, true) w1) as (w' & E & Hd).
      cbv zeta in E. rewrite Hd1, Hc1 in E.
      exists w'. rewrite E. cbn [fst snd sourceList app length].
      split; [|congruence].
      replace (length (fileSources host next (disk w) more) =? S (length more))%nat
        with false by (symmetry; apply Nat.eqb_neq; lia).
      cbn [negb orb]. now rewrite orb_true_r.
Qed.

Lemma run_load_environment (w : World) :
  fst (run_load host [] w) =
  if env_complete host
  then Normal ([mkSource (JStr (or_default (env host "PROJECT_NAME") ""))
                         (JStr (or_default (env host "REPO_URL") ""))
                         (JStr (or_default (env host "DOCS_DIR") ""))
                         "environment variables"], false)
  else Exit 1.
Proof.
  unfold run_load, env_complete. simpl. unfold bind, say.
  destruct (truthy_str (env host "REPO_URL") && truthy_str (env host "PROJECT_NAME") &&
            truthy_str (env host "DOCS_DIR")); reflexivity.
Qed.

(** The loader on arguments that are strings: it gives the resolved sources,
    or ends the process with status 1 when there is none. *)
Lemma run_load_strings (args : list string) (w : World) :
  exists errors w',
    run_load host (map JStr args) w =
    match resolvedSources host args w with
    | [] => (Exit 1, w')
    | _ => (Normal (resolvedSources host args w, errors), w')
    end.
Proof.
  destruct args as [|arg more].
  - unfold run_load, resolvedSources, env_complete, envSource. cbn [map length Nat.ltb Nat.leb].
    unfold bind, say. cbv beta iota zeta.
    destruct (truthy_str (env host "REPO_URL") && truthy_str (env host "PROJECT_NAME") &&
              truthy_str (env host "DOCS_DIR")); exists false; eexists; reflexivity.
  - unfold run_load. cbn [map length Nat.ltb Nat.leb].
    unfold resolvedSources.
    destruct (run_loadFiles_spec (arg :: more) ([], false)
                (print (console_log, MFoundArgs (S (length (map JStr more)))) w))
      as (w1 & E & _).
    cbv zeta in E. rewrite clock_print, disk_print in E. cbn [fst snd app] in E.
    cbn [map] in E.
    rewrite (bind_normal _ _ _ _ _ (eq_refl : say console_log _ w = (Normal tt, _))).
    rewrite (bind_normal _ _ _ _ _ E). cbn [fst].
    destruct (fileSources host (clock w) (disk w) (arg :: more)) as [|s rest].
    + exists false. eexists. reflexivity.
    + do 2 eexists. reflexivity.
Qed.

End Loader.

(* ------------------------------------------------------------------ *)
(** ** The whole process *)

Lemma attempts_print (l : Line) (w : World) :
  is_attempt l = false -> attempts (print l w) = attempts w.
Proof.
  intros H. unfold attempts. simpl. rewrite filter_app. simpl. rewrite H. apply app_nil_r.
Qed.

(** Once the loader has given its sources, [run] goes through them and
    returns normally. *)
Lemma run_after_load (host : Host) (args : list JsValue) (w : World)
      (sources : list SourceSpec) (hasErrors : bool) (w1 : World) :
  run_load host args w = (Normal (sources, hasErrors), w1) ->
  exists w', run host args w = (Normal tt, w') /\
             attempts w' = (attempts w1 ++ attempt_lines sources)%list.
Proof.
  intros Hl. unfold run, bind at 1. rewrite Hl. cbv beta iota zeta.
  unfold bind at 1. unfold say at 1. cbv beta iota zeta. unfold bind at 1.
  destruct (run_loop_complete host sources 0 0
              (print (console_log, MStarting (length sources)) w1))
    as (sc & fc & H1 & _ & H3).
  rewrite attempts_print in H3 by reflexivity.
  destruct (run_loop host sources 0 0 _) as [c w2]. simpl in H1, H3. subst c.
  cbv beta iota zeta. unfold bind, say. cbv beta iota zeta.
  destruct (hasErrors || (0 <? fc)%nat); cbv beta iota zeta;
    eexists; (split; [reflexivity|]); rewrite !attempts_print by reflexivity; exact H3.
Qed.

(** [run] on arguments that are strings: status 1 and nothing attempted when
    no source is resolved, a normal return after every resolved source
    otherwise. *)
Lemma run_strings (host : Host) (args : list string) (w : World) :
  exists w',
    run host (map JStr args) w =
    (match resolvedSources host args w with
     | [] => Exit 1
     | _ => Normal tt
     end, w') /\
    attempts w' = (attempts w ++ attempt_lines (resolvedSources host args w))%list.
Proof.
  destruct (run_load_strings host args w) as (errors & w1 & Hl).
  pose proof (run_load_keeps host (map JStr args) w) as [_ Hk].
  fold (attempts (snd (run_load host (map JStr args) w))) in Hk. fold (attempts w) in Hk.
  destruct (resolvedSources host args w) as [|s rest].
  - exists w1. rewrite Hl in Hk. cbn [snd] in Hk. split.
    + unfold run. now rewrite (bind_exit _ _ _ _ _ Hl).
    + unfold attempt_lines. cbn. now rewrite app_nil_r.
  - rewrite Hl in Hk. cbn [snd] in Hk.
    destruct (run_after_load host (map JStr args) w (s :: rest) errors w1 Hl)
      as (w' & Hrun & Hatt).
    exists w'. split; [exact Hrun | congruence].
Qed.

(** C9: the process does not always complete the batch.  With the
    credential set and the command line [bun.json 42], the first argument
    gives a valid source and the second one, which minimist turns into a
    number, has no [startsWith]: line 279 throws outside every [try], [run]
    is rejected, and the process ends with status 1 before any source is
    attempted, although a source was resolved. *)
Theorem C9_numeric_argument_ends_the_run :
  let r := main Samples.numericArgument Samples.start in
  truthy_str (env Samples.numericArgument "GEMINI_API_KEY") = true /\
  fst (run_loadFile Samples.numericArgument ([], false) (JStr "bun.json") Samples.start)
    = Normal ([Samples.bunSource], false) /\
  (exists e, fst r = Throw e) /\
  exit_status (fst r) = 1%Z /\
  console (snd r) =
    [ (console_log, MUsingModel "gemini-2.5-pro-exp-03-25");
      (console_log, MFoundArgs 2);
      (console_log, MLoadingFile "/app/sources/bun.json");
      (console_log, MSourceAdded (JStr "Bun") "bun.json") ] /\
  attempts (snd r) = [] /\
  calls (snd r) = [CallRead "/app/sources/bun.json"].
Proof.
  split; [reflexivity|]. split; [vm_compute; reflexivity|].
  split; [eexists; vm_compute; reflexivity|].
  repeat split; vm_compute; reflexivity.
Qed.

Lemma env_incomplete (host : Host) (key : string) :
  key = "REPO_URL" \/ key = "PROJECT_NAME" \/ key = "DOCS_DIR" ->
  truthy_str (env host key) = false -> env_complete host = false.
Proof.
  unfold env_complete. intros [-> | [-> | ->]] H; rewrite H.
  - reflexivity.
  - apply andb_false_iff. left. apply andb_false_r.
  - apply andb_false_r.
Qed.

(** What [run] does of one configuration file that is there, can be read and
    holds an object. *)
Lemma run_one_file (host : Host) (arg content : string)
      (fields : list (string * JsValue)) (w : World) :
  let p := sourceFilePath (cwd host) arg in
  let s := mkSource (assoc "name" fields) (assoc "repo" fields) (assoc "path" fields)
                    (Path.basename p) in
  disk w (absolute host p) = Some (File content) ->
  read_fault host (clock w) (disk w) p = None ->
  JSON_parse host content = Returned (JObj fields) ->
  if truthy (assoc "repo" fields) && truthy (assoc "name" fields) &&
     truthy (assoc "path" fields)
  then
    (exists hasErrors w1, run_load host [JStr arg] w = (Normal ([s], hasErrors), w1)) /\
    fst (run host [JStr arg] w) = Normal tt /\
    attempts (snd (run host [JStr arg] w)) = (attempts w ++ attempt_lines [s])%list
  else
    fst (run host [JStr arg] w) = Exit 1 /\
    attempts (snd (run host [JStr arg] w)) = attempts w.
Proof.
  intros p s Hd Hr Hj.
  assert (Hf : fileSource host (clock w) (disk w) arg =
               if truthy (assoc "repo" fields) && truthy (assoc "name" fields) &&
                  truthy (assoc "path" fields)
               then Some s else None).
  { unfold fileSource. fold p. now rewrite Hd, Hr, Hj. }
  destruct (run_load_strings host [arg] w) as (errors & w1 & Hl).
  destruct (run_strings host [arg] w) as (w' & Hrun & Hatt).
  unfold resolvedSources in Hl, Hrun, Hatt. cbn [fileSources map] in Hl, Hrun, Hatt.
  rewrite Hf in Hl, Hrun, Hatt.
  destruct (truthy (assoc "repo" fields) && truthy (assoc "name" fields) &&
            truthy (assoc "path" fields)); cbn [sourceList app] in Hl, Hrun, Hatt.
  - split; [now exists errors, w1|]. rewrite Hrun. split; [reflexivity | exact Hatt].
  - rewrite Hrun. split; [reflexivity|]. cbn [snd]. rewrite Hatt.
    unfold attempt_lines. cbn. apply app_nil_r.
Qed.

(** C10.  The check of the required fields is their truthiness.  On a
    configuration file that holds an object, the loader adds a source exactly
    when the three values are truthy, with the values as they are; otherwise
    it reports missing keys and records an error.  The empty string is not
    truthy, a number other than zero is.  A name that is truthy and cannot be
    converted to a string is added as well, and only makes the message of
    line 296 fail, which the [catch] clause reports with an error recorded.
    [run] on such a file hands the source to the loop, and ends with status
    1 when the check fails.  In the fallback, a source is taken from the
    environment exactly when the three variables are set and not empty.
    Every source the loop is given, whatever its name, is counted by the
    loop, and its run opens with its line when its name can be converted. *)
Theorem C10_truthiness_validation (host : Host) :
  (forall fields : list (string * JsValue),
      hasRequiredKeys (JObj fields) =
      Returned (truthy (assoc "repo" fields) && truthy (assoc "name" fields) &&
                truthy (assoc "path" fields)))
  /\ truthy (JStr "") = false
  /\ (forall z : Z, z <> 0%Z -> truthy (JNum z) = true)
  /\ (forall (state : list SourceSpec * bool) (arg content : string)
             (fields : list (string * JsValue)) (w : World),
         let p := sourceFilePath (cwd host) arg in
         let w1 := called (CallRead p) (print (console_log, MLoadingFile p) w) in
         let s := mkSource (assoc "name" fields) (assoc "repo" fields)
                           (assoc "path" fields) (Path.basename p) in
         disk w (absolute host p) = Some (File content) ->
         read_fault host (clock w) (disk w) p = None ->
         JSON_parse host content = Returned (JObj fields) ->
         run_loadFile host state (JStr arg) w =
         if truthy (assoc "repo" fields) && truthy (assoc "name" fields) &&
            truthy (assoc "path" fields)
         then
           if convertible (assoc "name" fields)
           then (Normal ((fst state ++ [s])%list, snd state),
                 print (console_log, MSourceAdded (assoc "name" fields) (Path.basename p))
                       w1)
           else (Normal ((fst state ++ [s])%list, true),
                 print (console_error, MBadFile p (message cannotConvert)) w1)
         else (Normal (fst state, true), print (console_error, MMissingKeys p) w1))
  /\ (forall (arg content : string) (fields : list (string * JsValue)) (w : World),
         let p := sourceFilePath (cwd host) arg in
         let s := mkSource (assoc "name" fields) (assoc "repo" fields)
                           (assoc "path" fields) (Path.basename p) in
         disk w (absolute host p) = Some (File content) ->
         read_fault host (clock w) (disk w) p = None ->
         JSON_parse host content = Returned (JObj fields) ->
         if truthy (assoc "repo" fields) && truthy (assoc "name" fields) &&
            truthy (assoc "path" fields)
         then
           (exists hasErrors w1,
               run_load host [JStr arg] w = (Normal ([s], hasErrors), w1)) /\
           fst (run host [JStr arg] w) = Normal tt /\
           attempts (snd (run host [JStr arg] w)) = (attempts w ++ attempt_lines [s])%list
         else
           fst (run host [JStr arg] w) = Exit 1 /\
           attempts (snd (run host [JStr arg] w)) = attempts w)
  /\ (forall w : World,
         fst (run_load host [] w) =
         if env_complete host
         then Normal ([mkSource (JStr (or_default (env host "PROJECT_NAME") ""))
                                (JStr (or_default (env host "REPO_URL") ""))
                                (JStr (or_default (env host "DOCS_DIR") ""))
                                "environment variables"], false)
         else Exit 1)
  /\ (forall key : string,
         key = "REPO_URL" \/ key = "PROJECT_NAME" \/ key = "DOCS_DIR" ->
         env host key = Some "" -> env_complete host = false)
  /\ (forall (sources : list SourceSpec) (sc fc : nat) (w : World),
         (exists sc' fc', fst (run_loop host sources sc fc w) = Normal (sc', fc') /\
                          sc' + fc' = sc + fc + length sources) /\
         forall s : SourceSpec,
           In s sources -> convertible (name s) = true ->
           In (attempt_line s) (console (snd (run_loop host sources sc fc w)))).
Proof.
  split; [apply hasRequiredKeys_object|].
  split; [reflexivity|].
  split; [intros z Hz; simpl; apply negb_true_iff; now apply Z.eqb_neq|].
  split; [apply run_loadFile_object|].
  split; [apply run_one_file|].
  split; [apply run_load_environment|].
  split.
  - intros key Hkey Hempty. apply (env_incomplete host key Hkey). now rewrite Hempty.
  - intros sources sc fc w.
    destruct (run_loop_complete host sources sc fc w) as (sc' & fc' & H1 & H2 & H3).
    split; [now exists sc', fc'|].
    intros s Hs Hc.
    assert (Hin : In (attempt_line s) (attempts (snd (run_loop host sources sc fc w)))).
    { rewrite H3. apply in_or_app. right. unfold attempt_lines.
      apply in_map. apply filter_In. now split. }
    unfold attempts in Hin. now apply filter_In in Hin.
Qed.

(** C10 at the sample configuration file whose name is a number. *)
Lemma C10_witness :
  run_loadFile Samples.numberName ([], false) (JStr "number.json") Samples.start =
    (Normal ([Samples.numberSource], false),
     print (console_log, MSourceAdded (JNum 42) "number.json")
           (called (CallRead "/app/sources/number.json")
                   (print (console_log, MLoadingFile "/app/sources/number.json")
                          Samples.start))) /\
  truthy (JNum 42) = true /\
  fst (run Samples.numberName [JStr "number.json"] Samples.start) = Normal tt /\
  attempts (snd (run Samples.numberName [JStr "number.json"] Samples.start)) =
    [attempt_line Samples.numberSource] /\
  In (attempt_line Samples.numberSource)
     (console (snd (run_loop Samples.numberName [Samples.numberSource] 0 0 Samples.start))).
Proof.
  destruct (C10_truthiness_validation Samples.numberName)
    as (_ & _ & Hnum & Hload & Hrun & _ & _ & Hloop).
  split; [|split; [|split; [|split]]].
  - exact (Hload ([], false) "number.json" "number"
                 [("name", JNum 42); ("repo", JStr Samples.repoUrl); ("path", JStr "docs")]
                 Samples.start eq_refl eq_refl eq_refl).
  - apply Hnum. discriminate.
  - exact (proj1 (proj2 (Hrun "number.json" "number"
                 [("name", JNum 42); ("repo", JStr Samples.repoUrl); ("path", JStr "docs")]
                 Samples.start eq_refl eq_refl eq_refl))).
  - exact (proj2 (proj2 (Hrun "number.json" "number"
                 [("name", JNum 42); ("repo", JStr Samples.repoUrl); ("path", JStr "docs")]
                 Samples.start eq_refl eq_refl eq_refl))).
  - apply (proj2 (Hloop [Samples.numberSource] 0 0 Samples.start));
      [left; reflexivity | reflexivity].
Defined.

(* ------------------------------------------------------------------ *)
(** ** More on names and paths *)

Section MoreNames.
Import JsString FilenameSpec.

Lemma all_units_app (P : ascii -> bool) (a b : string) :
  all_units P (a ++ b) = all_units P a && all_units P b.
Proof. induction a as [|c a IH]; simpl; [reflexivity|]. now rewrite IH, andb_assoc. Qed.

Lemma all_units_weaken (P Q : ascii -> bool) (s : string) :
  (forall c, P c = true -> Q c = true) -> all_units P s = true -> all_units Q s = true.
Proof.
  intros H. induction s as [|c s IH]; simpl; [reflexivity|].
  intros Hs. apply andb_true_iff in Hs as [Hc Hs]. now rewrite (H c Hc), IH.
Qed.

Lemma class_is_workspace_unit (c : ascii) : in_a_z_0_9 c = true -> workspace_unit c = true.
Proof. intros H. unfold workspace_unit. now rewrite H. Qed.

Lemma class_not_underscore (c : ascii) : in_a_z_0_9 c = true -> Ascii.eqb c "_"%char = false.
Proof.
  destruct (Ascii.eqb c "_"%char) eqn:E; [|reflexivity].
  apply Ascii.eqb_eq in E. subst c. vm_compute. discriminate.
Qed.

(** The scan of [replace(/[^a-z0-9]+/g, '_')] gives workspace units only,
    and no more units than it reads. *)
Lemma replace_runs_from_units (s : string) (matching : bool) :
  all_units workspace_unit (replace_runs_from matching s) = true /\
  String.length (replace_runs_from matching s) <= String.length s.
Proof.
  revert matching. induction s as [|c s IH]; intros matching; simpl; [split; [reflexivity|lia]|].
  destruct (in_a_z_0_9 c) eqn:Ec.
  - destruct (IH false) as [H1 H2]. simpl. rewrite H1, (class_is_workspace_unit c Ec).
    split; [reflexivity | lia].
  - destruct (IH true) as [H1 H2]. destruct matching; simpl.
    + split; [exact H1 | lia].
    + rewrite H1. split; [reflexivity | lia].
Qed.

Lemma replace_runs_from_underscores (s : string) :
  no_double_underscore (replace_runs_from false s) = true /\
  no_double_underscore (replace_runs_from true s) = true /\
  starts_with_underscore (replace_runs_from true s) = false.
Proof.
  induction s as [|c s (IHf & IHt & IHs)]; simpl; [repeat split|].
  destruct (in_a_z_0_9 c) eqn:Ec.
  - pose proof (class_not_underscore c Ec) as Hc.
    assert (H : no_double_underscore (String c (replace_runs_from false s)) = true).
    { simpl. destruct (replace_runs_from false s); [reflexivity|].
      now rewrite Hc, IHf. }
    repeat split; try exact H. simpl. exact Hc.
  - repeat split; try assumption.
    destruct (replace_runs_from true s) as [|b r]; [reflexivity|].
    simpl in IHs.
    change (negb (Ascii.eqb "_"%char "_"%char && Ascii.eqb b "_"%char)
            && no_double_underscore (String b r) = true).
    rewrite IHs, IHt. reflexivity.
Qed.

Lemma endsWithSlash_app (a b : string) :
  b <> "" -> Path.endsWithSlash (a ++ b) = Path.endsWithSlash b.
Proof.
  intros Hb. induction a as [|c a IH]; [reflexivity|].
  simpl. destruct (a ++ b) eqn:E.
  - destruct a; [simpl in E; contradiction | discriminate].
  - exact IH.
Qed.

Lemma split_no_slash (s : string) : all_units not_slash s = true -> split "/"%char s = [s].
Proof.
  induction s as [|c s IH]; simpl; [reflexivity|].
  intros H. apply andb_true_iff in H as [Hc Hs]. unfold not_slash in Hc.
  apply negb_true_iff in Hc. now rewrite Hc, (IH Hs).
Qed.

(** [path.join("/app/output", file)] for a file name without slash. *)
Lemma join_output_segment (f : string) :
  split "/"%char f = [f] ->
  (f =? "") = false -> (f =? ".") = false -> (f =? "..") = false ->
  Path.endsWithSlash f = false ->
  Path.join_path [CONTAINER_OUTPUT_DIR; f] = "/app/output/" ++ f.
Proof.
  intros Hsplit H0 H1 H2 Hends.
  rewrite join_path_two by (reflexivity || assumption).
  assert (Hf : f <> "") by (now apply String.eqb_neq).
  assert (Hn : Path.normalizeString ("/app/output/" ++ f) false = "app/output/" ++ f).
  { unfold Path.normalizeString. simpl split. rewrite Hsplit.
    simpl fold_left. unfold Path.push_segment at 1. rewrite H0, H1, H2. reflexivity. }
  unfold Path.normalize, CONTAINER_OUTPUT_DIR.
  replace ("/app/output" ++ "/" ++ f) with ("/app/output/" ++ f) by reflexivity.
  replace (("/app/output/" ++ f) =? "") with false by reflexivity.
  replace (Path.isAbsolute ("/app/output/" ++ f)) with true by reflexivity.
  rewrite (endsWithSlash_app "/app/output/" f Hf), Hends. simpl negb. rewrite Hn.
  reflexivity.
Qed.

Lemma filename_shape (n : string) :
  let f := cheatsheetFilename n in
  all_units not_slash f = true /\
  (f =? "") = false /\ (f =? ".") = false /\ (f =? "..") = false /\
  Path.endsWithSlash f = false.
Proof.
  unfold cheatsheetFilename, replace_runs.
  destruct (replace_runs_from_units (toLowerCase n) false) as [Hu _].
  set (stem := replace_runs_from false (toLowerCase n)) in *.
  assert (Hns : all_units not_slash stem = true).
  { apply (all_units_weaken workspace_unit); [|exact Hu].
    intros c Hc. unfold not_slash. now rewrite (workspace_unit_not_slash c Hc). }
  split; [rewrite all_units_app, Hns; reflexivity|].
  assert (He : Path.endsWithSlash (stem ++ "_cheatsheet.md") = false)
    by (rewrite endsWithSlash_app by discriminate; reflexivity).
  destruct stem as [|c r]; [repeat split|].
  simpl in Hu. apply andb_true_iff in Hu as [Hc _].
  pose proof (workspace_unit_not_dot c Hc) as Hdot.
  repeat split; try exact He; simpl; now rewrite Hdot.
Qed.

Lemma fullCheatsheetPath_closed (n : string) :
  fullCheatsheetPath n = "/app/output/" ++ cheatsheetFilename n.
Proof.
  destruct (filename_shape n) as (Hs & H0 & H1 & H2 & He).
  unfold fullCheatsheetPath. apply join_output_segment; try assumption.
  now apply split_no_slash.
Qed.

End MoreNames.

(** X1.  Whatever the project name, the cheatsheet is written straight into
    the output directory: the path is "/app/output/" followed by the file
    name, and the file name holds no slash, so a name such as
    "../../etc/passwd" cannot lead elsewhere. *)
Theorem X1_output_path_stays_in_output_dir :
  forall projectName : string,
    fullCheatsheetPath projectName = "/app/output/" ++ cheatsheetFilename projectName /\
    FilenameSpec.all_units not_slash (cheatsheetFilename projectName) = true /\
    fullCheatsheetPath "../../etc/passwd" = "/app/output/_etc_passwd_cheatsheet.md".
Proof.
  intros n. split; [apply fullCheatsheetPath_closed|].
  split; [apply filename_shape | reflexivity].
Qed.

(** X2.  For a name that is not empty, the workspace is a directory directly
    under [repo_temp]: its path is [repo_temp/] followed by a directory name
    that is not empty and whose units are all in [[a-z0-9_]], so no slash and
    no dot.  For the empty name the workspace is [repo_temp] itself. *)
Theorem X2_workspace_stays_in_temp_dir :
  forall n : string,
    n <> "" ->
    tempRepoPath n = "repo_temp/" ++ workspaceName n /\
    workspaceName n <> "" /\
    FilenameSpec.all_units workspace_unit (workspaceName n) = true /\
    tempRepoPath "" = "repo_temp".
Proof.
  intros n Hn.
  assert (Hw : workspaceName n <> "") by (intros E; apply Hn; now apply workspaceName_empty).
  split; [|split; [exact Hw|split]].
  - rewrite tempRepoPath_closed. destruct (workspaceName n) eqn:E; [|reflexivity].
    now elim Hw.
  - apply replace_each_units.
  - reflexivity.
Qed.

(** X2 at the name "../Secret Repo". *)
Lemma X2_witness :
  "../Secret Repo" <> "" /\ tempRepoPath "../Secret Repo" = "repo_temp/___secret_repo".
Proof.
  split; [discriminate|].
  exact (proj1 (X2_workspace_stays_in_temp_dir "../Secret Repo" ltac:(discriminate))).
Defined.

(** X3.  The stem of the output file name, that is the name after
    [toLowerCase().replace(/[^a-z0-9]+/g, '_')], holds units of [[a-z0-9_]]
    only and never two underscores in a row. *)
Theorem X3_filename_stem :
  forall projectName : string,
    let stem := JsString.replace_runs (JsString.toLowerCase projectName) in
    cheatsheetFilename projectName = stem ++ "_cheatsheet.md" /\
    FilenameSpec.all_units workspace_unit stem = true /\
    no_double_underscore stem = true.
Proof.
  intros n stem. unfold stem, JsString.replace_runs.
  destruct (replace_runs_from_units (JsString.toLowerCase n) false) as [Hu Hl].
  destruct (replace_runs_from_underscores (JsString.toLowerCase n)) as (Hd & _ & _).
  repeat split; assumption.
Qed.

(* ------------------------------------------------------------------ *)
(** ** More on the command runner and the generation client *)

Lemma blank_whitespace (s : string) : blank s = whitespace_only s.
Proof.
  unfold blank, whitespace_only. rewrite trim_empty. destruct s; reflexivity.
Qed.

Lemma runCommand_cases
        (host : Host) (command : string) (args : list JsValue)
        (cwd errorMessage : option string) (w : World) :
  let r := runCommand host command args cwd errorMessage w in
  calls (snd r) = (calls w ++ [CallSpawn (JStr command :: args) cwd])%list /\
  match spawn host (clock w) (disk w) (JStr command :: args) cwd with
  | Raised e => fst r = Throw e /\ disk (snd r) = disk w
  | Returned (res, d) =>
      disk (snd r) = d /\
      if success res then
        fst r = Normal (stdout res) /\
        console (snd r) = (console w ++ [(console_log, MRunning command args cwd);
                                         (console_log, MCommandOk command)])%list
      else
        let errorMsg :=
          or_default errorMessage ("Command " ++ dq ++ command ++ dq ++ " failed") in
        fst r = Throw (Error (errorMsg ++ " (Exit Code: " ++ exitCode_text (exitCode res)
                              ++ ")")) /\
        console (snd r) = (console w ++ [(console_log, MRunning command args cwd);
                                         (console_error, MCommandFailed errorMsg (exitCode res));
                                         (console_error, MStderr (stderr res))])%list
  end.
Proof.
  unfold runCommand, bind, say, spawnSync, ret, throw. cbv beta iota zeta.
  rewrite !clock_print, !disk_print.
  destruct (spawn host (clock w) (disk w) (JStr command :: args) cwd) as [[res d]|e].
  - destruct (success res); cbn; rewrite <- ?app_assoc; repeat split.
  - cbn. repeat split.
Qed.

(** X4.  [runCommand] spawns the command exactly once.  An error of the
    spawn itself is passed on as it is.  When the child reports success the
    result is its standard output; otherwise the standard output is dropped,
    the standard error is printed, and the error thrown carries the caller's
    message (or, without one, the command in quotes) and the exit code. *)
Theorem X4_runCommand_outcomes
        (host : Host) (command : string) (args : list JsValue)
        (cwd errorMessage : option string) (w : World) :
  let r := runCommand host command args cwd errorMessage w in
  calls (snd r) = (calls w ++ [CallSpawn (JStr command :: args) cwd])%list /\
  match spawn host (clock w) (disk w) (JStr command :: args) cwd with
  | Raised e => fst r = Throw e /\ disk (snd r) = disk w
  | Returned (res, d) =>
      disk (snd r) = d /\
      if success res then
        fst r = Normal (stdout res) /\
        console (snd r) = (console w ++ [(console_log, MRunning command args cwd);
                                         (console_log, MCommandOk command)])%list
      else
        let errorMsg :=
          or_default errorMessage ("Command " ++ dq ++ command ++ dq ++ " failed") in
        fst r = Throw (Error (errorMsg ++ " (Exit Code: " ++ exitCode_text (exitCode res)
                              ++ ")")) /\
        console (snd r) = (console w ++ [(console_log, MRunning command args cwd);
                                         (console_error, MCommandFailed errorMsg (exitCode res));
                                         (console_error, MStderr (stderr res))])%list
  end.
Proof. exact (runCommand_cases host command args cwd errorMessage w). Qed.

Opaque append.

Lemma generate_one_request
        (host : Host) (docs tool : string) (w : World) :
  let r := generateCheatsheetWithGemini host docs tool w in
  calls (snd r) = (calls w ++ [CallGenerate (userPrompt docs tool)])%list /\
  disk (snd r) = disk w /\
  (forall status, fst r <> Exit status).
Proof.
  unfold generateCheatsheetWithGemini, model_generateContent.
  unfold bind, say, try_catch, ret, throw, when. cbv beta iota zeta.
  destruct (generateContent host _ (userPrompt docs tool)) as [response|e].
  - destruct (response_text response) as [t|e0]; cbv beta iota zeta.
    + destruct (blank t).
      * destruct (diagnose response) as [reason ratings].
        destruct (truthy_str reason), (truthy_opt ratings); cbn; split_ifs; cbn;
          repeat split; try discriminate.
      * destruct (negb _); cbn; repeat split; try discriminate.
    + destruct (blank (candidateText response)).
      * destruct (diagnose response) as [reason ratings].
        destruct (truthy_str reason), (truthy_opt ratings); cbn; split_ifs; cbn;
          repeat split; try discriminate.
      * destruct (negb _); cbn; repeat split; try discriminate.
  - cbn. split_ifs; cbn; repeat split; try discriminate.
Qed.

(** X5.  Whatever the API answers, one call of the generation client makes
    exactly one request, with the prompt built from the documentation and
    the tool name, and nothing else: no second try, no other call, no change
    of the disk; and it never ends the process. *)
Theorem X5_generation_makes_one_request
        (host : Host) (docs tool : string) (w : World) :
  let r := generateCheatsheetWithGemini host docs tool w in
  calls (snd r) = (calls w ++ [CallGenerate (userPrompt docs tool)])%list /\
  disk (snd r) = disk w /\
  (forall status, fst r <> Exit status).
Proof. exact (generate_one_request host docs tool w). Qed.

Transparent append.

Lemma generate_shape
        (host : Host) (docs tool : string) (w : World) :
  match fst (generateCheatsheetWithGemini host docs tool w) with
  | Normal t => whitespace_only t = false
  | Throw e =>
      exists inner, e = Error ("Gemini API failed for " ++ tool ++ ": " ++ inner)
  | Exit _ => False
  end.
Proof.
  pose proof (generate_cases host docs tool w) as H.
  destruct (generateContent host (clock w) (userPrompt docs tool)) as [response|e].
  - destruct (blank (extractedText response)) eqn:Eb.
    + destruct H as (w' & -> & _). cbn [fst]. unfold noContentError.
      eexists. reflexivity.
    + destruct H as (w' & ->). cbn [fst]. now rewrite <- blank_whitespace.
  - destruct H as (w' & -> & _). cbn [fst]. eexists. reflexivity.
Qed.

(** X6.  The generation client never returns a text that is empty or white
    space only, and every exception that leaves it is an [Error] whose
    message starts with "Gemini API failed for", the tool name and a
    colon. *)
Theorem X6_generation_result_shape
        (host : Host) (docs tool : string) (w : World) :
  match fst (generateCheatsheetWithGemini host docs tool w) with
  | Normal t => whitespace_only t = false
  | Throw e =>
      exists inner, e = Error ("Gemini API failed for " ++ tool ++ ": " ++ inner)
  | Exit _ => False
  end.
Proof. exact (generate_shape host docs tool w). Qed.

(** X7.  The candidates of a response are read only when [response.text()]
    throws.  When it returns a text that is empty or white space only, the
    client fails with "No cheatsheet content generated" whatever the
    candidates hold; when it throws and the parts of the first candidate
    give a text that is not blank, that text is the result. *)
Theorem X7_candidates_only_when_text_throws
        (host : Host) (docs tool : string) (w : World) (response : option Response) :
  generateContent host (clock w) (userPrompt docs tool) = Returned response ->
  (forall t, response_text response = Returned t -> whitespace_only t = true ->
             fst (generateCheatsheetWithGemini host docs tool w)
               = Throw (noContentError tool))
  /\
  (forall e, response_text response = Raised e ->
             whitespace_only (candidateText response) = false ->
             fst (generateCheatsheetWithGemini host docs tool w)
               = Normal (candidateText response)).
Proof.
  intros Hapi. pose proof (generate_cases host docs tool w) as H. rewrite Hapi in H.
  unfold extractedText in H. split.
  - intros t Ht Hb. rewrite Ht, blank_whitespace, Hb in H.
    destruct H as (w' & -> & _). reflexivity.
  - intros e He Hb. rewrite He, blank_whitespace, Hb in H.
    destruct H as (w' & ->). reflexivity.
Qed.

(** X7 at two responses with the same candidate "Hello world". *)
Lemma X7_witness :
  fst (generateCheatsheetWithGemini (MoreSamples.answering MoreSamples.textEmpty)
                                    "# Docs" "Bun" Samples.start)
    = Throw (noContentError "Bun") /\
  fst (generateCheatsheetWithGemini (MoreSamples.answering MoreSamples.textThrows)
                                    "# Docs" "Bun" Samples.start)
    = Normal "Hello world".
Proof.
  split.
  - exact (proj1 (X7_candidates_only_when_text_throws
                    (MoreSamples.answering MoreSamples.textEmpty) "# Docs" "Bun"
                    Samples.start (Some MoreSamples.textEmpty) eq_refl)
                 "" eq_refl eq_refl).
  - exact (proj2 (X7_candidates_only_when_text_throws
                    (MoreSamples.answering MoreSamples.textThrows) "# Docs" "Bun"
                    Samples.start (Some MoreSamples.textThrows) eq_refl)
                 (Error "text unavailable") eq_refl eq_refl).
Defined.

Opaque append.

(** X8.  The check of the expected heading is advisory.  For a response
    with a text that is not blank, the client returns that text unchanged
    whether or not it starts with the heading; the only difference is one
    warning on the console. *)
Theorem X8_heading_check_is_advisory
        (host : Host) (docs tool : string) (w : World) (response : option Response) :
  generateContent host (clock w) (userPrompt docs tool) = Returned response ->
  whitespace_only (extractedText response) = false ->
  let t := extractedText response in
  let r := generateCheatsheetWithGemini host docs tool w in
  fst r = Normal t /\
  console (snd r) =
    (console w ++
     [(console_log, MCallingGemini tool); (console_log, MGeminiCallOk tool)] ++
     (match response_text response with
      | Returned _ => []
      | Raised _ => [(console_warn, MNoDirectText tool)]
      end) ++
     (if JsString.startsWith (JsString.trim t) expectedHeading then []
      else [(console_warn, MUnexpectedStart tool)]) ++
     [(console_log, MSnippetHeader tool); (console_log, MSnippet (snippetOf t))])%list.
Proof.
  intros Hapi Hb. rewrite <- blank_whitespace in Hb. unfold extractedText in *.
  unfold generateCheatsheetWithGemini, model_generateContent.
  unfold bind, say, try_catch, ret, throw, when. cbv beta iota zeta.
  rewrite clock_print, Hapi. cbv beta iota zeta.
  destruct (response_text response) as [t|e0]; cbv beta iota zeta; rewrite Hb;
    cbv beta iota zeta;
    destruct (JsString.startsWith _ expectedHeading); cbn;
    rewrite <- ?app_assoc; split; reflexivity.
Qed.

Transparent append.

(** X8 at the sample response, which starts with the heading, and at the
    candidate text, which does not. *)
Lemma X8_witness :
  fst (generateCheatsheetWithGemini (MoreSamples.answering MoreSamples.textThrows)
                                    "# Docs" "Bun" Samples.start) = Normal "Hello world" /\
  In (console_warn, MUnexpectedStart "Bun")
     (console (snd (generateCheatsheetWithGemini
                      (MoreSamples.answering MoreSamples.textThrows)
                      "# Docs" "Bun" Samples.start))).
Proof.
  destruct (X8_heading_check_is_advisory
              (MoreSamples.answering MoreSamples.textThrows) "# Docs" "Bun"
              Samples.start (Some MoreSamples.textThrows) eq_refl eq_refl) as [H1 H2].
  split; [exact H1|]. rewrite H2. vm_compute. tauto.
Defined.

(* ------------------------------------------------------------------ *)
(** ** More on saving *)

Lemma above_or_at_self (p : string) : above_or_at p p = true.
Proof. unfold above_or_at. now rewrite String.eqb_refl. Qed.

(** X9.  When [saveCheatsheet] returns normally, the output file holds
    exactly the content given (so a later save under the same file name
    replaces it), the output directory is there, the two calls made are the
    creation of the directory and the write, and no path of the disk has
    changed but the file and the directories down to the output directory. *)
Theorem X9_saved_file_holds_the_content
        (host : Host) (content projectName : string) (w : World) :
  fst (saveCheatsheet host content projectName w) = Normal tt ->
  let w' := snd (saveCheatsheet host content projectName w) in
  let file := absolute host (fullCheatsheetPath projectName) in
  let dir := absolute host CONTAINER_OUTPUT_DIR in
  disk w' file = Some (File content) /\
  (exists node, disk w' dir = Some node) /\
  calls w' = (calls w ++ [CallMkdir CONTAINER_OUTPUT_DIR;
                          CallWrite (fullCheatsheetPath projectName) content])%list /\
  (forall q, (q =? file) = false -> above_or_at q dir = false -> disk w' q = disk w q).
Proof.
  unfold saveCheatsheet.
  generalize (fullCheatsheetPath projectName) as path. intros path.
  unfold bind, say, try_catch, mkdirSync, writeFileSync, throw, when, ret.
  cbv beta iota zeta.
  destruct (mkdir_fault host (clock w) (disk w) CONTAINER_OUTPUT_DIR) as [e|];
    cbv beta iota zeta.
  - destruct (code_is e "EACCES"); cbn [fst]; discriminate.
  - destruct (write_fault host _ _ path) as [e|]; cbv beta iota zeta.
    + destruct (code_is e "EACCES"); cbn [fst]; discriminate.
    + intros _.
      generalize (absolute host path) as file, (absolute host CONTAINER_OUTPUT_DIR) as dir.
      intros file dir.
      cbn [fst snd disk calls console print called on_disk].
      rewrite String.eqb_refl. split; [reflexivity|].
      split; [|split; [now rewrite <- app_assoc|]].
      * destruct (dir =? file); [eauto|].
        rewrite above_or_at_self. destruct (disk w dir); eauto.
      * intros q Hq Hd. now rewrite Hq, Hd.
Qed.

(** X9 at two saves in a row under names that give the same file. *)
Lemma X9_witness :
  let w1 := snd (saveCheatsheet Samples.allGood "first" "Demo" Samples.start) in
  fst (saveCheatsheet Samples.allGood "second" "demo" w1) = Normal tt /\
  disk (snd (saveCheatsheet Samples.allGood "second" "demo" w1))
       "/app/output/demo_cheatsheet.md" = Some (File "second").
Proof.
  intros w1.
  assert (H : fst (saveCheatsheet Samples.allGood "second" "demo" w1) = Normal tt)
    by (vm_compute; reflexivity).
  split; [exact H|].
  exact (proj1 (X9_saved_file_holds_the_content Samples.allGood "second" "demo" w1 H)).
Defined.

(** X10.  When the output directory cannot be made, [saveCheatsheet] never
    attempts the write and leaves the disk as it is; the error it throws is
    "Failed to save cheatsheet for", the name and the message of the cause,
    and the console gets the cause, with the hint on permissions exactly when
    the code of the cause is EACCES.  An exception of [saveCheatsheet] never
    has another form, and it never ends the process. *)
Theorem X10_save_failures
        (host : Host) (content projectName : string) (w : World) :
  let r := saveCheatsheet host content projectName w in
  let wrapped (cause : JsError) :=
    Error ("Failed to save cheatsheet for " ++ projectName ++ ": " ++ message cause) in
  match mkdir_fault host (clock w) (disk w) CONTAINER_OUTPUT_DIR with
  | Some cause =>
      fst r = Throw (wrapped cause) /\
      calls (snd r) = (calls w ++ [CallMkdir CONTAINER_OUTPUT_DIR])%list /\
      disk (snd r) = disk w /\
      console (snd r) =
        (console w ++
         (console_error, MSaveError (fullCheatsheetPath projectName) (message cause)) ::
         (if code_is cause "EACCES" then [(console_error, MPermissionHint)] else []))%list
  | None =>
      match fst r with
      | Normal _ => True
      | Throw e =>
          exists cause, e = wrapped cause /\
                        In (console_error,
                            MSaveError (fullCheatsheetPath projectName) (message cause))
                           (console (snd r))
      | Exit _ => False
      end
  end.
Proof.
  unfold saveCheatsheet.
  generalize (fullCheatsheetPath projectName) as path. intros path.
  unfold bind, say, try_catch, mkdirSync, writeFileSync, throw, when, ret.
  cbv beta iota zeta.
  destruct (mkdir_fault host (clock w) (disk w) CONTAINER_OUTPUT_DIR) as [e|];
    cbv beta iota zeta.
  - destruct (code_is e "EACCES");
      cbn [fst snd disk calls console print called on_disk];
      rewrite <- ?app_assoc; repeat split.
  - destruct (write_fault host _ _ path) as [e|]; cbv beta iota zeta; [|exact I].
    destruct (code_is e "EACCES");
      cbn [fst snd disk calls console print called on_disk];
      exists e; (split; [reflexivity | in_console]).
Qed.

(* ------------------------------------------------------------------ *)
(** ** More on the extraction step *)

(** [processSource_extract] is the preparation of the workspace followed by
    [processSource_cloneAndExtract], whose last step is [extractionBlock]. *)
Lemma processSource_extract_steps (host : Host) (n : string) (r d : JsValue) (tmp : string) :
  processSource_extract host n r d tmp =
  (say console_log (MCleaningLeftover tmp) ;;;
   removeWorkspace host tmp true ;;;
   mkdirSync host tmp ;;;
   processSource_cloneAndExtract host n r d tmp).
Proof. reflexivity. Qed.

Lemma failure_message_names_tool (n rest : string) :
  JsString.includes (("files-to-prompt execution failed for " ++ n) ++ rest)
                    "files-to-prompt" = true.
Proof. reflexivity. Qed.

(** X11.  When the extraction tool is there and runs but exits without
    success, the error is "files-to-prompt execution failed for", the name
    and the exit code, and the console gets the two lines that say the
    command was not found all the same, because the message of the error
    names the tool. *)
Theorem X11_tool_failure_prints_not_found_hint
        (host : Host) (n fullDocsPath : string) (w : World)
        (r0 r1 : SpawnResult) (d0 d1 : Disk) :
  spawn host (clock w) (disk w) [JStr "files-to-prompt"; JStr "--version"] None
    = Returned (r0, d0) ->
  spawn host (S (clock w)) d0 [JStr "files-to-prompt"; JStr fullDocsPath] None
    = Returned (r1, d1) ->
  success r1 = false ->
  let msg := "files-to-prompt execution failed for " ++ n in
  let r := extractionBlock host n fullDocsPath w in
  fst r = Throw (Error (msg ++ " (Exit Code: " ++ exitCode_text (exitCode r1) ++ ")")) /\
  console (snd r) =
    (console w ++
     [(console_log, MRunning "files-to-prompt" [JStr fullDocsPath] None);
      (console_error, MCommandFailed msg (exitCode r1));
      (console_error, MStderr (stderr r1));
      (console_error, MToolNotFound);
      (console_error, MToolInstallHint)])%list.
Proof.
  intros H0 H1 Hs msg.
  unfold extractionBlock, runCommand, bind, say, try_catch, spawnSync, throw, when, ret.
  cbv beta iota zeta. rewrite H0. cbv beta iota zeta.
  rewrite clock_print, clock_on_disk, clock_called, disk_print.
  replace (disk (on_disk d0 (called (CallSpawn [JStr "files-to-prompt"; JStr "--version"]
                                               None) w))) with d0 by reflexivity.
  rewrite H1. cbv beta iota zeta. rewrite Hs. cbv beta iota zeta.
  change (or_default (Some ("files-to-prompt execution failed for " ++ n))
                     ("Command " ++ dq ++ "files-to-prompt" ++ dq ++ " failed")) with msg.
  change (negb false) with true. cbv beta iota zeta. cbn [message Error]. subst msg.
  rewrite (failure_message_names_tool n), orb_true_r. cbv beta iota zeta.
  cbn [fst snd console print called on_disk]. rewrite <- !app_assoc. split; reflexivity.
Qed.

(** X11 at the sample host whose extraction tool exits with status 1. *)
Lemma X11_witness :
  fst (extractionBlock MoreSamples.toolFails "Bun" "repo_temp/bun/docs" Samples.start)
    = Throw (Error "files-to-prompt execution failed for Bun (Exit Code: 1)") /\
  In (console_error, MToolNotFound)
     (console (snd (extractionBlock MoreSamples.toolFails "Bun" "repo_temp/bun/docs"
                                    Samples.start))).
Proof.
  destruct (X11_tool_failure_prints_not_found_hint
              MoreSamples.toolFails "Bun" "repo_temp/bun/docs" Samples.start
              (mkSpawn true "files-to-prompt, version 0.6" "" (Some 0%Z))
              (mkSpawn false "# Docs" "Traceback (most recent call last)" (Some 1%Z))
              (disk Samples.start) (disk Samples.start) eq_refl eq_refl eq_refl)
    as [H1 H2].
  split; [exact H1|]. rewrite H2. apply in_or_app. right. simpl. tauto.
Defined.

(* ------------------------------------------------------------------ *)
(** ** The order of the calls *)

Section Stages.
Context {A B : Type}.

Lemma staged_of_always (ks : list Kind) (m : M A) : always_calls ks m -> staged ks m.
Proof.
  intros H w. destruct (H w) as (new & H1 & H2). exists new.
  split; [exact H1|]. split; [|intros; exact H2].
  exists (length ks). now rewrite H2, firstn_all.
Qed.

Lemma firstn_prefix_app (j : nat) (l1 l2 : list Kind) :
  exists j', firstn j l1 = firstn j' (l1 ++ l2).
Proof.
  exists (Nat.min j (length l1)). rewrite firstn_app.
  replace (Nat.min j (length l1) - length l1) with 0 by lia.
  rewrite firstn_O, app_nil_r.
  rewrite <- (firstn_all l1) at 1. now rewrite firstn_firstn.
Qed.

Lemma staged_bind (ks1 ks2 : list Kind) (m : M A) (k : A -> M B) :
  staged ks1 m -> (forall a, staged ks2 (k a)) -> staged (ks1 ++ ks2) (bind m k).
Proof.
  intros Hm Hk w. unfold bind.
  destruct (Hm w) as (new1 & H1 & (j & Hj) & Hfull).
  destruct (m w) as [[a|e|st] w1]; simpl in *.
  - specialize (Hfull a eq_refl).
    destruct (Hk a w1) as (new2 & H2 & (j2 & Hj2) & Hfull2).
    exists (new1 ++ new2)%list. split; [now rewrite H2, H1, app_assoc|]. split.
    + exists (length ks1 + j2). now rewrite map_app, Hfull, Hj2, firstn_app_2.
    + intros b Hb. now rewrite map_app, Hfull, (Hfull2 b Hb).
  - exists new1. split; [exact H1|]. split; [|discriminate].
    rewrite Hj. apply firstn_prefix_app.
  - exists new1. split; [exact H1|]. split; [|discriminate].
    rewrite Hj. apply firstn_prefix_app.
Qed.

Lemma always_bind (ks : list Kind) (m : M A) (k : A -> M B) :
  always_calls ks m -> (forall a, always_calls [] (k a)) -> always_calls ks (bind m k).
Proof.
  intros Hm Hk w. unfold bind. destruct (Hm w) as (new1 & H1 & Hk1).
  destruct (m w) as [[a|e|st] w1]; simpl in *; try (exists new1; now split).
  destruct (Hk a w1) as (new2 & H2 & Hk2). destruct new2; [|discriminate].
  exists new1. rewrite H2, H1, app_nil_r. now split.
Qed.

Lemma always_try_catch (ks : list Kind) (m : M A) (h : JsError -> M A) :
  always_calls ks m -> (forall e, always_calls [] (h e)) -> always_calls ks (try_catch m h).
Proof.
  intros Hm Hh w. unfold try_catch. destruct (Hm w) as (new1 & H1 & Hk1).
  destruct (m w) as [[a|e|st] w1]; simpl in *; try (exists new1; now split).
  destruct (Hh e w1) as (new2 & H2 & Hk2). destruct new2; [|discriminate].
  exists new1. rewrite H2, H1, app_nil_r. now split.
Qed.

Lemma staged_try_catch (ks : list Kind) (m : M A) (h : JsError -> M A) :
  staged ks m -> (forall e, always_calls [] (h e)) ->
  (forall e w a, fst (h e w) <> Normal a) ->
  staged ks (try_catch m h).
Proof.
  intros Hm Hh Hn w. unfold try_catch.
  destruct (Hm w) as (new1 & H1 & Hj & Hfull).
  destruct (m w) as [[a|e|st] w1]; simpl in *;
    try (exists new1; split; [exact H1|]; split; [exact Hj | exact Hfull]).
  destruct (Hh e w1) as (new2 & H2 & Hk2). destruct new2; [|discriminate].
  exists new1. rewrite H2, H1, app_nil_r. split; [reflexivity|]. split; [exact Hj|].
  intros a Ha. exfalso. now apply (Hn e w1 a).
Qed.

Lemma always_ret (a : A) : always_calls [] (ret a).
Proof. intros w. exists []. now rewrite app_nil_r. Qed.

Lemma always_throw (e : JsError) : always_calls [] (@throw A e).
Proof. intros w. exists []. now rewrite app_nil_r. Qed.

End Stages.

Lemma always_say (s : Stream) (m : Msg) : always_calls [] (say s m).
Proof. intros w. exists []. simpl. now rewrite app_nil_r. Qed.

Lemma always_when (b : bool) (m : M unit) : always_calls [] m -> always_calls [] (when b m).
Proof. intros H. destruct b; [exact H | apply always_ret]. Qed.

(** Closes a goal [always_calls [] m] for an [m] made of console lines. *)
Ltac quiet :=
  repeat
    (match goal with
     | |- forall _, _ => intro
     | |- always_calls [] (bind _ _) => apply always_bind
     | |- always_calls [] (ret _) => apply always_ret
     | |- always_calls [] (throw _) => apply always_throw
     | |- always_calls [] (say _ _) => apply always_say
     | |- always_calls [] (interpolate _) => unfold interpolate
     | |- always_calls [] (when _ _) => apply always_when
     | |- always_calls [] (if ?b then _ else _) => destruct b
     | |- always_calls [] (match ?x with _ => _ end) => destruct x
     end).

Section StagesOfThePipeline.
Variable host : Host.

Lemma always_existsSync (p : string) : always_calls [] (existsSync host p).
Proof. intros w. exists []. simpl. now rewrite app_nil_r. Qed.

Lemma always_mkdirSync (p : string) : always_calls [KMkdir] (mkdirSync host p).
Proof.
  intros w. exists [CallMkdir p]. unfold mkdirSync.
  destruct (mkdir_fault host _ _ _); now split.
Qed.

Lemma always_spawnSync (cmd : list JsValue) (cwd : option string) :
  always_calls [KSpawn] (spawnSync host cmd cwd).
Proof.
  intros w. exists [CallSpawn cmd cwd]. unfold spawnSync.
  destruct (spawn host _ _ _ _) as [[r d]|e]; now split.
Qed.

Lemma always_runCommand command args cwd errorMessage :
  always_calls [KSpawn] (runCommand host command args cwd errorMessage).
Proof.
  intros w. exists [CallSpawn (JStr command :: args) cwd].
  split; [apply runCommand_cases | reflexivity].
Qed.

Lemma always_generate docs tool :
  always_calls [KGenerate] (generateCheatsheetWithGemini host docs tool).
Proof.
  intros w. exists [CallGenerate (userPrompt docs tool)].
  split; [apply generate_one_request | reflexivity].
Qed.

(** The removal of the workspace always returns normally, after one call. *)
Lemma removeWorkspace_normal tmp leftover w :
  exists w', removeWorkspace host tmp leftover w = (Normal tt, w') /\
             calls w' = (calls w ++ [CallRm tmp])%list.
Proof.
  unfold removeWorkspace, try_catch, rmSync, when, say, ret.
  destruct (disk w (absolute host tmp)).
  - destruct (rm_fault host _ _ _) as [e|]; [|eexists; split; reflexivity].
    destruct (negb (code_is e "ENOENT")); eexists; split; reflexivity.
  - eexists; split; reflexivity.
Qed.


Lemma staged_saveCheatsheet content n :
  staged [KMkdir; KWrite] (saveCheatsheet host content n).
Proof.
  unfold saveCheatsheet.
  apply staged_try_catch.
  - apply (staged_bind [KMkdir] [KWrite]);
      [apply staged_of_always, always_mkdirSync | intros _].
    apply staged_of_always. apply always_bind; [|quiet].
    intros w. exists [CallWrite (fullCheatsheetPath n) content]. unfold writeFileSync.
    destruct (write_fault host _ _ _); now split.
  - quiet.
  - intros e w a. unfold bind, say, when, throw, ret.
    destruct (code_is e "EACCES"); discriminate.
Qed.

Lemma staged_extractionBlock n p : staged [KSpawn; KSpawn] (extractionBlock host n p).
Proof.
  unfold extractionBlock. apply staged_try_catch.
  - apply (staged_bind [KSpawn] [KSpawn]);
      [apply staged_of_always, always_spawnSync | intros _].
    apply staged_of_always, always_runCommand.
  - quiet.
  - intros e w a. unfold bind, say, when, throw, ret.
    destruct (_ || _); discriminate.
Qed.

Lemma staged_cloneAndExtract n r d tmp :
  staged [KSpawn; KSpawn; KSpawn] (processSource_cloneAndExtract host n r d tmp).
Proof.
  unfold processSource_cloneAndExtract.
  apply (staged_bind [] _); [apply staged_of_always; quiet | intros _].
  apply (staged_bind [] _); [apply staged_of_always, always_say | intros _].
  apply (staged_bind [KSpawn] _); [apply staged_of_always, always_runCommand | intros _].
  apply (staged_bind [] _);
    [apply staged_of_always; unfold joinDocsPath; quiet | intros fullDocsPath].
  apply (staged_bind [] _); [apply staged_of_always, always_say | intros _].
  apply (staged_bind [] _); [apply staged_of_always, always_existsSync | intros there].
  apply (staged_bind [] _); [apply staged_of_always; quiet | intros _].
  apply (staged_bind [] _); [apply staged_of_always, always_say | intros _].
  apply (staged_bind [KSpawn; KSpawn] []); [apply staged_extractionBlock | intros out].
  apply staged_of_always, always_ret.
Qed.



End StagesOfThePipeline.

Lemma staged_extends {A : Type} (ks : list Kind) (m : M A) (w : World) :
  staged ks m -> exists new, calls (snd (m w)) = (calls w ++ new)%list.
Proof. intros H. destruct (H w) as (new & H1 & _). now exists new. Qed.

Section OrderOfCalls.
Variable host : Host.

(** The [try] block is the extraction followed by
    [processSource_generateAndSave]. *)
Lemma processSource_try_steps (n : string) (r d : JsValue) (tmp : string) (w : World) :
  processSource_try host n r d tmp w =
  (extracted <- processSource_extract host n r d tmp ;;
   processSource_generateAndSave host n (fst extracted) (snd extracted)) w.
Proof.
  unfold processSource_try, processSource_generateAndSave, bind.
  destruct (processSource_extract host n r d tmp w) as [[[out docs]|e|st] w1]; reflexivity.
Qed.

End OrderOfCalls.

Section CallsOfOneSource.
Variable host : Host.

Lemma staged_generateAndSave n out docs :
  staged [KGenerate; KMkdir; KWrite] (processSource_generateAndSave host n out docs).
Proof.
  unfold processSource_generateAndSave.
  apply (staged_bind [] _); [apply staged_of_always; quiet | intros _].
  apply (staged_bind [] _); [apply staged_of_always, always_say | intros _].
  apply (staged_bind [KGenerate] _); [apply staged_of_always, always_generate | intros text'].
  apply (staged_bind [KMkdir; KWrite] []); [apply staged_saveCheatsheet | intros _].
  apply staged_of_always, always_say.
Qed.

Lemma finally_calls tmp w :
  calls (snd (processSource_finally host tmp w)) = (calls w ++ [CallRm tmp])%list.
Proof.
  rewrite finally_cases. cbv zeta.
  destruct (disk w _); [destruct (rm_fault host _ _ _) as [e|];
                        [destruct (code_is e "ENOENT")|]|]; reflexivity.
Qed.

Lemma guarded_calls n r d tmp w :
  calls (snd (processSource_guarded host n r d tmp w)) =
  calls (snd (processSource_try host n r d tmp w)).
Proof.
  pose proof (guarded_logs host n r d tmp w) as H.
  destruct (processSource_try host n r d tmp w) as [[[]|e|st] w1];
    [now rewrite H | now rewrite H | contradiction].
Qed.

(** The calls of [processSource] are those of its [try] block and the
    removal of the [finally] clause. *)
Lemma processSource_calls s n w :
  name s = JStr n ->
  calls (snd (processSource host s w)) =
  (calls (snd (processSource_try host n (repo s) (path s) (tempRepoPath n)
                 (print (attempt_line s) w))) ++ [CallRm (tempRepoPath n)])%list.
Proof.
  intros Hn. rewrite (processSource_run host s n w Hn). cbn [snd].
  now rewrite finally_calls, guarded_calls.
Qed.

Lemma mkdirSync_calls p w :
  calls (snd (mkdirSync host p w)) = (calls w ++ [CallMkdir p])%list.
Proof. unfold mkdirSync. destruct (mkdir_fault host _ _ _); reflexivity. Qed.

Lemma extract_first_calls n r d tmp w :
  exists rest,
    calls (snd (processSource_extract host n r d tmp w)) =
    (calls w ++ CallRm tmp :: CallMkdir tmp :: rest)%list.
Proof.
  rewrite processSource_extract_steps.
  change ((say console_log (MCleaningLeftover tmp) ;;;
           removeWorkspace host tmp true ;;;
           mkdirSync host tmp ;;; processSource_cloneAndExtract host n r d tmp) w)
    with ((removeWorkspace host tmp true ;;;
           mkdirSync host tmp ;;; processSource_cloneAndExtract host n r d tmp)
            (print (console_log, MCleaningLeftover tmp) w)).
  destruct (removeWorkspace_normal host tmp true (print (console_log, MCleaningLeftover tmp) w))
    as (w1 & E1 & C1).
  rewrite (bind_normal _ _ _ _ _ E1).
  pose proof (mkdirSync_calls tmp w1) as C2.
  destruct (mkdirSync host tmp w1) as [[[]|e|st] w2] eqn:E2; cbn [snd] in C2.
  - rewrite (bind_normal _ _ _ _ _ E2).
    destruct (staged_extends _ _ w2 (staged_cloneAndExtract host n r d tmp)) as [new H].
    exists new. rewrite H, C2, C1. cbn [calls print]. now rewrite <- !app_assoc.
  - rewrite (bind_throw _ _ _ _ _ E2). exists []. cbn [snd]. rewrite C2, C1.
    cbn [calls print]. now rewrite <- !app_assoc.
  - rewrite (bind_exit _ _ _ _ _ E2). exists []. cbn [snd]. rewrite C2, C1.
    cbn [calls print]. now rewrite <- !app_assoc.
Qed.

Lemma try_first_calls n r d tmp w :
  exists rest,
    calls (snd (processSource_try host n r d tmp w)) =
    (calls w ++ CallRm tmp :: CallMkdir tmp :: rest)%list.
Proof.
  rewrite processSource_try_steps.
  destruct (extract_first_calls n r d tmp w) as [rest H].
  destruct (processSource_extract host n r d tmp w) as [[x|e|st] w1] eqn:E; cbn [snd] in H.
  - rewrite (bind_normal _ _ _ _ _ E).
    destruct (staged_extends _ _ w1 (staged_generateAndSave n (fst x) (snd x))) as [new H2].
    exists (rest ++ new)%list. rewrite H2, H, <- app_assoc. reflexivity.
  - rewrite (bind_throw _ _ _ _ _ E). now exists rest.
  - rewrite (bind_exit _ _ _ _ _ E). now exists rest.
Qed.

End CallsOfOneSource.



(** X14.  The removal of a leftover workspace is advisory: whatever its
    outcome, the next call of [processSource] is the creation of the
    workspace.  The first two calls for a source are always these two. *)
Theorem X14_leftover_cleanup_is_advisory
        (host : Host) (s : SourceSpec) (n : string) (w : World) :
  name s = JStr n ->
  exists rest,
    calls (snd (processSource host s w)) =
    (calls w ++ CallRm (tempRepoPath n) :: CallMkdir (tempRepoPath n) :: rest)%list.
Proof.
  intros Hn. rewrite (processSource_calls host s n w Hn).
  destruct (try_first_calls host n (repo s) (path s) (tempRepoPath n)
              (print (attempt_line s) w)) as [rest H].
  exists (rest ++ [CallRm (tempRepoPath n)])%list. rewrite H. cbn [calls print].
  now rewrite <- app_assoc.
Qed.

(** X14 at a second run for a source whose workspace, left by the first run,
    cannot be removed. *)
Lemma X14_witness :
  let w1 := snd (processSource Samples.stuckWorkspace Samples.bunSource Samples.start) in
  exists rest,
    calls (snd (processSource Samples.stuckWorkspace Samples.bunSource w1)) =
    (calls w1 ++ CallRm (tempRepoPath "Bun") :: CallMkdir (tempRepoPath "Bun") :: rest)%list.
Proof.
  intros w1.
  exact (X14_leftover_cleanup_is_advisory Samples.stuckWorkspace Samples.bunSource "Bun"
           w1 eq_refl).
Defined.

Section WritesOfOneSource.
Variable host : Host.

Lemma writes_app (cs : list Call) (c : Call) :
  is_write c = false -> filter is_write (cs ++ [c])%list = filter is_write cs.
Proof. intros H. rewrite filter_app. simpl. rewrite H. apply app_nil_r. Qed.

(** What [saveCheatsheet] calls: the creation of the output directory, and
    then the write unless the creation failed. *)
Lemma saveCheatsheet_calls content n w :
  let r := saveCheatsheet host content n w in
  (calls (snd r) = (calls w ++ [CallMkdir CONTAINER_OUTPUT_DIR])%list /\
   exists e, fst r = Throw e) \/
  calls (snd r) = (calls w ++ [CallMkdir CONTAINER_OUTPUT_DIR;
                               CallWrite (fullCheatsheetPath n) content])%list.
Proof.
  unfold saveCheatsheet.
  generalize (fullCheatsheetPath n) as path. intros path.
  unfold bind, say, try_catch, mkdirSync, writeFileSync, throw, when, ret.
  cbv beta iota zeta.
  destruct (mkdir_fault host (clock w) (disk w) CONTAINER_OUTPUT_DIR) as [e|];
    cbv beta iota zeta.
  - left. destruct (code_is e "EACCES");
      cbn [fst snd disk calls console print called on_disk]; split; eauto.
  - right. destruct (write_fault host _ _ path) as [e|]; cbv beta iota zeta.
    + destruct (code_is e "EACCES");
        cbn [fst snd disk calls console print called on_disk];
        now rewrite <- app_assoc.
    + cbn [fst snd disk calls console print called on_disk]. now rewrite <- app_assoc.
Qed.

Lemma generateAndSave_writes n out docs w :
  let r := processSource_generateAndSave host n out docs w in
  exists ws,
    filter is_write (calls (snd r)) = (filter is_write (calls w) ++ ws)%list /\
    (ws = [] \/
     exists content, ws = [CallWrite (fullCheatsheetPath n) content] /\
                     whitespace_only content = false) /\
    (fst r = Normal tt -> ws <> []).
Proof.
  unfold processSource_generateAndSave.
  destruct (noOutput out).
  - exists []. cbn. rewrite app_nil_r. split; [reflexivity|].
    split; [now left | discriminate].
  - change ((ret tt ;;;
             say console_log (MExtracted (JsString.byteLength out) n) ;;;
             cheatsheetContent <- generateCheatsheetWithGemini host out n ;;
             saveCheatsheet host cheatsheetContent n ;;; say console_log (MSourceOk n)) w)
      with ((cheatsheetContent <- generateCheatsheetWithGemini host out n ;;
             saveCheatsheet host cheatsheetContent n ;;; say console_log (MSourceOk n))
              (print (console_log, MExtracted (JsString.byteLength out) n) w)).
    set (w0 := print (console_log, MExtracted (JsString.byteLength out) n) w).
    pose proof (generate_one_request host out n w0) as (Hc & _ & _).
    pose proof (generate_shape host out n w0) as Hs.
    destruct (generateCheatsheetWithGemini host out n w0) as [[t|e|st] w1] eqn:Eg;
      cbn [fst snd] in Hc, Hs.
    + rewrite (bind_normal _ _ _ _ _ Eg).
      pose proof (saveCheatsheet_calls t n w1) as Hsave. cbv zeta in Hsave.
      pose proof (saveCheatsheet_exits host t n w1) as Hx.
      unfold bind, say. cbv zeta.
      destruct (saveCheatsheet host t n w1) as [[[]|e|st] w2]; cbn [fst snd] in *.
      * destruct Hsave as [[_ [e He]]|Hsave]; [discriminate|].
        exists [CallWrite (fullCheatsheetPath n) t].
        cbn [calls print]. rewrite Hsave, Hc. subst w0. cbn [calls print].
        rewrite !filter_app. cbn. rewrite app_nil_r.
        split; [reflexivity|]. split; [right; eauto | discriminate].
      * destruct Hsave as [[Hsave _]|Hsave].
        -- exists []. rewrite Hsave, Hc. subst w0. cbn [calls print].
           rewrite !filter_app. cbn. rewrite !app_nil_r.
           split; [reflexivity|]. split; [now left | discriminate].
        -- exists [CallWrite (fullCheatsheetPath n) t].
           rewrite Hsave, Hc. subst w0. cbn [calls print].
           rewrite !filter_app. cbn. rewrite app_nil_r.
           split; [reflexivity|]. split; [right; eauto | discriminate].
      * exfalso. now apply (Hx st).
    + rewrite (bind_throw _ _ _ _ _ Eg). exists []. cbn [fst snd].
      rewrite Hc, writes_app by reflexivity. subst w0. cbn [calls print].
      rewrite app_nil_r. split; [reflexivity|]. split; [now left | discriminate].
    + contradiction.
Qed.

End WritesOfOneSource.

(** X13.  One run of [processSource] writes at most one file: the calls to
    [writeFileSync] after it are those before it, followed by nothing or by
    one write, to the output path of the source, of a content that is not
    blank.  When the [try] block completes, the write was made. *)
Theorem X13_at_most_one_write
        (host : Host) (s : SourceSpec) (n : string) (w : World) :
  name s = JStr n ->
  exists ws,
    filter is_write (calls (snd (processSource host s w))) =
      (filter is_write (calls w) ++ ws)%list /\
    (ws = [] \/
     exists content, ws = [CallWrite (fullCheatsheetPath n) content] /\
                     whitespace_only content = false) /\
    (fst (processSource_try host n (repo s) (path s) (tempRepoPath n)
            (print (attempt_line s) w)) = Normal tt -> ws <> []).
Proof.
  intros Hn. rewrite (processSource_calls host s n w Hn), writes_app by reflexivity.
  set (w0 := print (attempt_line s) w).
  change (filter is_write (calls w)) with (filter is_write (calls w0)).
  rewrite processSource_try_steps.
  pose proof (extract_keeps host is_write no_line (fun c H _ => H) (fun l _ _ => eq_refl)
                n (repo s) (path s) (tempRepoPath n) w0) as Hk.
  destruct (processSource_extract host n (repo s) (path s) (tempRepoPath n) w0)
    as [[x|e|st] w1] eqn:E; cbn [snd] in Hk; destruct Hk as [Hk _].
  - rewrite (bind_normal _ _ _ _ _ E), <- Hk.
    apply generateAndSave_writes.
  - rewrite (bind_throw _ _ _ _ _ E). exists []. cbn [fst snd].
    rewrite app_nil_r. split; [now symmetry|]. split; [now left | discriminate].
  - rewrite (bind_exit _ _ _ _ _ E). exists []. cbn [fst snd].
    rewrite app_nil_r. split; [now symmetry|]. split; [now left | discriminate].
Qed.

(** X13 at a run where everything works: one write, to the output path. *)
Lemma X13_witness :
  exists content,
    filter is_write
           (calls (snd (processSource Samples.allGood Samples.bunSource Samples.start))) =
    (filter is_write (calls Samples.start) ++
     [CallWrite (fullCheatsheetPath "Bun") content])%list.
Proof.
  destruct (X13_at_most_one_write Samples.allGood Samples.bunSource "Bun"
              Samples.start eq_refl) as (ws & H1 & [Hws | (content & Hws & _)] & H3).
  - exfalso. apply H3; [vm_compute; reflexivity | exact Hws].
  - exists content. rewrite <- Hws. exact H1.
Defined.

(* ------------------------------------------------------------------ *)
(** ** The clone and the docs directory *)

Section CloneAndDocs.
Variable host : Host.

Lemma extractionBlock_first_call n p w :
  exists rest,
    calls (snd (extractionBlock host n p w)) =
    (calls w ++ CallSpawn [JStr "files-to-prompt"; JStr "--version"] None :: rest)%list.
Proof.
  pose proof (staged_extractionBlock host n p w) as (new & H & _).
  unfold extractionBlock, try_catch in *.
  assert (Hb : exists rest,
             calls (snd ((spawnSync host [JStr "files-to-prompt"; JStr "--version"] None ;;;
                          runCommand host "files-to-prompt" [JStr p] None
                            (Some ("files-to-prompt execution failed for " ++ n))) w)) =
             (calls w ++ CallSpawn [JStr "files-to-prompt"; JStr "--version"] None :: rest)%list).
  { unfold bind at 1.
    assert (Hc : calls (snd (spawnSync host [JStr "files-to-prompt"; JStr "--version"] None w))
                 = (calls w ++ [CallSpawn [JStr "files-to-prompt"; JStr "--version"] None])%list)
      by (unfold spawnSync; destruct (spawn host _ _ _ _) as [[r d]|e]; reflexivity).
    destruct (spawnSync host _ None w) as [[r|e|st] w1]; cbn [snd] in Hc.
    - destruct (always_runCommand host "files-to-prompt" [JStr p] None
                  (Some ("files-to-prompt execution failed for " ++ n)) w1)
        as (new2 & H2 & _).
      exists new2. rewrite H2, Hc, <- app_assoc. reflexivity.
    - exists []. exact Hc.
    - exists []. exact Hc. }
  destruct Hb as [rest Hb].
  destruct ((spawnSync host _ None ;;; runCommand host _ _ None _) w) as [[out|e|st] w1];
    cbn [snd] in *; try (exists rest; exact Hb).
  exists rest. rewrite <- Hb.
  unfold bind, when, say, throw, ret.
  destruct (_ || _); reflexivity.
Qed.

Lemma cloneAndExtract_unconvertible n r d tmp w :
  convertible r = false ->
  processSource_cloneAndExtract host n r d tmp w = (Throw cannotConvert, w).
Proof.
  intros H. unfold processSource_cloneAndExtract, interpolate, bind. now rewrite H.
Qed.

Lemma cloneAndExtract_after_clone n r d tmp w :
  convertible r = true ->
  processSource_cloneAndExtract host n r d tmp w =
  (runCommand host "git" [JStr "clone"; JStr "--depth=1"; r; JStr tmp] None
              (Some ("Failed to clone repository for " ++ n)) ;;;
   fullDocsPath <- joinDocsPath tmp d ;;
   say console_log (MCheckingDocs fullDocsPath) ;;;
   there <- existsSync host fullDocsPath ;;
   (if negb there then
      throw (Error ("Documentation directory not found at specified path: " ++ fullDocsPath
                    ++ " (Relative path: " ++ match d with JStr x => x | _ => "" end ++ ")"))
    else ret tt) ;;;
   say console_log (MRunningExtraction fullDocsPath) ;;;
   filesToPromptOutput <- extractionBlock host n fullDocsPath ;;
   ret (filesToPromptOutput, match d with JStr x => x | _ => "" end))
    (print (console_log, MCloning r tmp) w).
Proof.
  intros H. unfold processSource_cloneAndExtract, interpolate.
  unfold bind at 1. rewrite H. reflexivity.
Qed.

End CloneAndDocs.

(** X15.  When the clone does not succeed, the source is given up at once:
    the exception is the error of the spawn itself, or "Failed to clone
    repository for", the name and the exit code, and the clone is the only
    command spawned: the docs path is not looked at and the extraction tool is
    not run.  When the repository value cannot be converted to a string, line
    213 throws and nothing is spawned or printed at all. *)
Theorem X15_clone_failure_stops_the_source
        (host : Host) (n : string) (r d : JsValue) (tmp : string) (w : World) :
  let x := processSource_cloneAndExtract host n r d tmp w in
  if convertible r then
    match spawn host (clock w) (disk w) (cloneCommand r tmp) None with
    | Raised e =>
        fst x = Throw e /\
        calls (snd x) = (calls w ++ [CallSpawn (cloneCommand r tmp) None])%list
    | Returned (res, d') =>
        if success res then True
        else
          fst x = Throw (Error ("Failed to clone repository for " ++ n ++ " (Exit Code: "
                                ++ exitCode_text (exitCode res) ++ ")")) /\
          calls (snd x) = (calls w ++ [CallSpawn (cloneCommand r tmp) None])%list /\
          In (console_error, MStderr (stderr res)) (console (snd x))
    end
  else
    (exists e, fst x = Throw e) /\ calls (snd x) = calls w /\ console (snd x) = console w.
Proof.
  cbv zeta. destruct (convertible r) eqn:Hconv;
    [|rewrite (cloneAndExtract_unconvertible host n r d tmp w Hconv);
      split; [now exists cannotConvert | split; reflexivity]].
  rewrite (cloneAndExtract_after_clone host n r d tmp w Hconv).
  pose proof (runCommand_cases host "git" [JStr "clone"; JStr "--depth=1"; r; JStr tmp] None
                (Some ("Failed to clone repository for " ++ n))
                (print (console_log, MCloning r tmp) w)) as H.
  cbv zeta in H. rewrite clock_print, disk_print in H.
  fold (cloneCommand r tmp) in H. destruct H as [Hc H].
  set (w0 := print (console_log, MCloning r tmp) w) in *.
  destruct (spawn host (clock w) (disk w) (cloneCommand r tmp) None) as [[res d']|e].
  - destruct H as [_ H]. destruct (success res); [exact I|].
    destruct H as [Hf Hl]. cbv zeta in Hf, Hl.
    assert (Ho : forall other, or_default (Some ("Failed to clone repository for " ++ n)) other
                               = "Failed to clone repository for " ++ n) by reflexivity.
    rewrite Ho in Hf, Hl. rewrite append_assoc in Hf.
    destruct (runCommand host "git" _ None _ w0) as [c w1] eqn:E. cbn [fst snd] in *.
    subst c. rewrite (bind_throw _ _ _ _ _ E). cbn [fst snd].
    split; [reflexivity|]. split; [exact Hc|]. rewrite Hl. in_console.
  - destruct H as [Hf _].
    destruct (runCommand host "git" _ None _ w0) as [c w1] eqn:E. cbn [fst snd] in *.
    subst c. rewrite (bind_throw _ _ _ _ _ E). cbn [fst snd]. now split.
Qed.

Lemma docs_check (host : Host) (n docs tmp : string) (w : World) :
  let full := Path.join_path [tmp; docs] in
  (fullDocsPath <- joinDocsPath tmp (JStr docs) ;;
   say console_log (MCheckingDocs fullDocsPath) ;;;
   there <- existsSync host fullDocsPath ;;
   (if negb there then
      throw (Error ("Documentation directory not found at specified path: " ++ fullDocsPath
                    ++ " (Relative path: " ++ docs ++ ")"))
    else ret tt) ;;;
   say console_log (MRunningExtraction fullDocsPath) ;;;
   filesToPromptOutput <- extractionBlock host n fullDocsPath ;;
   ret (filesToPromptOutput, docs)) w =
  match disk w (absolute host full) with
  | None =>
      (Throw (Error ("Documentation directory not found at specified path: " ++ full
                     ++ " (Relative path: " ++ docs ++ ")")),
       print (console_log, MCheckingDocs full) w)
  | Some _ =>
      (filesToPromptOutput <- extractionBlock host n full ;;
       ret (filesToPromptOutput, docs))
        (print (console_log, MRunningExtraction full)
               (print (console_log, MCheckingDocs full) w))
  end.
Proof.
  cbv zeta. unfold joinDocsPath.
  generalize (Path.join_path [tmp; docs]) as full. intros full.
  unfold bind at 1. unfold ret at 1. cbv beta iota.
  unfold bind at 1. unfold say at 1. cbv beta iota.
  unfold bind at 1. unfold existsSync at 1. cbv beta iota. rewrite disk_print.
  destruct (disk w (absolute host full)); reflexivity.
Qed.

(** X16.  After a clone that succeeds (which takes a repository value that
    can be converted to a string), the docs directory is looked for in the
    workspace before anything else is run.  A docs path that is no string is
    refused by [path.join]; a directory that is not there gives
    "Documentation directory not found", with the joined path and the path as
    configured; in both cases the clone stays the only command spawned.  When
    the directory is there, the next command is the version check of the
    extraction tool. *)
Theorem X16_docs_directory_checked_before_extraction
        (host : Host) (n : string) (r d : JsValue) (tmp : string) (w : World) :
  convertible r = true ->
  let x := processSource_cloneAndExtract host n r d tmp w in
  let clone := CallSpawn (cloneCommand r tmp) None in
  match spawn host (clock w) (disk w) (cloneCommand r tmp) None with
  | Returned (res, d') =>
      if success res then
        match d with
        | JStr docs =>
            let full := Path.join_path [tmp; docs] in
            match d' (absolute host full) with
            | None =>
                fst x = Throw (Error ("Documentation directory not found at specified path: "
                                      ++ full ++ " (Relative path: " ++ docs ++ ")")) /\
                calls (snd x) = (calls w ++ [clone])%list
            | Some _ =>
                exists rest,
                  calls (snd x) =
                  (calls w ++ clone ::
                         CallSpawn [JStr "files-to-prompt"; JStr "--version"] None :: rest)%list
            end
        | _ =>
            (exists e, fst x = Throw e) /\
            calls (snd x) = (calls w ++ [clone])%list
        end
      else True
  | Raised _ => True
  end.
Proof.
  intros Hconv. cbv zeta. rewrite (cloneAndExtract_after_clone host n r d tmp w Hconv).
  pose proof (runCommand_cases host "git" [JStr "clone"; JStr "--depth=1"; r; JStr tmp] None
                (Some ("Failed to clone repository for " ++ n))
                (print (console_log, MCloning r tmp) w)) as H.
  cbv zeta in H. rewrite clock_print, disk_print in H.
  fold (cloneCommand r tmp) in H. destruct H as [Hc H].
  set (w0 := print (console_log, MCloning r tmp) w) in *.
  destruct (spawn host (clock w) (disk w) (cloneCommand r tmp) None) as [[res d']|e];
    [|exact I].
  destruct H as [Hd H]. destruct (success res); [|exact I]. destruct H as [Hf _].
  destruct (runCommand host "git" _ None _ w0) as [c w1] eqn:E. cbn [fst snd] in *.
  subst c. rewrite (bind_normal _ _ _ _ _ E).
  change (calls w0) with (calls w) in Hc.
  destruct d as [| |b|z|docs|items|fields];
    try (cbn [fst snd]; split; [eexists; reflexivity | exact Hc]).
  rewrite (docs_check host n docs tmp w1). cbv zeta. rewrite Hd.
  destruct (d' (absolute host (Path.join_path [tmp; docs]))) as [node|].
  - destruct (extractionBlock_first_call host n (Path.join_path [tmp; docs])
                (print (console_log, MRunningExtraction (Path.join_path [tmp; docs]))
                       (print (console_log, MCheckingDocs (Path.join_path [tmp; docs])) w1)))
      as [rest Hr].
    exists rest. unfold bind, ret.
    destruct (extractionBlock host n _ _) as [[out|e|st] w2]; cbn [snd] in *;
      rewrite Hr; cbn [calls print]; rewrite Hc, <- app_assoc; reflexivity.
  - cbn [fst snd]. split; [reflexivity | exact Hc].
Qed.

(** X16 at the sample host whose clone brings no docs directory. *)
Lemma X16_witness :
  fst (processSource_cloneAndExtract MoreSamples.docsMissing "Bun" (JStr Samples.repoUrl)
         (JStr "docs") "repo_temp/bun" Samples.start)
  = Throw (Error ("Documentation directory not found at specified path: repo_temp/bun/docs"
                  ++ " (Relative path: docs)")) /\
  calls (snd (processSource_cloneAndExtract MoreSamples.docsMissing "Bun"
                (JStr Samples.repoUrl) (JStr "docs") "repo_temp/bun" Samples.start))
  = [CallSpawn (cloneCommand (JStr Samples.repoUrl) "repo_temp/bun") None].
Proof.
  exact (X16_docs_directory_checked_before_extraction MoreSamples.docsMissing "Bun"
           (JStr Samples.repoUrl) (JStr "docs") "repo_temp/bun" Samples.start eq_refl).
Defined.

(* ------------------------------------------------------------------ *)
(** ** More on the loader *)

Section MoreLoader.
Variable host : Host.

Lemma hasRequiredKeys_not_object (data : JsValue) :
  (forall fields, data <> JObj fields) ->
  match data with
  | JUndefined | JNull => exists e, hasRequiredKeys data = Raised e
  | _ => hasRequiredKeys data = Returned false
  end.
Proof.
  intros H. destruct data as [| |b|z|str|items|fields]; try reflexivity.
  - eexists. reflexivity.
  - eexists. reflexivity.
  - exfalso. now apply (H fields).
Qed.

Lemma strings_of (args : list JsValue) :
  forallb is_string args = true -> exists strings, args = map JStr strings.
Proof.
  induction args as [|arg more IH]; intros H.
  - now exists [].
  - cbn [forallb] in H. apply andb_true_iff in H as [Ha Hm].
    destruct (IH Hm) as [strings ->].
    destruct arg as [| |b|z|str|items|fields]; try discriminate.
    now exists (str :: strings).
Qed.

(** Each of the sources that the files give is the source of one of them. *)
Lemma fileSources_in (args : list string) :
  forall (k : nat) (d : Disk) (s : SourceSpec),
    In s (fileSources host k d args) ->
    exists arg k', In arg args /\ fileSource host k' d arg = Some s.
Proof.
  induction args as [|arg more IH]; intros k d s Hs; [contradiction|].
  cbn [fileSources] in Hs. apply in_app_or in Hs as [Hs|Hs].
  - destruct (fileSource host k d arg) as [s'|] eqn:E; [|contradiction].
    destruct Hs as [->|[]]. exists arg, k. split; [now left | exact E].
  - destruct (IH _ d s Hs) as (a & k' & Ha & E). exists a, k'. split; [now right | exact E].
Qed.

(** An argument that is no string makes the loop throw; the files named
    before it have been read by then, and the disk is as it was. *)
Lemma run_loadFiles_throws (args : list JsValue) :
  forallb is_string args = false ->
  forall (state : list SourceSpec * bool) (w : World),
    exists e w', run_loadFiles host args state w = (Throw e, w') /\ disk w' = disk w.
Proof.
  induction args as [|arg more IH]; intros H state w; [discriminate|].
  cbn [forallb] in H. cbn [run_loadFiles].
  destruct (is_string arg) eqn:Ea.
  - destruct arg as [| |b|z|str|items|fields]; try discriminate.
    destruct (run_loadFile_spec host state str w) as (w1 & Hstep & Hd1 & _).
    cbn [andb] in H.
    destruct (fileSource host (clock w) (disk w) str) as [s|];
      rewrite (bind_normal _ _ _ _ _ Hstep);
      [destruct (IH H ((fst state ++ [s])%list, snd state || negb (convertible (name s))) w1)
         as (e & w' & E & Hd)
      |destruct (IH H (fst state, true) w1) as (e & w' & E & Hd)];
      exists e, w'; (split; [exact E | congruence]).
  - rewrite (bind_throw _ _ _ _ _ (run_loadFile_not_string host state arg w Ea)).
    now exists (Error "sourceFileArg.startsWith is not a function"), w.
Qed.

End MoreLoader.

(** X17.  When every argument is a string, the loop over the configuration
    files goes through all of them and returns.  Every source it adds has the
    three values truthy and is named after one of the files; the sources that
    were there stay, in order, before the new ones; the error flag ends up
    set exactly when it was set before, or some file has added no source, or
    the name of an added source cannot be converted to a string for the
    message of line 296.  When some argument is no string (minimist gives a
    number for an argument that reads as one), the loop throws.  The disk is
    not changed in either case. *)
Theorem X17_loader_keeps_only_complete_sources
        (host : Host) (args : list JsValue) (state : list SourceSpec * bool) (w : World) :
  if forallb is_string args then
    exists added w',
      run_loadFiles host args state w =
        (Normal ((fst state ++ added)%list,
                 snd state || negb (length added =? length args)%nat ||
                 existsb (fun s => negb (convertible (name s))) added), w') /\
      Forall (fun s => valid_source s = true) added /\
      Forall (fun s => exists arg, In (JStr arg) args /\
                                   sourceOrigin s =
                                   Path.basename (sourceFilePath (cwd host) arg))
             added /\
      length added <= length args /\
      disk w' = disk w
  else
    exists e w', run_loadFiles host args state w = (Throw e, w') /\ disk w' = disk w.
Proof.
  destruct (forallb is_string args) eqn:Hs; [|now apply run_loadFiles_throws].
  destruct (strings_of args Hs) as [strings ->].
  destruct (run_loadFiles_spec host strings state w) as (w' & E & Hd). cbv zeta in E.
  exists (fileSources host (clock w) (disk w) strings), w'.
  rewrite length_map. split; [exact E|]. split; [|split; [|split; [|exact Hd]]].
  - apply Forall_forall. intros s Hin.
    destruct (fileSources_in host strings _ _ s Hin) as (arg & k' & _ & Hf).
    now apply (fileSource_valid host k' (disk w) arg s).
  - apply Forall_forall. intros s Hin.
    destruct (fileSources_in host strings _ _ s Hin) as (arg & k' & Ha & Hf).
    exists arg. split; [now apply in_map|].
    now apply (fileSource_valid host k' (disk w) arg s).
  - apply fileSources_length.
Qed.

(** X18.  A configuration file whose JSON text is no object is never added:
    [null] makes the reading of the fields throw, which is reported as an
    error of the file; a boolean, a number, a string or an array has none of
    the three fields, which is reported as missing keys.  Either way the
    sources stay as they were and the error flag is set. *)
Theorem X18_only_objects_are_accepted
        (host : Host) (state : list SourceSpec * bool) (arg content : string)
        (data : JsValue) (w : World) :
  let p := sourceFilePath (cwd host) arg in
  let r := run_loadFile host state (JStr arg) w in
  (forall fields, data <> JObj fields) ->
  disk w (absolute host p) = Some (File content) ->
  read_fault host (clock w) (disk w) p = None ->
  JSON_parse host content = Returned data ->
  fst r = Normal (fst state, true) /\
  match data with
  | JUndefined | JNull =>
      exists msg, console (snd r) =
                  (console w ++ [(console_log, MLoadingFile p);
                                 (console_error, MBadFile p msg)])%list
  | _ => console (snd r) =
         (console w ++ [(console_log, MLoadingFile p); (console_error, MMissingKeys p)])%list
  end.
Proof.
  intros p r Hobj Hd Hr Hp. subst r. destruct state as [sources hasErrors].
  pose proof (hasRequiredKeys_not_object data Hobj) as Hk.
  unfold run_loadFile, run_loadFile_catch, bind, say, existsSync, try_catch, readFileSync, ret.
  cbv beta iota zeta. fold p. rewrite disk_print, Hd.
  cbv beta iota zeta. rewrite disk_print, clock_print, Hd, Hr, Hp.
  cbn [of_outcome]. unfold ret. cbv beta iota zeta.
  destruct data as [| |b|z|str|items|fields];
    [destruct Hk as [e Hk] | destruct Hk as [e Hk] | | | | |];
    rewrite Hk; cbn [of_outcome]; unfold ret, throw; cbv beta iota zeta;
    cbn [fst snd console print called]; rewrite <- app_assoc;
    (split; [reflexivity|]); try reflexivity; now exists (message e).
Qed.

(** X18 at a file that holds [null]. *)
Lemma X18_witness :
  fst (run_loadFile (MoreSamples.parsesTo JNull) ([], false) (JStr "bun.json") Samples.start)
  = Normal ([], true).
Proof.
  refine (proj1 (X18_only_objects_are_accepted (MoreSamples.parsesTo JNull) ([], false)
                   "bun.json" "bun" JNull Samples.start _ _ _ _));
    [intros fields; discriminate | reflexivity | reflexivity | reflexivity].
Defined.

(* ------------------------------------------------------------------ *)
(** ** More on the tally *)

Lemma has_string_name_true (s : SourceSpec) (n : string) :
  name s = JStr n -> has_string_name s = true.
Proof. unfold has_string_name. now intros ->. Qed.

Lemma has_string_name_false (s : SourceSpec) :
  (forall n, name s <> JStr n) -> has_string_name s = false.
Proof.
  unfold has_string_name. intros H.
  destruct (name s) as [| |b|z|str|items|fields]; try reflexivity.
  exfalso. now apply (H str).
Qed.

Lemma run_loop_tally (host : Host) (sources : list SourceSpec) :
  forall sc fc w,
    fst (run_loop host sources sc fc w) =
    Normal (sc + length (filter has_string_name sources),
            fc + length (filter (fun s => negb (has_string_name s)) sources)).
Proof.
  induction sources as [|s more IH]; intros sc fc w.
  - cbn. now rewrite !Nat.add_0_r.
  - rewrite run_loop_step. cbn [filter].
    destruct (name_string_or_not s) as [[n Hn]|Hn].
    + rewrite (processSource_run host s n w Hn), IH.
      rewrite (has_string_name_true s n Hn). cbn [negb length].
      f_equal. f_equal. lia.
    + destruct (processSource_throws host s w Hn) as (e & w1 & ->). rewrite IH.
      rewrite (has_string_name_false s Hn). cbn [negb length].
      f_equal. f_equal. lia.
Qed.

Lemma count_split (sources : list SourceSpec) :
  length (filter (fun s => negb (has_string_name s)) sources) =
  length sources - length (filter has_string_name sources).
Proof.
  induction sources as [|s more IH]; [reflexivity|]. cbn [filter].
  pose proof (filter_length_le has_string_name more) as Hle.
  destruct (has_string_name s); cbn [negb length]; lia.
Qed.

(** X19.  The two counters of the loop count names, not outcomes: a source
    is a success when its name is a string and a failure when it is not,
    whatever the clone, the extraction, the generation and the saving do.
    The loop always runs to its end. *)
Theorem X19_tally_counts_names
        (host : Host) (sources : list SourceSpec) (sc fc : nat) (w : World) :
  fst (run_loop host sources sc fc w) =
  Normal (sc + length (filter has_string_name sources),
          fc + length (filter (fun s => negb (has_string_name s)) sources)).
Proof. apply run_loop_tally. Qed.

Lemma run_summary
        (host : Host) (args : list JsValue) (w : World)
        (sources : list SourceSpec) (hasErrors : bool) (w1 : World) :
  run_load host args w = (Normal (sources, hasErrors), w1) ->
  exists w2,
    run host args w =
    (Normal tt,
     print (if hasErrors ||
               (0 <? length sources - length (filter has_string_name sources))%nat
            then (console_error, MSomeFailed)
            else (console_log, MAllOk))
       (print (console_log, MRule)
          (print (console_log,
                  MFailures (length sources - length (filter has_string_name sources)))
             (print (console_log, MSuccesses (length (filter has_string_name sources)))
                (print (console_log, MTotal (length sources))
                   (print (console_log, MComplete) w2)))))).
Proof.
  intros Hl. unfold run.
  rewrite (bind_normal _ _ _ _ _ Hl). cbv beta iota zeta.
  unfold bind at 1. unfold say at 1. cbv beta iota zeta. unfold bind at 1.
  pose proof (run_loop_tally host sources 0 0
                (print (console_log, MStarting (length sources)) w1)) as Ht.
  rewrite count_split in Ht. cbn [Nat.add] in Ht.
  destruct (run_loop host sources 0 0 _) as [c w2]. cbn [fst] in Ht. subst c.
  exists w2. cbv beta iota zeta. unfold bind, say. cbv beta iota zeta.
  destruct (hasErrors || _); reflexivity.
Qed.

(** X20.  Once the loader has given sources, [run] returns normally and the
    console ends with the summary: the total is the number of sources, the
    successes are the sources whose name is a string, the failures are the
    others, and the last line tells of a failure exactly when the loader had
    recorded an error or there is a failure. *)
Theorem X20_summary_of_the_run
        (host : Host) (args : list JsValue) (w : World)
        (sources : list SourceSpec) (hasErrors : bool) (w1 : World) :
  run_load host args w = (Normal (sources, hasErrors), w1) ->
  let ok := length (filter has_string_name sources) in
  let failed := length sources - ok in
  fst (run host args w) = Normal tt /\
  exists before,
    console (snd (run host args w)) =
    (before ++ [(console_log, MComplete);
                (console_log, MTotal (length sources));
                (console_log, MSuccesses ok);
                (console_log, MFailures failed);
                (console_log, MRule);
                if hasErrors || (0 <? failed)%nat
                then (console_error, MSomeFailed)
                else (console_log, MAllOk)])%list.
Proof.
  intros Hl ok failed.
  destruct (run_summary host args w sources hasErrors w1 Hl) as [w2 ->].
  split; [reflexivity|]. exists (console w2). cbn [fst snd console print].
  now rewrite <- !app_assoc.
Qed.

(** X20 at a run with two files, the first of which gives a name that is a
    number. *)
Lemma X20_witness :
  exists before,
    console (snd (run Samples.numberName [JStr "number.json"; JStr "bun.json"]
                      Samples.start)) =
    (before ++ [(console_log, MComplete);
                (console_log, MTotal 2);
                (console_log, MSuccesses 1);
                (console_log, MFailures 1);
                (console_log, MRule);
                (console_error, MSomeFailed)])%list.
Proof.
  refine (proj2 (X20_summary_of_the_run Samples.numberName
                   [JStr "number.json"; JStr "bun.json"]
                   Samples.start [Samples.numberSource; Samples.bunSource] false
                   (snd (run_load Samples.numberName [JStr "number.json"; JStr "bun.json"]
                           Samples.start)) _)).
  apply injective_projections; [vm_compute; reflexivity | reflexivity].
Defined.

(* ------------------------------------------------------------------ *)
(** ** More on paths and text *)

Lemma resolve_scan_absolute (cwd : string) :
  Path.isAbsolute cwd = true ->
  forall from_right resolved,
    snd (Path.resolve_scan (from_right ++ [cwd])%list resolved) = true.
Proof.
  intros Hc. induction from_right as [|p more IH]; intros resolved.
  - cbn. destruct cwd as [|c rest]; [discriminate|]. cbn [String.eqb].
    rewrite Hc. reflexivity.
  - cbn [app Path.resolve_scan].
    destruct (p =? ""); [apply IH|]. destruct (Path.isAbsolute p); [reflexivity | apply IH].
Qed.

Lemma resolve_absolute (cwd : string) (args : list string) :
  Path.isAbsolute cwd = true -> Path.isAbsolute (Path.resolve cwd args) = true.
Proof.
  intros Hc. unfold Path.resolve.
  pose proof (resolve_scan_absolute cwd Hc (rev args) "") as H.
  destruct (Path.resolve_scan _ _) as [resolved absolute]. cbn [snd] in H.
  subst absolute. reflexivity.
Qed.

Lemma leading_slash (arg : string) :
  Path.isAbsolute arg = true -> exists rest, arg = String "/"%char rest.
Proof.
  destruct arg as [|c rest]; [discriminate|].
  destruct c as [[] [] [] [] [] [] [] []]; try discriminate. now exists rest.
Qed.

(** X21.  With an absolute working directory, the path a configuration file
    is loaded from is absolute, whatever the argument; and an argument that
    is absolute is resolved without the working directory. *)
Theorem X21_source_file_path_is_absolute (cwd arg : string) :
  Path.isAbsolute cwd = true ->
  Path.isAbsolute (sourceFilePath cwd arg) = true /\
  (Path.isAbsolute arg = true ->
   forall other, sourceFilePath other arg = sourceFilePath cwd arg).
Proof.
  intros Hc. split.
  - unfold sourceFilePath. destruct (_ || _); now apply resolve_absolute.
  - intros Ha other. destruct (leading_slash arg Ha) as [rest ->]. reflexivity.
Qed.

(** X21 at the working directory of the container. *)
Lemma X21_witness :
  Path.isAbsolute (sourceFilePath "/app" "../etc/bun.json") = true.
Proof. exact (proj1 (X21_source_file_path_is_absolute "/app" "../etc/bun.json" eq_refl)). Defined.

Lemma split_not_nil (sep : ascii) (s : string) : JsString.split sep s <> [].
Proof.
  destruct s as [|c s]; cbn; [discriminate|].
  destruct (Ascii.eqb c sep); [discriminate|].
  destruct (JsString.split sep s); discriminate.
Qed.

Lemma join_cons (sep x : string) (rest : list string) :
  rest <> [] -> JsString.join sep (x :: rest) = x ++ sep ++ JsString.join sep rest.
Proof. destruct rest; [contradiction | reflexivity]. Qed.

Lemma join_split (sep : ascii) (s : string) :
  JsString.join (String sep EmptyString) (JsString.split sep s) = s.
Proof.
  induction s as [|c s IH]; [reflexivity|]. cbn [JsString.split].
  pose proof (split_not_nil sep s) as Hn.
  destruct (Ascii.eqb_spec c sep) as [->|Hc].
  - rewrite join_cons by exact Hn. rewrite IH. reflexivity.
  - destruct (JsString.split sep s) as [|h t]; [contradiction|].
    destruct t as [|h2 t].
    + cbn in IH |- *. now rewrite IH.
    + rewrite join_cons in IH |- * by discriminate.
      cbn [append] in IH |- *. now rewrite IH.
Qed.

(** X22.  The snippet printed with the warning about the heading is the
    whole text when the text has at most fifteen lines. *)
Theorem X22_short_text_is_shown_whole (text : string) :
  length (JsString.split (ascii_of_nat 10) text) <= 15 ->
  snippetOf text = text.
Proof.
  intros H. unfold snippetOf. cbv zeta.
  rewrite firstn_all2 by exact H.
  replace (15 <? length (JsString.split (ascii_of_nat 10) text))%nat with false
    by (symmetry; apply Nat.ltb_ge; exact H).
  unfold nl. rewrite join_split. apply append_empty_r.
Qed.

(** X22 at a text of two lines. *)
Lemma X22_witness :
  snippetOf ("# Bun" ++ nl ++ "Fast.") = "# Bun" ++ nl ++ "Fast.".
Proof. apply X22_short_text_is_shown_whole. vm_compute. lia. Defined.

(* ------------------------------------------------------------------ *)
(** ** More on the whole process *)

(** X23.  When every argument of the command line is a string, the status
    of the process is decided before the first source is attempted.  Without
    the credential the process ends with status 1 and nothing has been called.
    With it, the process ends with status 1, no source attempted, when no
    source is resolved: none of the named files is there, readable, the JSON
    text of an object and complete, or, without arguments, the environment is
    incomplete.  Otherwise it runs every resolved source, in order, whatever
    happens to each, and ends with status 0. *)
Theorem X23_exit_status_with_string_arguments
        (host : Host) (args : list string) (w : World) :
  argv host = map JStr args ->
  let r := main host w in
  let sources := resolvedSources host args w in
  if truthy_str (env host "GEMINI_API_KEY") then
    fst r = match sources with [] => Exit 1 | _ => Normal tt end /\
    exit_status (fst r) = match sources with [] => 1%Z | _ => 0%Z end /\
    attempts (snd r) = (attempts w ++ attempt_lines sources)%list
  else
    fst r = Exit 1 /\ exit_status (fst r) = 1%Z /\
    attempts (snd r) = attempts w /\ calls (snd r) = calls w.
Proof.
  intros Hargs r sources.
  destruct (truthy_str (env host "GEMINI_API_KEY")) eqn:Ekey.
  - set (w0 := print (console_log,
                      MUsingModel (or_default (env host "GEMINI_MODEL") DEFAULT_MODEL)) w).
    assert (Hm : main host w = run host (map JStr args) w0).
    { unfold main. rewrite Ekey, Hargs. reflexivity. }
    destruct (run_strings host args w0) as (w' & Hrun & Hatt).
    change (resolvedSources host args w0) with sources in Hrun, Hatt.
    assert (H0 : attempts w0 = attempts w) by (apply attempts_print; reflexivity).
    rewrite H0 in Hatt.
    unfold r. rewrite Hm, Hrun. cbn [fst snd].
    split; [reflexivity|]. split; [now destruct sources | exact Hatt].
  - assert (Hm : main host w = (Exit 1, print (console_error, MNoApiKey) w)).
    { unfold main. rewrite Ekey. reflexivity. }
    unfold r. rewrite Hm. simpl. repeat split.
    apply attempts_print. reflexivity.
Qed.

(** X23 at the sample host whose only source fails to clone. *)
Lemma X23_witness :
  exit_status (fst (main Samples.cloneFails Samples.start)) = 0%Z /\
  attempts (snd (main Samples.cloneFails Samples.start)) = [attempt_line Samples.bunSource].
Proof.
  pose proof (X23_exit_status_with_string_arguments Samples.cloneFails ["bun.json"]
                Samples.start eq_refl) as H.
  cbv zeta in H.
  change (truthy_str (env Samples.cloneFails "GEMINI_API_KEY")) with true in H.
  change (resolvedSources Samples.cloneFails ["bun.json"] Samples.start)
    with [Samples.bunSource] in H.
  cbv iota in H. destruct H as (_ & H2 & H3). split; [exact H2 | exact H3].
Defined.
